(** * File organizer: classification, naming and per-file processing

    A shallow embedding of [organizer.py] (class [FileOrganizer]) and the
    properties of its specification.

    Python values are modelled as follows.
    - [str]: a list of Unicode code points ([list N]).  String literals of
      the source are written as Rocq strings (UTF-8 bytes) and decoded by
      [u8].
    - [bytes] / file contents: a list of byte values ([list N], each below 256).
    - [int]: [Z] for the name counter, [nat] for the run statistics, which
      only ever grow from zero.
    - [None]-or-[str] dictionary values: [option (list N)].
    - [dict] in insertion order: an association list.
    - the destination tree: a finite map from (sub-directory, file name) to
      file contents.
    The primitives of the Python runtime whose behaviour rests on Unicode
    tables ([str.lower], the class [\d] of module [re]) are an interface,
    [PyUnicode], of which one instance is given. *)

From stdpp Require Import gmap list strings.
From Stdlib Require Import ZArith NArith DecimalN DecimalZ Lia.

Abbreviation pystr := (list N) (only parsing).
Abbreviation pybytes := (list N) (only parsing).

(** ** Text layer *)

Module Utf8.
Local Open Scope N_scope.

Definition is_surrogate (c : N) : bool := (0xD800 <=? c) && (c <? 0xE000).

Definition is_cont (b : N) : bool := (0x80 <=? b) && (b <? 0xC0).

(** The codec [utf-8] with [errors='strict']: a code point is encoded on one
    to four bytes; surrogates and values above U+10FFFF cannot be encoded. *)
Definition encode_cp (c : N) : option pybytes :=
  if c <? 0x80 then Some [c]
  else if c <? 0x800 then Some [0xC0 + c / 64; 0x80 + c mod 64]
  else if c <? 0x10000 then
    if is_surrogate c then None
    else Some [0xE0 + c / 4096; 0x80 + (c / 64) mod 64; 0x80 + c mod 64]
  else if c <? 0x110000 then
    Some [0xF0 + c / 262144; 0x80 + (c / 4096) mod 64;
          0x80 + (c / 64) mod 64; 0x80 + c mod 64]
  else None.

Fixpoint encode (s : pystr) : option pybytes :=
  match s with
  | [] => Some []
  | c :: s' =>
      match encode_cp c, encode s' with
      | Some bs, Some bs' => Some (bs ++ bs')
      | _, _ => None
      end
  end.

(** Strict decoding: over-long forms, surrogates, stray continuation bytes
    and truncated sequences are rejected. *)
Fixpoint decode (bs : pybytes) : option pystr :=
  match bs with
  | [] => Some []
  | b0 :: r0 =>
      if b0 <? 0x80 then cons b0 <$> decode r0
      else if b0 <? 0xC0 then None
      else if b0 <? 0xE0 then
        match r0 with
        | b1 :: r1 =>
            let c := (b0 - 0xC0) * 64 + (b1 - 0x80) in
            if is_cont b1 && (0x80 <=? c) then cons c <$> decode r1 else None
        | _ => None
        end
      else if b0 <? 0xF0 then
        match r0 with
        | b1 :: b2 :: r2 =>
            let c := ((b0 - 0xE0) * 64 + (b1 - 0x80)) * 64 + (b2 - 0x80) in
            if is_cont b1 && is_cont b2 && (0x800 <=? c) && negb (is_surrogate c)
            then cons c <$> decode r2 else None
        | _ => None
        end
      else if b0 <? 0xF8 then
        match r0 with
        | b1 :: b2 :: b3 :: r3 =>
            let c := (((b0 - 0xF0) * 64 + (b1 - 0x80)) * 64 + (b2 - 0x80)) * 64
                     + (b3 - 0x80) in
            if is_cont b1 && is_cont b2 && is_cont b3
               && (0x10000 <=? c) && (c <? 0x110000)
            then cons c <$> decode r3 else None
        | _ => None
        end
      else None
  end.

Definition bytes_of_string (s : string) : pybytes :=
  Ascii.N_of_ascii <$> String.list_ascii_of_string s.

End Utf8.

(** A source literal: the code points of a UTF-8 encoded Rocq string. *)
Definition u8 (s : string) : pystr :=
  default [] (Utf8.decode (Utf8.bytes_of_string s)).

Module Str.
Local Open Scope N_scope.

(** [s.startswith(k)] *)
Fixpoint startswith (k s : pystr) : bool :=
  match k, s with
  | [], _ => true
  | _ :: _, [] => false
  | x :: k', y :: s' => (x =? y) && startswith k' s'
  end.

(** [k in s] for two strings: [k] occurs in [s] as a contiguous run. *)
Fixpoint contains (k s : pystr) : bool :=
  startswith k s || match s with [] => false | _ :: s' => contains k s' end.

(** [x in l] for a list of strings. *)
Definition mem (x : pystr) (l : list pystr) : bool := bool_decide (x ∈ l).

(** ['_'.join(parts)] and friends. *)
Fixpoint join (sep : pystr) (parts : list pystr) : pystr :=
  match parts with
  | [] => []
  | [p] => p
  | p :: rest => p ++ sep ++ join sep rest
  end.

(** [s.rfind(c)] for a one-character needle: the index of its last
    occurrence, [-1] when there is none. *)
Fixpoint rfind (c : N) (s : pystr) : Z :=
  match s with
  | [] => (-1)%Z
  | x :: s' =>
      let r := rfind c s' in
      if (0 <=? r)%Z then (r + 1)%Z
      else if x =? c then 0%Z else (-1)%Z
  end.

(** [s.split(c)] for a one-character separator. *)
Fixpoint split (c : N) (s : pystr) : list pystr :=
  match s with
  | [] => [[]]
  | x :: s' =>
      if x =? c then [] :: split c s'
      else match split c s' with
           | [] => [[x]]
           | w :: ws => (x :: w) :: ws
           end
  end.

Definition ascii_lower_cp (c : N) : N :=
  if (65 <=? c) && (c <=? 90) then c + 32 else c.

Definition ascii_digit (c : N) : bool := (48 <=? c) && (c <=? 57).

(** Code points that lower-casing leaves alone wherever they stand: the
    letters a-z and the Russian letters U+0430..U+044F. *)
Definition lower_stable (c : N) : bool :=
  ((97 <=? c) && (c <=? 122)) || ((0x430 <=? c) && (c <=? 0x44F)).

End Str.

(** The part of the Python runtime that rests on the Unicode character
    database.  [str_lower] is [str.lower]; [re_digit] is the class [\d] of
    [re] on [str] patterns (every character of category Nd).  The laws are
    what the program's tables need: on ASCII both are the familiar ASCII
    functions, and lower-casing never disturbs a run of letters that are
    already lower-case (the only context-sensitive rule of [str.lower]
    concerns the Greek capital sigma). *)
Class PyUnicode := {
  str_lower : pystr → pystr;
  re_digit : N → bool;
  str_lower_ascii (s : pystr) :
    Forall (λ c, (c < 128)%N) s → str_lower s = Str.ascii_lower_cp <$> s;
  str_lower_keeps (pre k post : pystr) :
    forallb Str.lower_stable k = true →
    ∃ pre' post', str_lower (pre ++ k ++ post) = pre' ++ k ++ post';
  re_digit_ascii (c : N) : (c < 128)%N → re_digit c = Str.ascii_digit c
}.

(** An instance: simple per-character lower-casing of Basic Latin and of the
    Cyrillic block, every other code point unchanged; ASCII digits. *)
Module BasicUnicode.
Local Open Scope N_scope.

Definition lower_cp (c : N) : N :=
  if (65 <=? c) && (c <=? 90) then c + 32
  else if (0x410 <=? c) && (c <=? 0x42F) then c + 0x20
  else if (0x400 <=? c) && (c <=? 0x40F) then c + 0x50
  else c.

Definition lower (s : pystr) : pystr := lower_cp <$> s.

Definition digit (c : N) : bool := Str.ascii_digit c.

End BasicUnicode.

(** ** Regular expressions

    The fragment of [re] that the two date patterns use: a sequence of
    items, each a character class taken once or a capturing group of a
    class repeated a fixed number of times.  Such a pattern has one way to
    match at a position, so [re.search] is the match at the leftmost
    position where the pattern fits. *)
Module Re.

Inductive cset :=
  | Digit                 (* \d *)
  | OneOf (cs : pystr).   (* [...] *)

Inductive item :=
  | Capture (c : cset) (n : nat)   (* (c{n}) *)
  | Single (c : cset).

Definition pattern := list item.

Section Matcher.
Variable digit : N → bool.

Definition in_cset (cs : cset) (c : N) : bool :=
  match cs with
  | Digit => digit c
  | OneOf l => bool_decide (c ∈ l)
  end.

(** Exactly [n] characters of the class: the run and what follows it. *)
Fixpoint take_n (cs : cset) (n : nat) (s : pystr) : option (pystr * pystr) :=
  match n with
  | O => Some ([], s)
  | S n' =>
      match s with
      | c :: s' =>
          if in_cset cs c
          then (λ gr, (c :: gr.1, gr.2)) <$> take_n cs n' s'
          else None
      | [] => None
      end
  end.

(** The groups captured when the pattern matches at the head of [s]. *)
Fixpoint match_here (p : pattern) (s : pystr) : option (list pystr) :=
  match p with
  | [] => Some []
  | Capture cs n :: p' =>
      match take_n cs n s with
      | Some (g, r) => cons g <$> match_here p' r
      | None => None
      end
  | Single cs :: p' =>
      match s with
      | c :: r => if in_cset cs c then match_here p' r else None
      | [] => None
      end
  end.

(** [re.search(p, s)]: [match.groups()] of the leftmost match. *)
Fixpoint search (p : pattern) (s : pystr) : option (list pystr) :=
  match match_here p s with
  | Some g => Some g
  | None => match s with [] => None | _ :: s' => search p s' end
  end.
End Matcher.

End Re.

(** ** Paths

    [pathlib.PurePosixPath] as far as the program uses it: [name], [suffix]
    and [stem] (the definitions of Python 3.13 and earlier). *)
Module Path.

(** [Path(s).name]: the last component that is neither empty nor ['.']. *)
Definition name (s : pystr) : pystr :=
  List.last (List.filter (λ x, negb (bool_decide (x = [])) && negb (bool_decide (x = u8 ".")))
               (Str.split 47 s)) [].

(** [Path(s).suffix] *)
Definition suffix (s : pystr) : pystr :=
  let name := name s in
  let i := Str.rfind 46 name in
  if ((0 <? i) && (i <? Z.of_nat (length name) - 1))%Z
  then drop (Z.to_nat i) name else [].

(** [Path(s).stem] *)
Definition stem (s : pystr) : pystr :=
  let name := name s in
  let i := Str.rfind 46 name in
  if ((0 <? i) && (i <? Z.of_nat (length name) - 1))%Z
  then take (Z.to_nat i) name else name.

End Path.

(** ** Classification: [analyze_filename] *)

(** The dictionary built by [analyze_filename]. *)
Record FileInfo := {
  original_name : pystr;
  subject : option pystr;
  category : pystr;
  date : option pystr;
  file_type : pystr;
  new_name : option pystr
}.

Definition FILE_CATEGORIES : list (pystr * list pystr) :=
  [ (u8 "lecture",  [u8 "лекция"; u8 "lecture"; u8 "теория"; u8 "theory"; u8 "доклад"]);
    (u8 "practice", [u8 "практика"; u8 "practice"; u8 "задание"; u8 "task"; u8 "упражнение"]);
    (u8 "project",  [u8 "проект"; u8 "project"; u8 "курсовая"; u8 "диплом"; u8 "исследование"]);
    (u8 "lab",      [u8 "лаба"; u8 "lab"; u8 "лабораторная"; u8 "experiment"]);
    (u8 "material", [u8 "материал"; u8 "material"; u8 "ресурс"; u8 "resource"; u8 "дополнительно"]);
    (u8 "exam",     [u8 "экзамен"; u8 "exam"; u8 "зачет"; u8 "test"; u8 "контрольная"]) ].

Definition FILE_TYPES : list (pystr * list pystr) :=
  [ (u8 "documents",     [u8 ".pdf"; u8 ".doc"; u8 ".docx"; u8 ".txt"; u8 ".rtf"]);
    (u8 "presentations", [u8 ".ppt"; u8 ".pptx"; u8 ".key"]);
    (u8 "spreadsheets",  [u8 ".xls"; u8 ".xlsx"; u8 ".csv"]);
    (u8 "code",          [u8 ".py"; u8 ".java"; u8 ".cpp"; u8 ".js"; u8 ".html"; u8 ".css"; u8 ".sql"]);
    (u8 "archives",      [u8 ".zip"; u8 ".rar"; u8 ".7z"; u8 ".tar"; u8 ".gz"]);
    (u8 "images",        [u8 ".jpg"; u8 ".jpeg"; u8 ".png"; u8 ".gif"; u8 ".bmp"; u8 ".svg"]);
    (u8 "other",         []) ].

Definition subject_patterns : list (pystr * list pystr) :=
  [ (u8 "math",        [u8 "матема"; u8 "math"; u8 "алгебр"; u8 "геометр"]);
    (u8 "programming", [u8 "програм"; u8 "program"; u8 "код"; u8 "алгоритм"]);
    (u8 "database",    [u8 "баз"; u8 "database"; u8 "sql"; u8 "бд"]);
    (u8 "web",         [u8 "веб"; u8 "web"; u8 "html"; u8 "css"; u8 "js"]);
    (u8 "english",     [u8 "англ"; u8 "english"; u8 "инглиш"]);
    (u8 "physics",     [u8 "физик"; u8 "physics"]) ].

Definition date_patterns : list Re.pattern :=
  [ [Re.Capture Re.Digit 2; Re.Single (Re.OneOf (u8 "-.")); Re.Capture Re.Digit 2;
     Re.Single (Re.OneOf (u8 "-.")); Re.Capture Re.Digit 4];
    [Re.Capture Re.Digit 4; Re.Single (Re.OneOf (u8 "-.")); Re.Capture Re.Digit 2;
     Re.Single (Re.OneOf (u8 "-.")); Re.Capture Re.Digit 2] ].

(** [for label, items in table.items(): if test(items): ... = label; break]:
    the label of the first entry that passes, if any. *)
Fixpoint first_entry (test : list pystr → bool) (table : list (pystr * list pystr))
  : option pystr :=
  match table with
  | [] => None
  | (label, items) :: rest =>
      if test items then Some label else first_entry test rest
  end.

(** [any(k in name_lower for k in keywords)] *)
Definition any_in (name_lower : pystr) (keywords : list pystr) : bool :=
  existsb (λ k, Str.contains k name_lower) keywords.

(** The date loop, over a search function.  A match whose groups do not
    unpack into three falls into the [except: continue] branch. *)
Fixpoint find_date (search : Re.pattern → pystr → option (list pystr))
    (patterns : list Re.pattern) (filename : pystr) : option pystr :=
  match patterns with
  | [] => None
  | p :: rest =>
      match search p filename with
      | Some [g1; g2; g3] =>
          let '(year, month, day) :=
            if (length g1 =? 4)%nat then (g1, g2, g3) else (g3, g2, g1) in
          Some (year ++ u8 "-" ++ month ++ u8 "-" ++ day)
      | Some _ => find_date search rest filename
      | None => find_date search rest filename
      end
  end.

Section Classifier.
Context `{PyUnicode}.

Definition analyze_filename (filename : pystr) : FileInfo :=
  let name_lower := str_lower filename in
  let ext := str_lower (Path.suffix filename) in
  {| original_name := filename;
     subject := first_entry (any_in name_lower) subject_patterns;
     category := default (u8 "other") (first_entry (any_in name_lower) FILE_CATEGORIES);
     date := find_date (Re.search re_digit) date_patterns filename;
     file_type := default (u8 "other") (first_entry (Str.mem ext) FILE_TYPES);
     new_name := None |}.
End Classifier.

(** ** Naming: [generate_new_name] *)

Module Fmt.
Local Open Scope N_scope.

Fixpoint digits (d : Decimal.uint) : pystr :=
  match d with
  | Decimal.Nil => []
  | Decimal.D0 d => 48 :: digits d
  | Decimal.D1 d => 49 :: digits d
  | Decimal.D2 d => 50 :: digits d
  | Decimal.D3 d => 51 :: digits d
  | Decimal.D4 d => 52 :: digits d
  | Decimal.D5 d => 53 :: digits d
  | Decimal.D6 d => 54 :: digits d
  | Decimal.D7 d => 55 :: digits d
  | Decimal.D8 d => 56 :: digits d
  | Decimal.D9 d => 57 :: digits d
  end.

(** [str(n)] for a natural number. *)
Definition dec (n : N) : pystr := digits (N.to_uint n).

(** [f"{n:02d}"]: decimal, padded with zeros to a width of two, the sign
    counting towards the width. *)
Definition d02 (n : Z) : pystr :=
  if (n <? 0)%Z then 45 :: dec (Z.to_N (- n))
  else if (n <? 10)%Z then 48 :: dec (Z.to_N n)
  else dec (Z.to_N n).

(** The number a string of decimal digits denotes. *)
Definition value (s : pystr) : N :=
  fold_left (λ acc c, acc * 10 + (c - 48)) s 0.

End Fmt.

(** [generate_new_name(file_info, counter)].  [today] is what
    [datetime.now().strftime('%Y-%m-%d')] returns at the call.  The tests
    [if file_info['subject']] and [if file_info['date']] are truth tests:
    [None] and the empty string both fail them. *)
Definition generate_new_name (today : pystr) (file_info : FileInfo) (counter : Z) : pystr :=
  let name_parts :=
    [ match subject file_info with Some ((_ :: _) as s) => s | _ => u8 "unknown" end;
      category file_info;
      match date file_info with Some ((_ :: _) as d) => d | _ => today end;
      file_type file_info;
      Fmt.d02 counter ] in
  let ext := Path.suffix (original_name file_info) in
  Str.join (u8 "_") name_parts ++ ext.

(** The loop of [organize_file] that looks for an unused name:
    [counter = 1; while True: ...; if not new_path.exists(): break;
    counter += 1], run for at most [fuel] rounds.  [None] stands for a loop
    that is still running when the fuel is spent. *)
Fixpoint unique_name (fuel : nat) (today : pystr) (exists_ : pystr → bool)
    (file_info : FileInfo) (counter : Z) : option (Z * pystr) :=
  match fuel with
  | O => None
  | S fuel' =>
      let new_name := generate_new_name today file_info counter in
      if negb (exists_ new_name) then Some (counter, new_name)
      else unique_name fuel' today exists_ file_info (counter + 1)
  end.

(** ** JSON *)

Module Json.
Local Open Scope N_scope.

(** A [dict] whose values are strings or [None], in insertion order. *)
Definition dict := list (pystr * option pystr).

Fixpoint dict_set (k : pystr) (v : option pystr) (d : dict) : dict :=
  match d with
  | [] => [(k, v)]
  | (k', v') :: d' =>
      if bool_decide (k' = k) then (k, v) :: d' else (k', v') :: dict_set k v d'
  end.

Definition hex_digit (d : N) : N := if d <? 10 then 48 + d else 87 + d.

(** [json.encoder.py_encode_basestring] ([ensure_ascii=False]): the quote,
    the backslash and the control characters below U+0020 are escaped,
    everything else is written as it is. *)
Definition escape_cp (c : N) : pystr :=
  if c =? 92 then [92; 92]
  else if c =? 34 then [92; 34]
  else if c =? 8 then [92; 98]
  else if c =? 12 then [92; 102]
  else if c =? 10 then [92; 110]
  else if c =? 13 then [92; 114]
  else if c =? 9 then [92; 116]
  else if c <? 32 then [92; 117; 48; 48; hex_digit (c / 16); hex_digit (c mod 16)]
  else [c].

Definition encode_basestring (s : pystr) : pystr :=
  34 :: flat_map escape_cp s ++ [34].

Definition encode_value (v : option pystr) : pystr :=
  match v with
  | Some s => encode_basestring s
  | None => u8 "null"
  end.

(** The pieces that [json.dump(d, f, ensure_ascii=False, indent=2)] hands to
    [f.write], one after the other. *)
Fixpoint member_chunks (first : bool) (d : dict) : list pystr :=
  match d with
  | [] => []
  | (k, v) :: d' =>
      (if first then [] else [[44; 10; 32; 32]])
      ++ [encode_basestring k; u8 ": "; encode_value v]
      ++ member_chunks false d'
  end.

Definition chunks (d : dict) : list pystr :=
  match d with
  | [] => [u8 "{}"]
  | _ => [u8 "{"; [10; 32; 32]] ++ member_chunks true d ++ [[10]; u8 "}"]
  end.

(** [json.dumps(d, ensure_ascii=False, indent=2)] *)
Definition dumps (d : dict) : pystr := concat (chunks d).

Definition is_ws (c : N) : bool :=
  (c =? 32) || (c =? 9) || (c =? 10) || (c =? 13).

Fixpoint skip_ws (s : pystr) : pystr :=
  match s with
  | c :: s' => if is_ws c then skip_ws s' else s
  | [] => []
  end.

Definition unhex (c : N) : option N :=
  if (48 <=? c) && (c <=? 57) then Some (c - 48)
  else if (97 <=? c) && (c <=? 102) then Some (c - 87)
  else if (65 <=? c) && (c <=? 70) then Some (c - 55)
  else None.

Definition hex4 (a b c d : N) : option N :=
  match unhex a, unhex b, unhex c, unhex d with
  | Some x, Some y, Some z, Some w => Some (((x * 16 + y) * 16 + z) * 16 + w)
  | _, _, _, _ => None
  end.

Definition unescape (e : N) : option N :=
  if e =? 34 then Some 34
  else if e =? 92 then Some 92
  else if e =? 47 then Some 47
  else if e =? 98 then Some 8
  else if e =? 102 then Some 12
  else if e =? 110 then Some 10
  else if e =? 114 then Some 13
  else if e =? 116 then Some 9
  else None.

Definition push (c : N) (r : option (pystr * pystr)) : option (pystr * pystr) :=
  (λ sr, (c :: sr.1, sr.2)) <$> r.

(** Modelled from the spec: the reload of a metadata file.  The repository
    only writes metadata; [scanstring], [parse_value], [parse_members],
    [loads] and [load] follow [json.load] of the Python library (strict
    mode) on objects whose values are strings or [null], every other JSON
    value being refused. *)
Fixpoint scanstring (s : pystr) : option (pystr * pystr) :=
  match s with
  | [] => None
  | c :: r =>
      if c =? 34 then Some ([], r)
      else if c =? 92 then
        match r with
        | [] => None
        | e :: r1 =>
            if e =? 117 then
              match r1 with
              | h1 :: h2 :: h3 :: h4 :: r2 =>
                  match hex4 h1 h2 h3 h4 with
                  | None => None
                  | Some uni =>
                      if (0xD800 <=? uni) && (uni <=? 0xDBFF) then
                        match r2 with
                        | b :: l :: r3 =>
                            if (b =? 92) && (l =? 117) then
                              match r3 with
                              | k1 :: k2 :: k3 :: k4 :: r4 =>
                                  match hex4 k1 k2 k3 k4 with
                                  | None => None
                                  | Some uni2 =>
                                      if (0xDC00 <=? uni2) && (uni2 <=? 0xDFFF)
                                      then push (0x10000 + ((uni - 0xD800) * 1024
                                                            + (uni2 - 0xDC00)))
                                                (scanstring r4)
                                      else push uni (scanstring r2)
                                  end
                              | _ => None
                              end
                            else push uni (scanstring r2)
                        | _ => push uni (scanstring r2)
                        end
                      else push uni (scanstring r2)
                  end
              | _ => None
              end
            else
              match unescape e with
              | Some x => push x (scanstring r1)
              | None => None
              end
        end
      else if c <? 32 then None
      else push c (scanstring r)
  end.

Definition parse_value (s : pystr) : option (option pystr * pystr) :=
  match s with
  | c :: r =>
      if c =? 34 then (λ vr, (Some vr.1, vr.2)) <$> scanstring r
      else if Str.startswith (u8 "null") s then Some (None, drop 4 s)
      else None
  | [] => None
  end.

(** The members of an object, from the opening quote of a key up to and
    including the closing brace. *)
Fixpoint parse_members (fuel : nat) (acc : dict) (s : pystr) : option (dict * pystr) :=
  match fuel with
  | O => None
  | S fuel' =>
      match s with
      | q :: r =>
          if q =? 34 then
            match scanstring r with
            | Some (k, r1) =>
                match skip_ws r1 with
                | colon :: r2 =>
                    if colon =? 58 then
                      match parse_value (skip_ws r2) with
                      | Some (v, r3) =>
                          match skip_ws r3 with
                          | sep :: r4 =>
                              if sep =? 44 then
                                parse_members fuel' (dict_set k v acc) (skip_ws r4)
                              else if sep =? 125 then Some (dict_set k v acc, r4)
                              else None
                          | [] => None
                          end
                      | None => None
                      end
                    else None
                | [] => None
                end
            | None => None
            end
          else None
      | [] => None
      end
  end.

(** [json.loads(s)] *)
Definition loads (s : pystr) : option dict :=
  match skip_ws s with
  | open :: r =>
      if open =? 123 then
        match skip_ws r with
        | close :: r' =>
            if close =? 125
            then match skip_ws r' with [] => Some [] | _ => None end
            else
              match parse_members (length s) [] (close :: r') with
              | Some (d, rest) =>
                  match skip_ws rest with [] => Some d | _ => None end
              | None => None
              end
        | [] => None
        end
      else None
  | [] => None
  end.

(** [json.load(f)] for [f] opened with [encoding='utf-8']. *)
Definition load (file : pybytes) : option dict :=
  Utf8.decode file ≫= loads.

End Json.

(** [file_info] as the dictionary it is in the source. *)
Definition to_dict (i : FileInfo) : Json.dict :=
  [ (u8 "original_name", Some (original_name i));
    (u8 "subject", subject i);
    (u8 "category", Some (category i));
    (u8 "date", date i);
    (u8 "file_type", Some (file_type i));
    (u8 "new_name", new_name i) ].

(** Modelled from the spec: the reloaded dictionary taken back as a
    FileInfo.  The repository never reads its metadata; [dict_get] is
    [d[k]] and [of_dict] collects the six fields, the ones that are always
    strings having to be strings. *)
Definition dict_get (k : pystr) (d : Json.dict) : option (option pystr) :=
  snd <$> List.find (λ kv, bool_decide (kv.1 = k)) d.

Definition of_dict (d : Json.dict) : option FileInfo :=
  match dict_get (u8 "original_name") d, dict_get (u8 "subject") d,
        dict_get (u8 "category") d, dict_get (u8 "date") d,
        dict_get (u8 "file_type") d, dict_get (u8 "new_name") d with
  | Some (Some o), Some s, Some (Some c), Some dt, Some (Some t), Some n =>
      Some {| original_name := o; subject := s; category := c; date := dt;
              file_type := t; new_name := n |}
  | _, _, _, _, _, _ => None
  end.

(** ** Per-file processing: [organize_file], [save_file_info], [run] *)

Inductive level := DEBUG | INFO | ERROR.

(** [self.stats] without [start_time]. *)
Record Stats := {
  total_files : nat;
  processed : nat;
  skipped : nat;
  errors : nat;
  categories : gmap pystr nat
}.

(** What a call can change: the statistics, the calls made to the logger and
    the files below the target directory, keyed by sub-directory and name
    (the directories themselves are not represented). *)
Record World := {
  stats : Stats;
  log : list (level * pystr);
  tree : gmap (pystr * pystr) pybytes
}.

(** A file of the source directory: [file_path.name] and what
    [shutil.copy2] reads from it. *)
Record SourcePath := {
  name : pystr;
  contents : pybytes
}.

(** How a call of [shutil.copy2] ends: it completes, or it raises, having
    left nothing or some bytes at the destination. *)
Inductive copy_behaviour :=
  | CopyCompletes
  | CopyRaises (left_behind : option pybytes) (err : pystr).

(** How the writing of the metadata file ends once the file is open: every
    byte reaches the file, or a write or the flush at the closing of the
    file raises [OSError] (a full disk, a limit on the size of files), only
    the first [kept] bytes having reached the file. *)
Inductive write_behaviour :=
  | WriteCompletes
  | WriteRaises (kept : nat) (err : pystr).

(** What the surroundings decide during one call of [organize_file]: the
    date that [datetime.now()] shows (one date for the whole call), which
    of the file-system calls raise and with what [str(e)] ([mkdir], the
    copy, the opening of the metadata file, the writing of it), and the
    text of the [UnicodeEncodeError] that the metadata file raises for a
    string it cannot encode. *)
Record Env := {
  today : pystr;
  mkdir_error : option pystr;
  copy : copy_behaviour;
  metadata_error : option pystr;
  metadata_write : write_behaviour;
  encode_error_text : pystr
}.

(** How a computation ends: with a value, with an exception ([str(e)]), or
    not at all, a loop still running when the fuel given to it is spent. *)
Inductive result (A : Type) :=
  | Done (a : A)
  | Raised (err : pystr)
  | Hang.
Arguments Done {A} a.
Arguments Raised {A} err.
Arguments Hang {A}.

(** Computations on the world that may raise; what was changed before an
    exception stays changed. *)
Definition M (A : Type) : Type := World → result A * World.

Module Run.

Definition ret {A} (a : A) : M A := λ w, (Done a, w).

Definition bind {A B} (m : M A) (k : A → M B) : M B :=
  λ w, match m w with
       | (Done a, w') => k a w'
       | (Raised err, w') => (Raised err, w')
       | (Hang, w') => (Hang, w')
       end.

Definition raise {A} (err : pystr) : M A := λ w, (Raised err, w).

Definition hang {A} : M A := λ w, (Hang, w).

(** [try: m  except Exception as e: handler(str(e))] *)
Definition try_except {A} (m : M A) (handler : pystr → M A) : M A :=
  λ w, match m w with
       | (Raised err, w') => handler err w'
       | other => other
       end.

Definition get : M World := λ w, (Done w, w).

Definition update_stats (f : Stats → Stats) : M unit :=
  λ w, (Done tt, {| stats := f (stats w); log := log w; tree := tree w |}).

Definition write_file (path : pystr * pystr) (data : pybytes) : M unit :=
  λ w, (Done tt, {| stats := stats w; log := log w; tree := <[path := data]> (tree w) |}).

Definition logger (l : level) (msg : pystr) : M unit :=
  λ w, (Done tt, {| stats := stats w; log := log w ++ [(l, msg)]; tree := tree w |}).

End Run.

#[global] Instance M_ret : MRet M := @Run.ret.
#[global] Instance M_bind : MBind M := λ A B k m, Run.bind m k.

Definition incr_total_files (s : Stats) : Stats :=
  {| total_files := total_files s + 1; processed := processed s;
     skipped := skipped s; errors := errors s; categories := categories s |}.

Definition incr_processed (s : Stats) : Stats :=
  {| total_files := total_files s; processed := processed s + 1;
     skipped := skipped s; errors := errors s; categories := categories s |}.

Definition incr_skipped (s : Stats) : Stats :=
  {| total_files := total_files s; processed := processed s;
     skipped := skipped s + 1; errors := errors s; categories := categories s |}.

Definition incr_errors (s : Stats) : Stats :=
  {| total_files := total_files s; processed := processed s;
     skipped := skipped s; errors := errors s + 1; categories := categories s |}.

(** [if c not in categories: categories[c] = 0] then [categories[c] += 1] *)
Definition count_category (c : pystr) (s : Stats) : Stats :=
  let cats := match categories s !! c with
              | None => <[c := 0]> (categories s)
              | Some _ => categories s
              end in
  {| total_files := total_files s; processed := processed s;
     skipped := skipped s; errors := errors s;
     categories := <[c := default 0 (cats !! c) + 1]> cats |}.

Definition set_new_name (i : FileInfo) (n : pystr) : FileInfo :=
  {| original_name := original_name i; subject := subject i;
     category := category i; date := date i; file_type := file_type i;
     new_name := Some n |}.

(** The bytes that reach a text file opened with [encoding='utf-8'] when
    the pieces are written one after the other, and whether all of them
    could be encoded; the first piece that cannot be stops the writing. *)
Fixpoint write_chunks (chunks : list pystr) : pybytes * bool :=
  match chunks with
  | [] => ([], true)
  | c :: rest =>
      match Utf8.encode c with
      | Some bs => let '(bs', ok) := write_chunks rest in (bs ++ bs', ok)
      | None => ([], false)
      end
  end.

(** [save_file_info(file_info, file_path)], [file_path] being the new name
    inside its sub-directory.  An error of [mkdir] or [open] leaves the
    tree as it is.  Once [open(meta_file, 'w')] has succeeded the file
    exists, empty, and the [with] block closes it whatever happens: an
    error of the encoder leaves the file with what had been written before
    it; a write or a flush that fails, during [json.dump] or at the closing
    of the file, leaves the file with the bytes that had reached it, and its
    [OSError] is the exception that leaves the block, also when the encoder
    had raised first. *)
Definition save_file_info (e : Env) (file_info : FileInfo) (file_path : pystr) : M unit :=
  match metadata_error e with
  | Some err => Run.raise err
  | None =>
      let meta_file := (u8 "_metadata", Path.stem file_path ++ u8 ".json") in
      let '(data, ok) := write_chunks (Json.chunks (to_dict file_info)) in
      match metadata_write e with
      | WriteCompletes =>
          Run.write_file meta_file data ;;
          if ok then mret tt else Run.raise (encode_error_text e)
      | WriteRaises kept err =>
          Run.write_file meta_file (take kept data) ;;
          Run.raise err
      end
  end.

Definition mkdir (e : Env) : M unit :=
  match mkdir_error e with
  | Some err => Run.raise err
  | None => mret tt
  end.

Definition copy2 (e : Env) (src : SourcePath) (dst : pystr * pystr) : M unit :=
  match copy e with
  | CopyCompletes => Run.write_file dst (contents src)
  | CopyRaises left_behind err =>
      match left_behind with
      | Some part => Run.write_file dst part
      | None => mret tt
      end ;;
      Run.raise err
  end.

(** The system files that [organize_file] leaves out. *)
Definition is_system_file (n : pystr) : bool :=
  Str.startswith (u8 ".") n || Str.mem n [u8 "desktop.ini"; u8 "thumbs.db"].

Section Organizer.
Context `{PyUnicode}.

(** [organize_file(file_path)].  The [while True] loop runs on a fuel of
    one more than the number of files in the tree. *)
Definition organize_file (e : Env) (file_path : SourcePath) : M bool :=
  Run.try_except
    (let file_info := analyze_filename (name file_path) in
     Run.update_stats incr_total_files ;;
     if is_system_file (name file_path) then
       Run.logger DEBUG (u8 "Пропущен системный файл: " ++ name file_path) ;;
       Run.update_stats incr_skipped ;;
       mret false
     else
       let target_subdir := category file_info in
       mkdir e ;;
       w ← Run.get ;
       match unique_name (S (size (tree w))) (today e)
               (λ n, bool_decide (is_Some (tree w !! (target_subdir, n))))
               file_info 1 with
       | None => Run.hang
       | Some (_, new_name) =>
           let file_info := set_new_name file_info new_name in
           copy2 e file_path (target_subdir, new_name) ;;
           Run.update_stats incr_processed ;;
           Run.update_stats (count_category target_subdir) ;;
           Run.logger INFO (u8 "Обработан: " ++ name file_path ++ u8 " -> " ++ new_name) ;;
           save_file_info e file_info new_name ;;
           mret true
       end)
    (λ err,
       Run.logger ERROR (u8 "Ошибка обработки " ++ name file_path ++ u8 ": " ++ err) ;;
       Run.update_stats incr_errors ;;
       mret false).

(** The loop of [run]: every file in turn, each with the surroundings of
    its own call; the value returned by [organize_file] is dropped. *)
Fixpoint run_files (files : list (Env * SourcePath)) : M unit :=
  match files with
  | [] => mret tt
  | (e, file_path) :: rest => organize_file e file_path ;; run_files rest
  end.
End Organizer.

Definition empty_stats : Stats :=
  {| total_files := 0; processed := 0; skipped := 0; errors := 0; categories := ∅ |}.

Definition empty_world : World :=
  {| stats := empty_stats; log := []; tree := ∅ |}.

(** ** The whole run: [__init__], [run], [generate_report], [main] *)

(** An entry that [glob('*')] or [rglob('*')] lists: whether [is_file()]
    holds for it and, for the call of [organize_file] on it, the file and the
    surroundings of that call. *)
Record Found := {
  is_file : bool;
  call : Env * SourcePath
}.

(** How [generate_report] ends.  The report is rendered from the
    statistics, the two directories and the clock ([isoformat] time stamps,
    a duration in seconds); its text is left to the surroundings.  Writing
    it completes, or it raises, having left nothing or some bytes in the
    file. *)
Inductive report_behaviour :=
  | ReportWritten (data : pybytes)
  | ReportRaises (left_behind : option pybytes) (err : pystr).

(** What the surroundings decide during one call of [main]: whether the
    source directory exists, whether [__init__] raises (making the target
    directory, opening [organizer.log]), what [str(self.source_dir)] is,
    what the two listings of the source directory hold and how the report
    comes out for given statistics. *)
Record Surroundings := {
  source_exists : bool;
  init_error : option pystr;
  source_dir : pystr;
  glob : list Found;
  rglob : list Found;
  report : Stats → report_behaviour
}.

(** The parsed command line.  [source] and [target] reach the program
    through the surroundings. *)
Record Args := {
  source : pystr;
  target : option pystr;
  recursive : bool;
  dry_run : bool
}.

(** [organization_report.json], directly in the target directory. *)
Definition report_file : pystr * pystr := ([], u8 "organization_report.json").

(** [FileOrganizer.__init__]: the statistics start from zero. *)
Definition init (s : Surroundings) : M unit :=
  match init_error s with
  | Some err => Run.raise err
  | None => Run.update_stats (λ _, empty_stats)
  end.

(** [generate_report()]; the lines printed on the console and the value
    returned are left out. *)
Definition generate_report (s : Surroundings) : M unit :=
  w ← Run.get ;
  match report s (stats w) with
  | ReportWritten data => Run.write_file report_file data
  | ReportRaises left_behind err =>
      match left_behind with
      | Some part => Run.write_file report_file part
      | None => mret tt
      end ;;
      Run.raise err
  end.

(** [run(recursive)] *)
Definition run `{PyUnicode} (s : Surroundings) (recursive : bool) : M unit :=
  Run.logger INFO (u8 "Запуск организации файлов из: " ++ source_dir s) ;;
  let files := if recursive then rglob s else glob s in
  let files := List.filter is_file files in
  Run.logger INFO (u8 "Найдено " ++ Fmt.dec (N.of_nat (length files))
                   ++ u8 " файлов для обработки") ;;
  run_files (call <$> files) ;;
  generate_report s.

(** [main()], after [parse_args]; the value is the exit status. *)
Definition main `{PyUnicode} (args : Args) (s : Surroundings) : M Z :=
  if negb (source_exists s) then mret 1%Z
  else
    init s ;;
    (if dry_run args then Run.logger INFO (u8 "РЕЖИМ ТЕСТИРОВАНИЯ (dry-run)")
     else mret tt) ;;
    run s (recursive args) ;;
    mret 0%Z.

(** ** An instance of the runtime *)

(** Case analysis on every comparison of code points in sight. *)
Ltac case_cmp :=
  repeat match goal with
         | |- context [(?a <=? ?b)%N] => destruct (N.leb_spec a b)
         | |- context [(?a <? ?b)%N] => destruct (N.ltb_spec a b)
         | |- context [(?a =? ?b)%N] => destruct (N.eqb_spec a b)
         | H : context [(?a <=? ?b)%N] |- _ => destruct (N.leb_spec a b)
         | H : context [(?a <? ?b)%N] |- _ => destruct (N.ltb_spec a b)
         | H : context [(?a =? ?b)%N] |- _ => destruct (N.eqb_spec a b)
         end.

(** [BasicUnicode] has the three properties asked of a runtime. *)
#[global] Instance basic_unicode : PyUnicode.
Proof.
  refine {| str_lower := BasicUnicode.lower; re_digit := BasicUnicode.digit |}.
  - unfold BasicUnicode.lower. induction 1 as [|c s Hc _ IH]; [done|].
    cbn [fmap list_fmap]. f_equal; [|exact IH].
    unfold BasicUnicode.lower_cp, Str.ascii_lower_cp.
    case_cmp; simpl in *; try done; lia.
  - intros pre k post Hk.
    exists (BasicUnicode.lower pre), (BasicUnicode.lower post).
    unfold BasicUnicode.lower. rewrite !fmap_app. do 2 f_equal.
    induction k as [|c k IH]; [done|].
    cbn [forallb] in Hk. apply andb_true_iff in Hk as [Hc Hk].
    cbn [fmap list_fmap]. f_equal; [|by apply IH].
    unfold Str.lower_stable in Hc. unfold BasicUnicode.lower_cp.
    case_cmp; simpl in *; try done; lia.
  - reflexivity.
Defined.

(** ** Specification vocabulary *)

(** [k] occurs in [s]: there is text before and after a copy of [k]. *)
Definition occurs (k s : pystr) : Prop := ∃ a b, s = a ++ k ++ b.

Definition is_ascii (s : pystr) : bool := forallb (λ c, (c <? 128)%N) s.

(** A Unicode scalar value: a code point that is not a surrogate. *)
Definition scalar (c : N) : bool := (c <? 0x110000)%N && negb (Utf8.is_surrogate c).

(** Text: a string of scalar values. *)
Definition is_text (s : pystr) : bool := forallb scalar s.

Definition opt_is_text (o : option pystr) : bool :=
  match o with Some s => is_text s | None => true end.

(** Every string of the record is text. *)
Definition info_is_text (i : FileInfo) : bool :=
  is_text (original_name i) && opt_is_text (subject i) && is_text (category i)
  && opt_is_text (date i) && is_text (file_type i) && opt_is_text (new_name i).

Definition dict_is_text (d : Json.dict) : bool :=
  forallb (λ kv, is_text kv.1 && opt_is_text kv.2) d.

(** The text of the members of an object that follow the first one. *)
Definition more_text (d : Json.dict) : pystr := concat (Json.member_chunks false d).

(** *** Dates *)

Definition is_sep (c : N) : Prop := c = 45%N ∨ c = 46%N.

(** [s] begins with [w1] digits, a separator ([-] or [.]), two digits, a
    separator and [w3] digits; [g1], [g2], [g3] are the three runs of
    digits. *)
Definition date_here (dig : N → bool) (w1 w3 : nat) (s g1 g2 g3 : pystr) : Prop :=
  ∃ s1 s2 rest,
    s = g1 ++ s1 :: g2 ++ s2 :: g3 ++ rest ∧
    length g1 = w1 ∧ length g2 = 2 ∧ length g3 = w3 ∧
    forallb dig g1 = true ∧ forallb dig g2 = true ∧ forallb dig g3 = true ∧
    is_sep s1 ∧ is_sep s2.

(** The same at offset [i] of [s]. *)
Definition date_at (dig : N → bool) (w1 w3 : nat) (s : pystr) (i : nat)
    (g1 g2 g3 : pystr) : Prop :=
  date_here dig w1 w3 (drop i s) g1 g2 g3.

(** What the specification says of the extracted date: the leftmost
    day-month-year occurrence if there is one, else the leftmost
    year-month-day occurrence if there is one, else nothing; the groups are
    put together as year, month, day, whatever their digits. *)
Inductive date_spec (dig : N → bool) (s : pystr) : option pystr → Prop :=
  | date_dmy i d m y :
      date_at dig 2 4 s i d m y →
      (∀ j d' m' y', j < i → ¬ date_at dig 2 4 s j d' m' y') →
      date_spec dig s (Some (y ++ u8 "-" ++ m ++ u8 "-" ++ d))
  | date_ymd i y m d :
      (∀ j d' m' y', ¬ date_at dig 2 4 s j d' m' y') →
      date_at dig 4 2 s i y m d →
      (∀ j y' m' d', j < i → ¬ date_at dig 4 2 s j y' m' d') →
      date_spec dig s (Some (y ++ u8 "-" ++ m ++ u8 "-" ++ d))
  | date_absent :
      (∀ j d' m' y', ¬ date_at dig 2 4 s j d' m' y') →
      (∀ j y' m' d', ¬ date_at dig 4 2 s j y' m' d') →
      date_spec dig s None.

(** The shape shared by the two entries of [date_patterns]. *)
Definition date_pattern (w1 w3 : nat) : Re.pattern :=
  [Re.Capture Re.Digit w1; Re.Single (Re.OneOf (u8 "-.")); Re.Capture Re.Digit 2;
   Re.Single (Re.OneOf (u8 "-.")); Re.Capture Re.Digit w3].

(** *** One call of [organize_file] *)

Section Choice.
Context `{PyUnicode}.

(** The name the loop settles on, and where the file goes. *)
Definition chosen_name (e : Env) (file_path : SourcePath) (w : World) : pystr :=
  match unique_name (S (size (tree w))) (today e)
          (λ n, bool_decide (is_Some (tree w !!
                  (category (analyze_filename (name file_path)), n))))
          (analyze_filename (name file_path)) 1 with
  | Some (_, n) => n
  | None => []
  end.

Definition destination (e : Env) (file_path : SourcePath) (w : World) : pystr * pystr :=
  (category (analyze_filename (name file_path)), chosen_name e file_path w).

Definition metadata_path (e : Env) (file_path : SourcePath) (w : World) : pystr * pystr :=
  (u8 "_metadata", Path.stem (chosen_name e file_path w) ++ u8 ".json").

(** The dictionary that [organize_file] hands to [save_file_info]. *)
Definition final_info (e : Env) (file_path : SourcePath) (w : World) : FileInfo :=
  set_new_name (analyze_filename (name file_path)) (chosen_name e file_path w).

(** The two lines that [organize_file] logs. *)
Definition error_line (file_path : SourcePath) (err : pystr) : level * pystr :=
  (ERROR, u8 "Ошибка обработки " ++ name file_path ++ u8 ": " ++ err).

Definition info_line (e : Env) (file_path : SourcePath) (w : World) : level * pystr :=
  (INFO, u8 "Обработан: " ++ name file_path ++ u8 " -> " ++ chosen_name e file_path w).

(** The first step of a call on an ordinary file that fails, with the text
    of its exception: [mkdir], the copy, the opening of the metadata file,
    the writing of it or the encoding of the metadata. *)
Definition failure_of (e : Env) (file_path : SourcePath) (w : World) : option pystr :=
  match mkdir_error e with
  | Some err => Some err
  | None =>
      match copy e with
      | CopyRaises _ err => Some err
      | CopyCompletes =>
          match metadata_error e with
          | Some err => Some err
          | None =>
              match metadata_write e with
              | WriteRaises _ err => Some err
              | WriteCompletes =>
                  if (write_chunks (Json.chunks (to_dict (final_info e file_path w)))).2
                  then None else Some (encode_error_text e)
              end
          end
      end
  end.

(** The metadata of an ordinary file could not be written although its copy
    succeeded. *)
Definition metadata_fails (e : Env) (file_path : SourcePath) (w : World) : bool :=
  negb (is_system_file (name file_path))
  && match mkdir_error e, copy e, metadata_error e with
     | None, CopyCompletes, Some _ => true
     | None, CopyCompletes, None =>
         match metadata_write e with
         | WriteRaises _ _ => true
         | WriteCompletes =>
             negb (write_chunks (Json.chunks (to_dict (final_info e file_path w)))).2
         end
     | _, _, _ => false
     end.

End Choice.

(** By how much the three tallies together exceed the total. *)
Definition excess (s : Stats) : Z :=
  (Z.of_nat (processed s) + Z.of_nat (skipped s) + Z.of_nat (errors s)
   - Z.of_nat (total_files s))%Z.

(** *** Names, accounts and runs *)

(** Neither ['.'] nor ['/'] occurs in [s]. *)
Definition plain (s : pystr) : bool :=
  forallb (λ c, negb ((c =? 46) || (c =? 47))%N) s.

(** The part of the new name before the extension. *)
Definition front (today : pystr) (file_info : FileInfo) (counter : Z) : pystr :=
  Str.join (u8 "_")
    [ match subject file_info with Some ((_ :: _) as s) => s | _ => u8 "unknown" end;
      category file_info;
      match date file_info with Some ((_ :: _) as d) => d | _ => today end;
      file_type file_info;
      Fmt.d02 counter ].

(** The metadata of the file can be opened and written: the name of the
    file and the date of the day are text, [open] does not fail and no
    write does. *)
Definition metadata_writable (call : Env * SourcePath) : bool :=
  match metadata_error call.1 with Some _ => false | None => true end
  && match metadata_write call.1 with WriteRaises _ _ => false | WriteCompletes => true end
  && is_text (today call.1) && is_text (name call.2).

(** What has reached the metadata file when the name cannot be encoded:
    the opening brace and the first key. *)
Definition truncated_metadata : pybytes :=
  Utf8.bytes_of_string "{" ++ [10; 32; 32; 34]%N
  ++ Utf8.bytes_of_string "original_name" ++ [34]%N ++ Utf8.bytes_of_string ": ".

(** The number of files of a run whose metadata could not be written,
    each call being made in the world the one before left. *)
Fixpoint metadata_failures `{PyUnicode} (files : list (Env * SourcePath)) (w : World)
  : nat :=
  match files with
  | [] => 0
  | (e, file_path) :: rest =>
      (if metadata_fails e file_path w then 1 else 0)
      + metadata_failures rest (organize_file e file_path w).2
  end.

(** The sum of the counts per category. *)
Definition categories_total (s : Stats) : nat :=
  map_fold (λ _ v acc, v + acc) 0 (categories s).

(** [f] maps no character into the class [cs] or out of it. *)
Definition respects (f : N → N) (dig : N → bool) (cs : Re.cset) : Prop :=
  ∀ c, Re.in_cset dig cs (f c) = Re.in_cset dig cs c.

(** The class of an item of a pattern. *)
Definition item_cset (it : Re.item) : Re.cset :=
  match it with Re.Capture cs _ => cs | Re.Single cs => cs end.

(** The files that a run hands to [organize_file]. *)
Definition listed (s : Surroundings) (recursive : bool) : list (Env * SourcePath) :=
  call <$> List.filter is_file (if recursive then rglob s else glob s).

(** The lines logged before the first file. *)
Definition opening_lines (args : Args) (s : Surroundings) : list (level * pystr) :=
  (if dry_run args then [(INFO, u8 "РЕЖИМ ТЕСТИРОВАНИЯ (dry-run)")] else [])
  ++ [ (INFO, u8 "Запуск организации файлов из: " ++ source_dir s);
       (INFO, u8 "Найдено " ++ Fmt.dec (N.of_nat (length (listed s (recursive args))))
              ++ u8 " файлов для обработки") ].

(** The same world with another log. *)
Definition with_log (l : list (level * pystr)) (w : World) : World :=
  {| stats := stats w; log := l; tree := tree w |}.

(** The same command line with another [--dry-run]. *)
Definition set_dry_run (b : bool) (args : Args) : Args :=
  {| source := source args; target := target args; recursive := recursive args;
     dry_run := b |}.

(** Every metadata file of the tree loads as a record. *)
Definition loadable (t : gmap (pystr * pystr) pybytes) : Prop :=
  ∀ n data, t !! (u8 "_metadata", n) = Some data →
            is_Some (Json.load data ≫= of_dict).

(** The metadata of the file is written whole if it is written at all: the
    name of the file and the date of the day are text, and no write to the
    metadata file fails. *)
Definition written_whole (call : Env * SourcePath) : bool :=
  is_text (today call.1) && is_text (name call.2)
  && match metadata_write call.1 with WriteCompletes => true | WriteRaises _ _ => false end.

(** *** Sample data *)

Definition sample_info : FileInfo :=
  {| original_name := u8 "Math_Lecture.PDF"; subject := Some (u8 "math");
     category := u8 "lecture"; date := None; file_type := u8 "documents";
     new_name := None |}.

(** A record with Cyrillic text in every field that may hold any. *)
Definition cyrillic_info : FileInfo :=
  {| original_name := u8 "Лекция 15.03.2024 «матем».pdf";
     subject := Some (u8 "математика");
     category := u8 "лекция";
     date := Some (u8 "2024-03-15");
     file_type := u8 "documents";
     new_name := None |}.

Definition notes_txt : SourcePath :=
  {| name := u8 "notes.txt"; contents := [1; 2; 3; 4]%N |}.

(** A name with a byte that is no UTF-8, as [os] hands it over: the lone
    surrogate U+DCFF. *)
Definition undecodable_txt : SourcePath :=
  {| name := 0xDCFF%N :: u8 ".txt"; contents := [1; 2; 3; 4]%N |}.

(** Surroundings in which nothing fails. *)
Definition quiet_env : Env :=
  {| today := u8 "2026-11-04"; mkdir_error := None; copy := CopyCompletes;
     metadata_error := None; metadata_write := WriteCompletes;
     encode_error_text := u8 "surrogates not allowed" |}.

(** A copy that breaks off after two bytes. *)
Definition disk_full_env : Env :=
  {| today := u8 "2026-11-04"; mkdir_error := None;
     copy := CopyRaises (Some [1; 2]%N) (u8 "[Errno 28] No space left on device");
     metadata_error := None; metadata_write := WriteCompletes;
     encode_error_text := u8 "surrogates not allowed" |}.

(** The metadata directory cannot be written. *)
Definition read_only_metadata_env : Env :=
  {| today := u8 "2026-11-04"; mkdir_error := None; copy := CopyCompletes;
     metadata_error := Some (u8 "[Errno 13] Permission denied");
     metadata_write := WriteCompletes;
     encode_error_text := u8 "surrogates not allowed" |}.

(** The disk is full once the copy is made: the metadata file is created
    and stays empty. *)
Definition no_room_for_metadata_env : Env :=
  {| today := u8 "2026-11-04"; mkdir_error := None; copy := CopyCompletes;
     metadata_error := None;
     metadata_write := WriteRaises 0 (u8 "[Errno 28] No space left on device");
     encode_error_text := u8 "surrogates not allowed" |}.

(** A tree that already holds the name that [notes.txt] would get first. *)
Definition busy_world : World :=
  {| stats := empty_stats; log := [];
     tree := {[ (u8 "other", u8 "unknown_other_2026-11-04_documents_01.txt")
                := [9; 9]%N ]} |}.

(** Two photographs that differ in the extension. *)
Definition photo_jpg : SourcePath :=
  {| name := u8 "photo.jpg"; contents := [1; 1; 1]%N |}.

Definition photo_png : SourcePath :=
  {| name := u8 "photo.png"; contents := [2; 2]%N |}.

(** A lecture with a Russian name. *)
Definition lecture_ru : SourcePath :=
  {| name := u8 "Лекция по физике 12.09.2025.pptx"; contents := [7; 7]%N |}.

(** A source directory with [notes.txt], a sub-directory and a lecture the
    copy of which breaks off. *)
Definition sample_surroundings : Surroundings :=
  {| source_exists := true; init_error := None; source_dir := u8 "/home/user/study";
     glob := [ {| is_file := true; call := (quiet_env, notes_txt) |};
               {| is_file := false;
                  call := (quiet_env, {| name := u8 "old"; contents := [] |}) |};
               {| is_file := true; call := (disk_full_env, lecture_ru) |} ];
     rglob := [];
     report := λ st, ReportWritten [N.of_nat (total_files st); N.of_nat (processed st);
                                    N.of_nat (skipped st); N.of_nat (errors st)] |}.

(** ** Proof steps *)

(** Settle every comparison of code points that linear arithmetic decides. *)
Ltac decide_cmp :=
  repeat match goal with
         | |- context [(?a <? ?b)%N] =>
             first [ rewrite (proj2 (N.ltb_lt a b)) by lia
                   | rewrite (proj2 (N.ltb_ge a b)) by lia ]
         | |- context [(?a <=? ?b)%N] =>
             first [ rewrite (proj2 (N.leb_le a b)) by lia
                   | rewrite (proj2 (N.leb_gt a b)) by lia ]
         | |- context [(?a =? ?b)%N] =>
             first [ rewrite (proj2 (N.eqb_eq a b)) by lia
                   | rewrite (proj2 (N.eqb_neq a b)) by lia ]
         end.

(** Name the quotient and the remainder of [x] by 64. *)
Ltac split64 x q r :=
  pose proof (N.div_mod' x 64);
  pose proof (N.mod_upper_bound x 64 ltac:(done));
  set (q := (x / 64)%N) in *; set (r := (x mod 64)%N) in *;
  clearbody q r.

(** Unfold a call of [organize_file] down to the state it works on. *)
Ltac run_organize :=
  unfold organize_file, Run.try_except, mkdir, copy2, save_file_info;
  unfold mbind, M_bind, mret, M_ret, Run.bind, Run.ret, Run.raise, Run.hang,
    Run.get, Run.update_stats, Run.write_file, Run.logger;
  cbv beta iota zeta.

(** * Properties of the text layer *)

Lemma startswith_spec (k s : pystr) :
  Str.startswith k s = true ↔ ∃ b, s = k ++ b.
Proof.
  revert s; induction k as [|x k IH]; intros s; simpl.
  - split; [intros _; by exists s | done].
  - destruct s as [|y s]; simpl.
    + split; [done | intros [b Hb]; discriminate].
    + rewrite andb_true_iff, N.eqb_eq, IH. split.
      * intros [-> [b ->]]. by exists b.
      * intros [b Hb]. injection Hb as -> ->. eauto.
Qed.

Lemma contains_spec (k s : pystr) :
  Str.contains k s = true ↔ occurs k s.
Proof.
  unfold occurs. induction s as [|y s IH]; simpl.
  - rewrite orb_false_r, startswith_spec. split.
    + intros [b Hb]. exists [], b. done.
    + intros (a & b & Hab). destruct a; [by exists b|discriminate].
  - rewrite orb_true_iff, startswith_spec, IH. split.
    + intros [[b Hb] | (a & b & ->)].
      * exists [], b. done.
      * exists (y :: a), b. done.
    + intros (a & b & Hab). destruct a as [|z a]; simpl in Hab.
      * left. by exists b.
      * right. injection Hab as -> ->. eauto.
Qed.

Lemma contains_false_spec (k s : pystr) :
  Str.contains k s = false ↔ ¬ occurs k s.
Proof. rewrite <- contains_spec. by destruct (Str.contains k s). Qed.

Lemma is_ascii_Forall (s : pystr) :
  is_ascii s = true → Forall (λ c, (c < 128)%N) s.
Proof.
  unfold is_ascii. induction s as [|c s IH]; [constructor|].
  cbn [forallb]. rewrite andb_true_iff, N.ltb_lt. intros [Hc Hs]. auto.
Qed.

(** * Properties of the classifier *)

Lemma first_entry_None test (table : list (pystr * list pystr)) :
  first_entry test table = None ↔
  ∀ label items, (label, items) ∈ table → test items = false.
Proof.
  induction table as [|[l its] table IH]; simpl.
  - split; [intros _ ? ? Hin; by apply elem_of_nil in Hin | done].
  - destruct (test its) eqn:Ht.
    + split; [done|]. intros Hall.
      rewrite (Hall l its) in Ht by left. done.
    + rewrite IH. split.
      * intros Hall l' its' Hin. apply elem_of_cons in Hin as [Heq|Hin].
        -- by injection Heq as -> ->.
        -- eauto.
      * intros Hall l' its' Hin. apply (Hall l'). by right.
Qed.

(** The label found is that of the first entry, in the order of the table,
    whose items pass the test. *)
Lemma first_entry_Some test (table : list (pystr * list pystr)) (label : pystr) :
  first_entry test table = Some label ↔
  ∃ i items, table !! i = Some (label, items) ∧ test items = true ∧
    ∀ j l' items', j < i → table !! j = Some (l', items') → test items' = false.
Proof.
  induction table as [|[l its] table IH]; simpl.
  - split; [done | intros (i & items & Hi & _); by destruct i].
  - destruct (test its) eqn:Ht.
    + split.
      * intros [= ->]. exists 0, its. split_and!; [done..|]. intros; lia.
      * intros (i & items & Hi & Hit & Hlt). destruct i as [|i].
        -- by injection Hi as -> ->.
        -- specialize (Hlt 0 l its ltac:(lia) eq_refl). congruence.
    + rewrite IH. split.
      * intros (i & items & Hi & Hit & Hlt). exists (S i), items.
        split_and!; [done..|]. intros [|j] l' its' Hj Hlk.
        -- by injection Hlk as -> ->.
        -- apply (Hlt j l'); [lia | done].
      * intros (i & items & Hi & Hit & Hlt). destruct i as [|i].
        -- injection Hi as -> ->. congruence.
        -- exists i, items. split_and!; [done..|]. intros j l' its' Hj Hlk.
           apply (Hlt (S j) l'); [lia | done].
Qed.

Lemma any_in_true (s : pystr) (keywords : list pystr) :
  any_in s keywords = true ↔ ∃ k, k ∈ keywords ∧ occurs k s.
Proof.
  unfold any_in. induction keywords as [|k ks IH]; simpl.
  - split; [done | intros (k & Hk & _); by apply elem_of_nil in Hk].
  - rewrite orb_true_iff, IH, contains_spec. split.
    + intros [Hk | (k' & Hk' & Ho)]; [exists k | exists k']; split; try done.
      * left.
      * by right.
    + intros (k' & Hk' & Ho). apply elem_of_cons in Hk' as [-> | Hk']; eauto.
Qed.

Lemma any_in_false (s : pystr) (keywords : list pystr) :
  any_in s keywords = false ↔ ∀ k, k ∈ keywords → ¬ occurs k s.
Proof.
  rewrite <- not_true_iff_false, any_in_true. split.
  - intros Hn k Hk Ho. apply Hn. eauto.
  - intros Hall (k & Hk & Ho). by apply (Hall k).
Qed.

Lemma take_n_ext (dig dig' : N → bool) cs n (s : pystr) :
  Forall (λ c, dig c = dig' c) s → Re.take_n dig cs n s = Re.take_n dig' cs n s.
Proof.
  revert s; induction n as [|n IH]; intros s Hs; [done|].
  destruct Hs as [|c s Hc Hs]; [done|]. simpl.
  rewrite (IH s Hs). by destruct cs; simpl; rewrite ?Hc.
Qed.

Lemma take_n_spec dig cs n (s g r : pystr) :
  Re.take_n dig cs n s = Some (g, r) ↔
  s = g ++ r ∧ length g = n ∧ forallb (Re.in_cset dig cs) g = true.
Proof.
  revert s g r; induction n as [|n IH]; intros s g r; simpl.
  - split.
    + by intros [= <- <-].
    + intros (-> & Hl & _). by destruct g.
  - split.
    + destruct s as [|c s]; [done|].
      destruct (Re.in_cset dig cs c) eqn:Hc; [|done].
      destruct (Re.take_n dig cs n s) as [[g' r']|] eqn:Ht; [|done].
      simpl. intros [= <- <-]. apply IH in Ht as (-> & <- & Hall).
      simpl. by rewrite Hc, Hall.
    + intros (-> & Hl & Hall). destruct g as [|c g]; [done|].
      simpl in *. injection Hl as Hl.
      apply andb_true_iff in Hall as [Hc Hall]. rewrite Hc.
      by rewrite (proj2 (IH (g ++ r) g r)).
Qed.

Lemma in_cset_ext (dig dig' : N → bool) cs c :
  dig c = dig' c → Re.in_cset dig cs c = Re.in_cset dig' cs c.
Proof. intros Hc. by destruct cs; simpl. Qed.

Lemma match_here_ext (dig dig' : N → bool) p (s : pystr) :
  Forall (λ c, dig c = dig' c) s →
  Re.match_here dig p s = Re.match_here dig' p s.
Proof.
  revert s; induction p as [|[cs n|cs] p IH]; intros s Hs; simpl; [done| |].
  - rewrite (take_n_ext dig dig') by done.
    destruct (Re.take_n dig' cs n s) as [[g r]|] eqn:Ht; [|done].
    apply take_n_spec in Ht as (-> & _ & _).
    apply Forall_app in Hs as [_ Hr]. by rewrite (IH r Hr).
  - destruct Hs as [|c s Hc Hs]; [done|].
    rewrite (in_cset_ext dig dig') by done. by rewrite (IH s Hs).
Qed.

Lemma search_ext (dig dig' : N → bool) p (s : pystr) :
  Forall (λ c, dig c = dig' c) s →
  Re.search dig p s = Re.search dig' p s.
Proof.
  induction 1 as [|c s Hc Hs IH]; simpl.
  - by rewrite (match_here_ext dig dig') by constructor.
  - rewrite (match_here_ext dig dig' p (c :: s)) by (by constructor).
    by rewrite IH.
Qed.

(** [re.search] returns the match at the leftmost position that has one. *)
Lemma search_Some dig p (s : pystr) gs :
  Re.search dig p s = Some gs ↔
  ∃ i, i ≤ length s ∧ Re.match_here dig p (drop i s) = Some gs ∧
       ∀ j, j < i → Re.match_here dig p (drop j s) = None.
Proof.
  induction s as [|c s IH]; simpl.
  - destruct (Re.match_here dig p []) as [g|] eqn:Hm.
    + split.
      * intros [= <-]. exists 0. split_and!; [done..|]. intros; lia.
      * intros (i & Hi & Hmi & _). rewrite drop_nil in Hmi. congruence.
    + split; [done|]. intros (i & Hi & Hmi & _). rewrite drop_nil in Hmi. congruence.
  - destruct (Re.match_here dig p (c :: s)) as [g|] eqn:Hm.
    + split.
      * intros [= <-]. exists 0. split_and!; [lia|done|]. intros; lia.
      * intros (i & Hi & Hmi & Hlt). destruct i as [|i].
        -- simpl in Hmi. congruence.
        -- specialize (Hlt 0 ltac:(lia)). simpl in Hlt. congruence.
    + rewrite IH. split.
      * intros (i & Hi & Hmi & Hlt). exists (S i). split_and!; [lia|done|].
        intros [|j] Hj; [done|]. apply Hlt. lia.
      * intros (i & Hi & Hmi & Hlt). destruct i as [|i].
        -- simpl in Hmi. congruence.
        -- exists i. split_and!; [lia|done|]. intros j Hj.
           apply (Hlt (S j)). lia.
Qed.

Lemma search_None dig p (s : pystr) :
  Re.search dig p s = None ↔
  ∀ i, Re.match_here dig p (drop i s) = None.
Proof.
  induction s as [|c s IH]; simpl.
  - destruct (Re.match_here dig p []) as [g|] eqn:Hm.
    + split; [done|]. intros Hall. specialize (Hall 0). simpl in Hall. congruence.
    + split; [|done]. intros _ i. by rewrite drop_nil.
  - destruct (Re.match_here dig p (c :: s)) as [g|] eqn:Hm.
    + split; [done|]. intros Hall. specialize (Hall 0). simpl in Hall. congruence.
    + rewrite IH. split.
      * intros Hall [|i]; [done|]. apply Hall.
      * intros Hall i. apply (Hall (S i)).
Qed.

Lemma find_date_ext search search' patterns (filename : pystr) :
  (∀ p, search p filename = search' p filename) →
  find_date search patterns filename = find_date search' patterns filename.
Proof.
  intros Hs. induction patterns as [|p ps IH]; [done|].
  simpl. by rewrite Hs, IH.
Qed.

(** ** The matcher on the date patterns *)

Lemma date_patterns_eq : date_patterns = [date_pattern 2 4; date_pattern 4 2].
Proof. reflexivity. Qed.

Lemma sep_class (dig : N → bool) (c : N) :
  Re.in_cset dig (Re.OneOf (u8 "-.")) c = true ↔ is_sep c.
Proof.
  change (u8 "-.") with [45%N; 46%N]. unfold is_sep. simpl.
  rewrite bool_decide_eq_true, !elem_of_cons, elem_of_nil. tauto.
Qed.

Lemma match_here_date dig w1 w3 (s : pystr) gs :
  Re.match_here dig (date_pattern w1 w3) s = Some gs ↔
  ∃ g1 g2 g3, gs = [g1; g2; g3] ∧ date_here dig w1 w3 s g1 g2 g3.
Proof.
  unfold date_pattern, date_here.
  remember (Re.OneOf (u8 "-.")) as sepc eqn:Hsepc.
  cbn [Re.match_here]. split.
  - destruct (Re.take_n dig Re.Digit w1 s) as [[g1 r1]|] eqn:H1; [|done].
    apply take_n_spec in H1 as (-> & Hl1 & Hd1).
    destruct r1 as [|s1 r1]; [done|].
    destruct (Re.in_cset dig sepc s1) eqn:Hs1; [|done].
    destruct (Re.take_n dig Re.Digit 2 r1) as [[g2 r2]|] eqn:H2; [|done].
    apply take_n_spec in H2 as (-> & Hl2 & Hd2).
    destruct r2 as [|s2 r2]; [done|].
    destruct (Re.in_cset dig sepc s2) eqn:Hs2; [|done].
    destruct (Re.take_n dig Re.Digit w3 r2) as [[g3 r3]|] eqn:H3; [|done].
    apply take_n_spec in H3 as (-> & Hl3 & Hd3).
    cbn [fmap option_fmap option_map]. intros [= <-]. exists g1, g2, g3. split; [done|].
    exists s1, s2, r3. subst sepc. apply sep_class in Hs1, Hs2. by split_and!.
  - intros (g1 & g2 & g3 & -> & s1 & s2 & rest & -> & Hl1 & Hl2 & Hl3
            & Hd1 & Hd2 & Hd3 & Hs1 & Hs2).
    apply (sep_class dig) in Hs1, Hs2. rewrite <- Hsepc in Hs1, Hs2.
    rewrite (proj2 (take_n_spec dig Re.Digit w1 _ g1 _)) by by split_and!.
    cbv beta iota. rewrite Hs1.
    rewrite (proj2 (take_n_spec dig Re.Digit 2 _ g2 _)) by by split_and!.
    cbv beta iota. rewrite Hs2.
    rewrite (proj2 (take_n_spec dig Re.Digit w3 _ g3 rest)) by by split_and!.
    done.
Qed.

Lemma search_date_Some dig w1 w3 (s : pystr) gs :
  Re.search dig (date_pattern w1 w3) s = Some gs ↔
  ∃ i g1 g2 g3, gs = [g1; g2; g3] ∧ date_at dig w1 w3 s i g1 g2 g3 ∧
    ∀ j g1' g2' g3', j < i → ¬ date_at dig w1 w3 s j g1' g2' g3'.
Proof.
  rewrite search_Some. split.
  - intros (i & Hi & Hm & Hlt).
    apply match_here_date in Hm as (g1 & g2 & g3 & -> & Hat).
    exists i, g1, g2, g3. split_and!; [done..|].
    intros j g1' g2' g3' Hj Hat'. specialize (Hlt j Hj).
    assert (Re.match_here dig (date_pattern w1 w3) (drop j s) = Some [g1'; g2'; g3'])
      as Hm' by (apply match_here_date; eauto).
    congruence.
  - intros (i & g1 & g2 & g3 & -> & Hat & Hlt). exists i. split_and!.
    + destruct (decide (i ≤ length s)) as [|Hn]; [done|].
      destruct Hat as (s1 & s2 & rest & Hd & _).
      rewrite drop_ge in Hd by lia. by destruct g1.
    + apply match_here_date. by exists g1, g2, g3.
    + intros j Hj.
      destruct (Re.match_here dig (date_pattern w1 w3) (drop j s)) as [gs|] eqn:Hm;
        [|done].
      apply match_here_date in Hm as (g1' & g2' & g3' & -> & Hat').
      by destruct (Hlt j g1' g2' g3' Hj).
Qed.

Lemma search_date_None dig w1 w3 (s : pystr) :
  Re.search dig (date_pattern w1 w3) s = None ↔
  ∀ j g1 g2 g3, ¬ date_at dig w1 w3 s j g1 g2 g3.
Proof.
  rewrite search_None. split.
  - intros Hall j g1 g2 g3 Hat.
    assert (Re.match_here dig (date_pattern w1 w3) (drop j s) = Some [g1; g2; g3])
      as Hm by (apply match_here_date; eauto).
    rewrite Hall in Hm. done.
  - intros Hall j.
    destruct (Re.match_here dig (date_pattern w1 w3) (drop j s)) as [gs|] eqn:Hm;
      [|done].
    apply match_here_date in Hm as (g1 & g2 & g3 & -> & Hat).
    by destruct (Hall j g1 g2 g3).
Qed.

(** The date loop meets the specification of the date. *)
Lemma find_date_spec dig (filename : pystr) :
  date_spec dig filename (find_date (Re.search dig) date_patterns filename).
Proof.
  rewrite date_patterns_eq. cbn [find_date].
  destruct (Re.search dig (date_pattern 2 4) filename) as [gs|] eqn:H1.
  - apply search_date_Some in H1 as (i & d & m & y & -> & Hat & Hlt).
    assert (length d = 2) as Hd by (destruct Hat as (?&?&?&?&?&?); done).
    replace (length d =? 4) with false by (by rewrite Hd).
    by apply (date_dmy dig filename i).
  - rewrite search_date_None in H1.
    destruct (Re.search dig (date_pattern 4 2) filename) as [gs|] eqn:H2.
    + apply search_date_Some in H2 as (i & y & m & d & -> & Hat & Hlt).
      assert (length y = 4) as Hy by (destruct Hat as (?&?&?&?&?&?); done).
      replace (length y =? 4) with true by (by rewrite Hy).
      by apply (date_ymd dig filename i).
    + rewrite search_date_None in H2. by apply date_absent.
Qed.

(** On an ASCII name every runtime classifies as the basic one does. *)
Lemma analyze_filename_ascii `{PyUnicode} (filename : pystr) :
  is_ascii filename = true → is_ascii (Path.suffix filename) = true →
  analyze_filename filename = @analyze_filename basic_unicode filename.
Proof.
  intros Hf Hs. unfold analyze_filename.
  rewrite !str_lower_ascii by by apply is_ascii_Forall.
  rewrite (find_date_ext (Re.search re_digit) (Re.search (@re_digit basic_unicode))); [done|].
  intros p. apply search_ext. apply is_ascii_Forall in Hf.
  eapply Forall_impl; [exact Hf|]. intros c Hc. simpl in Hc.
  by rewrite !re_digit_ascii.
Qed.

Lemma category_keywords_stable (c : pystr) (kws : list pystr) (k : pystr) :
  (c, kws) ∈ FILE_CATEGORIES → k ∈ kws → forallb Str.lower_stable k = true.
Proof.
  intros Hc Hk.
  assert (forallb (λ e, forallb (forallb Str.lower_stable) e.2) FILE_CATEGORIES = true)
    as Hall by (vm_compute; reflexivity).
  rewrite forallb_forall in Hall. apply list_elem_of_In in Hc.
  specialize (Hall _ Hc). simpl in Hall.
  rewrite forallb_forall in Hall. apply Hall. by apply list_elem_of_In.
Qed.

Lemma category_label_not_other (c : pystr) (kws : list pystr) :
  (c, kws) ∈ FILE_CATEGORIES → c ≠ u8 "other".
Proof.
  intros Hc.
  assert (forallb (λ e, negb (bool_decide (e.1 = u8 "other"))) FILE_CATEGORIES = true)
    as Hall by (vm_compute; reflexivity).
  rewrite forallb_forall in Hall. apply list_elem_of_In in Hc.
  specialize (Hall _ Hc). simpl in Hall.
  apply negb_true_iff, bool_decide_eq_false in Hall. done.
Qed.

Lemma occurs_lower `{PyUnicode} (k s : pystr) :
  forallb Str.lower_stable k = true → occurs k s → occurs k (str_lower s).
Proof.
  intros Hk (a & b & ->). destruct (str_lower_keeps a k b Hk) as (a' & b' & ->).
  by exists a', b'.
Qed.

Lemma subject_analyze `{PyUnicode} (filename : pystr) :
  subject (analyze_filename filename)
  = first_entry (any_in (str_lower filename)) subject_patterns.
Proof. reflexivity. Qed.

Lemma category_analyze `{PyUnicode} (filename : pystr) :
  category (analyze_filename filename)
  = default (u8 "other") (first_entry (any_in (str_lower filename)) FILE_CATEGORIES).
Proof. reflexivity. Qed.

Lemma date_analyze `{PyUnicode} (filename : pystr) :
  date (analyze_filename filename)
  = find_date (Re.search re_digit) date_patterns filename.
Proof. reflexivity. Qed.

(** ** C1 *)

(** C1. For every filename the date that [analyze_filename] extracts is the
    one the two patterns prescribe, tested on the filename as it is written:
    the leftmost DD[-.]MM[-.]YYYY occurrence if there is one, otherwise the
    leftmost YYYY[-.]MM[-.]DD occurrence, the three groups put together as
    YYYY-MM-DD without any check of the calendar, and no date when neither
    pattern occurs.  ["15.03.2024_report.pdf"] gives ["2024-03-15"]; a day
    of 99 is taken as written; where both patterns fit, the first wins. *)
Theorem date_extraction `{PyUnicode} :
  (∀ filename, date_spec re_digit filename (date (analyze_filename filename)))
  ∧ date (analyze_filename (u8 "15.03.2024_report.pdf")) = Some (u8 "2024-03-15")
  ∧ date (analyze_filename (u8 "99.03.2024_report.pdf")) = Some (u8 "2024-03-99")
  ∧ date (analyze_filename (u8 "notes_2024-03-99.txt")) = Some (u8 "2024-03-99")
  ∧ date (analyze_filename (u8 "2024-03-1599.txt")) = Some (u8 "1599-03-24")
  ∧ date (analyze_filename (u8 "randomfile.xyz")) = None.
Proof.
  split; [intros filename; rewrite date_analyze; apply find_date_spec|].
  split_and!; (rewrite analyze_filename_ascii by reflexivity); vm_compute; reflexivity.
Qed.

(** ** C2 *)

(** C2, as the code has it: when the lower-cased filename contains none of
    the subject keywords, the [subject] field of the result is absent
    ([None]); the word ["unknown"] only appears when [generate_new_name]
    builds a name from it.  For ["randomfile.xyz"]: subject absent, category
    ["other"], no date, file type ["other"]. *)
Theorem subject_absent_without_keyword `{PyUnicode} :
  (∀ filename,
     (∀ s kws k, (s, kws) ∈ subject_patterns → k ∈ kws →
                 ¬ occurs k (str_lower filename)) →
     subject (analyze_filename filename) = None
     ∧ ∀ today counter, ∃ rest,
         generate_new_name today (analyze_filename filename) counter
         = u8 "unknown_" ++ rest)
  ∧ subject (analyze_filename (u8 "randomfile.xyz")) = None
  ∧ category (analyze_filename (u8 "randomfile.xyz")) = u8 "other"
  ∧ date (analyze_filename (u8 "randomfile.xyz")) = None
  ∧ file_type (analyze_filename (u8 "randomfile.xyz")) = u8 "other".
Proof.
  split.
  - intros filename Hno.
    assert (subject (analyze_filename filename) = None) as Hs.
    { rewrite subject_analyze. apply first_entry_None. intros s kws Hin.
      apply any_in_false. intros k Hk. by apply (Hno s kws). }
    split; [done|]. intros today counter.
    unfold generate_new_name. rewrite Hs. cbn [Str.join].
    change (u8 "unknown") with [117; 110; 107; 110; 111; 119; 110]%N.
    change (u8 "_") with [95%N]. change (u8 "unknown_") with [117; 110; 107; 110; 111; 119; 110; 95]%N.
    simpl. eauto.
  - split_and!; (rewrite analyze_filename_ascii by reflexivity); vm_compute; reflexivity.
Qed.

(** The claim as worded fails at ["randomfile.xyz"]: the subject field is
    [None], not the string ["unknown"]. *)
Lemma subject_unknown_counterexample :
  subject (@analyze_filename basic_unicode (u8 "randomfile.xyz")) = None
  ∧ subject (@analyze_filename basic_unicode (u8 "randomfile.xyz"))
    ≠ Some (u8 "unknown").
Proof. vm_compute. by split. Qed.

Lemma subject_absent_witness :
  subject (@analyze_filename basic_unicode (u8 "lecture_01.pdf")) = None.
Proof.
  apply (proj1 (@subject_absent_without_keyword basic_unicode) (u8 "lecture_01.pdf")).
  intros s kws k Hs Hk. apply contains_false_spec.
  assert (forallb (λ e, forallb (λ k, negb (Str.contains k
            (@str_lower basic_unicode (u8 "lecture_01.pdf")))) e.2)
            subject_patterns = true) as Hall by (vm_compute; reflexivity).
  rewrite forallb_forall in Hall. apply list_elem_of_In in Hs.
  specialize (Hall _ Hs). simpl in Hall. rewrite forallb_forall in Hall.
  apply list_elem_of_In in Hk. apply negb_true_iff. by apply Hall.
Defined.

(** ** C5 *)

(** C5. When a keyword of some category occurs in the filename (as written,
    or after lower-casing), [analyze_filename] returns a category of the
    table and not the default ["other"]: the first category, in the order
    lecture, practice, project, lab, material, exam, one of whose keywords
    occurs in the lower-cased name. *)
Theorem category_first_match `{PyUnicode} (filename c k : pystr) (kws : list pystr) :
  (c, kws) ∈ FILE_CATEGORIES → k ∈ kws →
  occurs k filename ∨ occurs k (str_lower filename) →
  FILE_CATEGORIES.*1 = [u8 "lecture"; u8 "practice"; u8 "project"; u8 "lab";
                        u8 "material"; u8 "exam"]
  ∧ category (analyze_filename filename) ≠ u8 "other"
  ∧ ∃ i kws',
      FILE_CATEGORIES !! i = Some (category (analyze_filename filename), kws')
      ∧ (∃ k', k' ∈ kws' ∧ occurs k' (str_lower filename))
      ∧ ∀ j c' kws'' k'', j < i → FILE_CATEGORIES !! j = Some (c', kws'') →
          k'' ∈ kws'' → ¬ occurs k'' (str_lower filename).
Proof.
  intros Hc Hk Hocc. split; [reflexivity|].
  assert (occurs k (str_lower filename)) as Hlow.
  { destruct Hocc as [Ho|Ho]; [|done].
    apply occurs_lower; [|done]. by apply (category_keywords_stable c kws). }
  rewrite category_analyze.
  destruct (first_entry (any_in (str_lower filename)) FILE_CATEGORIES)
    as [label|] eqn:Hfirst.
  - apply first_entry_Some in Hfirst as (i & kws' & Hi & Htest & Hbefore).
    simpl. split.
    + apply (category_label_not_other label kws'). by eapply list_elem_of_lookup_2.
    + exists i, kws'. split_and!; [done|by apply any_in_true|].
      intros j c' kws'' k'' Hj Hlk Hk''.
      specialize (Hbefore j c' kws'' Hj Hlk).
      rewrite any_in_false in Hbefore. by apply Hbefore.
  - rewrite first_entry_None in Hfirst. specialize (Hfirst c kws Hc).
    rewrite any_in_false in Hfirst. by destruct (Hfirst k Hk).
Qed.

Lemma category_first_match_witness :
  category (@analyze_filename basic_unicode (u8 "Lab_TEST_project.txt")) ≠ u8 "other"
  ∧ ∃ i kws',
      FILE_CATEGORIES !! i
      = Some (category (@analyze_filename basic_unicode (u8 "Lab_TEST_project.txt")), kws')
      ∧ (∃ k', k' ∈ kws'
               ∧ occurs k' (@str_lower basic_unicode (u8 "Lab_TEST_project.txt")))
      ∧ ∀ j c' kws'' k'', j < i → FILE_CATEGORIES !! j = Some (c', kws'') →
          k'' ∈ kws'' →
          ¬ occurs k'' (@str_lower basic_unicode (u8 "Lab_TEST_project.txt")).
Proof.
  apply (@category_first_match basic_unicode (u8 "Lab_TEST_project.txt")
           (u8 "exam") (u8 "test")
           [u8 "экзамен"; u8 "exam"; u8 "зачет"; u8 "test"; u8 "контрольная"]).
  - apply list_elem_of_In. vm_compute. tauto.
  - apply list_elem_of_In. vm_compute. tauto.
  - right. apply contains_spec. vm_compute. reflexivity.
Defined.

(** Keywords of project, lab and exam all occur in ["Lab_TEST_project.txt"];
    project comes first in the table. *)
Example category_order_example `{PyUnicode} :
  category (analyze_filename (u8 "Lab_TEST_project.txt")) = u8 "project".
Proof. rewrite analyze_filename_ascii by reflexivity. vm_compute; reflexivity. Qed.

(** * Properties of the namer *)

Lemma digits_ascii (d : Decimal.uint) : forallb Str.ascii_digit (Fmt.digits d) = true.
Proof. induction d; simpl; done. Qed.

Lemma value_digits_acc (d : Decimal.uint) (acc : positive) :
  fold_left (λ a c, a * 10 + (c - 48))%N (Fmt.digits d) (N.pos acc)
  = N.pos (Pos.of_uint_acc d acc).
Proof.
  revert acc; induction d; intros acc; cbn [Fmt.digits fold_left Pos.of_uint_acc];
    [done|..];
    match goal with
    | |- fold_left _ _ ?a = _ =>
        match type of IHd with
        | ∀ acc, _ = N.pos (Pos.of_uint_acc _ acc) =>
            match goal with
            | |- _ = N.pos (Pos.of_uint_acc _ ?b) =>
                replace a with (N.pos b) by lia; apply IHd
            end
        end
    end.
Qed.

Lemma value_digits (d : Decimal.uint) : Fmt.value (Fmt.digits d) = N.of_uint d.
Proof.
  unfold Fmt.value, N.of_uint.
  induction d; cbn [Fmt.digits fold_left Pos.of_uint]; [done|exact IHd|..];
    match goal with
    | |- fold_left _ _ ?a = N.pos (Pos.of_uint_acc _ ?b) =>
        replace a with (N.pos b) by lia; apply value_digits_acc
    end.
Qed.

(** Reading back what [str] printed gives the number. *)
Lemma value_dec (n : N) : Fmt.value (Fmt.dec n) = n.
Proof. unfold Fmt.dec. by rewrite value_digits, DecimalN.Unsigned.of_to. Qed.

Lemma dec_inj (n m : N) : Fmt.dec n = Fmt.dec m → n = m.
Proof. intros Heq. by rewrite <- (value_dec n), <- (value_dec m), Heq. Qed.

Lemma nzhead_not_D0 (d d' : Decimal.uint) : Decimal.nzhead d ≠ Decimal.D0 d'.
Proof. induction d; simpl; done. Qed.

(** [str] prints no leading zero, zero itself apart. *)
Lemma dec_no_leading_zero (n : N) (rest : pystr) :
  n ≠ 0%N → Fmt.dec n ≠ 48%N :: rest.
Proof.
  intros Hn Heq. unfold Fmt.dec in Heq.
  pose proof (DecimalN.Unsigned.to_of (N.to_uint n)) as Hnorm.
  rewrite DecimalN.Unsigned.of_to in Hnorm.
  destruct (N.to_uint n) as [|d'| | | | | | | | |] eqn:Hd; try discriminate.
  rewrite DecimalFacts.unorm_D0 in Hnorm. unfold Decimal.unorm in Hnorm.
  destruct (Decimal.nzhead d') eqn:Hz; try discriminate.
  - injection Hnorm as Hd'. subst d'. apply Hn.
    by rewrite <- (DecimalN.Unsigned.of_to n), Hd.
  - by apply nzhead_not_D0 in Hz.
Qed.

Lemma value_bound_acc (s : pystr) (acc : N) :
  forallb Str.ascii_digit s = true →
  (fold_left (λ a c, a * 10 + (c - 48)) s acc < (acc + 1) * 10 ^ N.of_nat (length s))%N.
Proof.
  revert acc; induction s as [|c s IH]; intros acc; cbn [forallb fold_left length].
  - intros _. simpl. lia.
  - rewrite andb_true_iff. intros [Hc Hs].
    eapply N.lt_le_trans; [by apply IH|].
    rewrite Nat2N.inj_succ, N.pow_succ_r'.
    unfold Str.ascii_digit in Hc. apply andb_true_iff in Hc as [H1 H2].
    apply N.leb_le in H1, H2.
    rewrite N.mul_assoc. apply N.mul_le_mono_r. lia.
Qed.

Lemma value_bound (s : pystr) :
  forallb Str.ascii_digit s = true → (Fmt.value s < 10 ^ N.of_nat (length s))%N.
Proof.
  intros Hs. pose proof (value_bound_acc s 0 Hs) as Hb.
  unfold Fmt.value. lia.
Qed.

Lemma dec_ascii (n : N) : forallb Str.ascii_digit (Fmt.dec n) = true.
Proof. apply digits_ascii. Qed.

Lemma dec_length_small (n : N) : (n < 10)%N → length (Fmt.dec n) = 1.
Proof.
  intros Hn.
  assert (forallb (λ k, length (Fmt.dec (N.of_nat k)) =? 1) (seq 0 10) = true)
    as Hall by (vm_compute; reflexivity).
  rewrite forallb_forall in Hall.
  specialize (Hall (N.to_nat n)). rewrite N2Nat.id in Hall.
  apply Nat.eqb_eq, Hall, in_seq. lia.
Qed.

Lemma dec_length_two (n : N) : (10 ≤ n < 100)%N → length (Fmt.dec n) = 2.
Proof.
  intros Hn.
  assert (forallb (λ k, length (Fmt.dec (N.of_nat k)) =? 2) (seq 10 90) = true)
    as Hall by (vm_compute; reflexivity).
  rewrite forallb_forall in Hall.
  specialize (Hall (N.to_nat n)). rewrite N2Nat.id in Hall.
  apply Nat.eqb_eq, Hall, in_seq. lia.
Qed.

Lemma dec_length_large (n : N) : (100 ≤ n)%N → 3 ≤ length (Fmt.dec n).
Proof.
  intros Hn. pose proof (value_bound (Fmt.dec n) (dec_ascii n)) as Hb.
  rewrite value_dec in Hb.
  destruct (decide (3 ≤ length (Fmt.dec n))) as [|Hlt]; [done|].
  assert (10 ^ N.of_nat (length (Fmt.dec n)) ≤ 10 ^ 2)%N
    by (apply N.pow_le_mono_r; lia).
  change (10 ^ 2)%N with 100%N in *. lia.
Qed.

(** [f"{n:02d}"] of a natural number: digits that denote [n]. *)
Lemma d02_value (n : Z) : (0 ≤ n)%Z → Fmt.value (Fmt.d02 n) = Z.to_N n.
Proof.
  intros Hn. unfold Fmt.d02.
  destruct (Z.ltb_spec n 0); [lia|].
  destruct (Z.ltb_spec n 10); [|apply value_dec].
  unfold Fmt.value. cbn [fold_left]. apply value_dec.
Qed.

Lemma d02_inj (n m : Z) : (0 ≤ n)%Z → (0 ≤ m)%Z → Fmt.d02 n = Fmt.d02 m → n = m.
Proof.
  intros Hn Hm Heq. apply (f_equal Fmt.value) in Heq.
  rewrite !d02_value in Heq by done. lia.
Qed.

Lemma rfind_spec (c : N) (s : pystr) :
  (Str.rfind c s = (-1)%Z ∧ c ∉ s)
  ∨ (∃ a b, s = a ++ (c :: b) ∧ (c ∉ b) ∧ Str.rfind c s = Z.of_nat (length a)).
Proof.
  induction s as [|x s IH]; cbn [Str.rfind].
  - left. split; [done|]. apply not_elem_of_nil.
  - destruct IH as [[Hr Hn] | (a & b & -> & Hb & Hr)]; rewrite Hr.
    + simpl. destruct (N.eqb_spec x c) as [->|Hne].
      * right. exists [], s. done.
      * left. split; [done|]. rewrite elem_of_cons. intros [?|?]; congruence.
    + right. exists (x :: a), b. split_and!; [done..|].
      destruct (Z.leb_spec 0 (Z.of_nat (length a))); simpl length; lia.
Qed.

(** [Path.suffix] is empty, or it is the last dot of the name and what
    follows it, with something before the dot and something after it. *)
Lemma suffix_spec (p : pystr) :
  Path.suffix p = []
  ∨ ∃ stem e, Path.name p = stem ++ Path.suffix p ∧ Path.suffix p = 46%N :: e
              ∧ stem ≠ [] ∧ e ≠ [] ∧ 46%N ∉ e.
Proof.
  unfold Path.suffix. cbv zeta.
  destruct (rfind_spec 46 (Path.name p)) as [[Hr _] | (a & b & Hn & Hb & Hr)];
    rewrite Hr.
  - by left.
  - destruct ((0 <? Z.of_nat (length a))%Z
              && (Z.of_nat (length a) <? Z.of_nat (length (Path.name p)) - 1)%Z)
      eqn:Hc; [|by left].
    right. apply andb_true_iff in Hc as [H1 H2].
    apply Z.ltb_lt in H1, H2. rewrite Nat2Z.id.
    rewrite Hn in H2 |- *. rewrite length_app in H2. simpl in H2.
    rewrite drop_app_length. exists a, b. split_and!; [done|done| | |done].
    + intros ->. simpl in H1. lia.
    + intros ->. simpl in H2. lia.
Qed.

Lemma find_date_nonempty search patterns (filename : pystr) :
  find_date search patterns filename ≠ Some [].
Proof.
  induction patterns as [|p ps IH]; cbn [find_date]; [done|].
  destruct (search p filename) as [[|g1 [|g2 [|g3 [|]]]]|]; try done.
  destruct (length g1 =? 4); intros [= Heq];
    apply app_eq_nil in Heq as [_ Heq]; discriminate.
Qed.

(** What [analyze_filename] returns has a subject and a date that are
    absent or not empty, which is what [generate_new_name] expects. *)
Lemma analyze_filename_nonempty `{PyUnicode} (filename : pystr) :
  subject (analyze_filename filename) ≠ Some []
  ∧ date (analyze_filename filename) ≠ Some [].
Proof.
  split.
  - rewrite subject_analyze. intros Hs.
    apply first_entry_Some in Hs as (i & kws & Hi & _).
    apply list_elem_of_lookup_2, list_elem_of_In in Hi.
    assert (forallb (λ e, negb (bool_decide (e.1 = []))) subject_patterns = true)
      as Hall by (vm_compute; reflexivity).
    rewrite forallb_forall in Hall. specialize (Hall _ Hi). cbn [fst] in Hall.
    by rewrite bool_decide_eq_true_2 in Hall.
  - rewrite date_analyze. apply find_date_nonempty.
Qed.

(** ** C3 *)

(** C3. For a FileInfo whose subject and date, when present, are not empty,
    and a counter of at least 1, [generate_new_name] returns
    subject_category_date_type_counter followed by the extension: the
    subject, or ["unknown"] when it is absent; the date, or the current date
    when it is absent; the counter in decimal digits, two of them below 100
    (padded with a zero below 10) and as many as the number has from 100 on
    (["100"]); the extension [Path.suffix] of the original name, which is
    empty or begins with the last dot of the name. *)
Theorem generate_new_name_template (today : pystr) (info : FileInfo) (counter : Z) :
  (1 ≤ counter)%Z → subject info ≠ Some [] → date info ≠ Some [] →
  ∃ cnt ext,
    generate_new_name today info counter
    = default (u8 "unknown") (subject info) ++ u8 "_" ++ category info ++ u8 "_"
      ++ default today (date info) ++ u8 "_" ++ file_type info ++ u8 "_"
      ++ cnt ++ ext
    ∧ forallb Str.ascii_digit cnt = true
    ∧ Fmt.value cnt = Z.to_N counter
    ∧ ((counter < 100)%Z → length cnt = 2)
    ∧ ((100 ≤ counter)%Z → 3 ≤ length cnt ∧ head cnt ≠ Some 48%N)
    ∧ Fmt.d02 7 = u8 "07" ∧ Fmt.d02 42 = u8 "42" ∧ Fmt.d02 100 = u8 "100"
    ∧ ext = Path.suffix (original_name info)
    ∧ (ext = []
       ∨ ∃ stem e, Path.name (original_name info) = stem ++ ext ∧ ext = 46%N :: e
                   ∧ stem ≠ [] ∧ e ≠ [] ∧ 46%N ∉ e).
Proof.
  intros Hc Hs Hd.
  exists (Fmt.d02 counter), (Path.suffix (original_name info)). split_and!.
  - unfold generate_new_name. cbn [Str.join]. rewrite <- !app_assoc.
    destruct (subject info) as [[|]|]; [done|..];
      destruct (date info) as [[|]|]; done.
  - unfold Fmt.d02. destruct (Z.ltb_spec counter 0); [lia|].
    destruct (Z.ltb_spec counter 10); [|apply dec_ascii].
    cbn [forallb]. by rewrite dec_ascii.
  - apply d02_value. lia.
  - intros Hlt. unfold Fmt.d02. destruct (Z.ltb_spec counter 0); [lia|].
    destruct (Z.ltb_spec counter 10).
    + simpl. rewrite dec_length_small; lia.
    + apply dec_length_two. lia.
  - intros Hge. unfold Fmt.d02. destruct (Z.ltb_spec counter 0); [lia|].
    destruct (Z.ltb_spec counter 10); [lia|]. split.
    + apply dec_length_large. lia.
    + destruct (Fmt.dec (Z.to_N counter)) as [|c rest] eqn:Hdec; [done|].
      simpl. intros [= ->]. apply dec_no_leading_zero in Hdec; [done|lia].
  - reflexivity.
  - reflexivity.
  - reflexivity.
  - reflexivity.
  - apply suffix_spec.
Qed.

Lemma generate_new_name_witness :
  ∃ cnt ext,
    generate_new_name (u8 "2026-11-04") sample_info 100
    = default (u8 "unknown") (subject sample_info) ++ u8 "_"
      ++ category sample_info ++ u8 "_"
      ++ default (u8 "2026-11-04") (date sample_info) ++ u8 "_"
      ++ file_type sample_info ++ u8 "_" ++ cnt ++ ext
    ∧ forallb Str.ascii_digit cnt = true
    ∧ Fmt.value cnt = Z.to_N 100
    ∧ ((100 < 100)%Z → length cnt = 2)
    ∧ ((100 ≤ 100)%Z → 3 ≤ length cnt ∧ head cnt ≠ Some 48%N)
    ∧ Fmt.d02 7 = u8 "07" ∧ Fmt.d02 42 = u8 "42" ∧ Fmt.d02 100 = u8 "100"
    ∧ ext = Path.suffix (original_name sample_info)
    ∧ (ext = []
       ∨ ∃ stem e, Path.name (original_name sample_info) = stem ++ ext
                   ∧ ext = 46%N :: e ∧ stem ≠ [] ∧ e ≠ [] ∧ 46%N ∉ e).
Proof.
  apply (generate_new_name_template (u8 "2026-11-04") sample_info 100);
    [lia | done | done].
Defined.

Example generate_new_name_sample :
  generate_new_name (u8 "2026-11-04") sample_info 100
  = u8 "math_lecture_2026-11-04_documents_100.PDF".
Proof. vm_compute; reflexivity. Qed.

(** Different counters give different names. *)
Lemma generate_new_name_inj (today : pystr) (info : FileInfo) (a b : Z) :
  (0 ≤ a)%Z → (0 ≤ b)%Z →
  generate_new_name today info a = generate_new_name today info b → a = b.
Proof.
  intros Ha Hb. unfold generate_new_name. cbn [Str.join].
  intros Heq. apply app_inv_tail in Heq.
  repeat apply app_inv_head in Heq. by apply d02_inj.
Qed.

(** * The search for an unused name *)

Section UniqueName.
Context `{Countable K}.
Variable key : pystr → K.
Hypothesis key_inj : ∀ a b, key a = key b → a = b.
Variable today : pystr.
Variable info : FileInfo.
Variable exists_ : pystr → bool.

(** If the names that exist lie, through [key], in a finite set, the loop
    started at [c] stops within as many rounds as the set has elements plus
    one, at the first counter from [c] on whose name does not exist. *)
Lemma unique_name_finds (fuel : nat) :
  ∀ (taken : gset K) (c : Z),
    (0 ≤ c)%Z →
    (∀ c', (c ≤ c')%Z → exists_ (generate_new_name today info c') = true →
           key (generate_new_name today info c') ∈ taken) →
    size taken < fuel →
    ∃ c1, (c ≤ c1 ≤ c + Z.of_nat (size taken))%Z
      ∧ unique_name fuel today exists_ info c
        = Some (c1, generate_new_name today info c1)
      ∧ exists_ (generate_new_name today info c1) = false
      ∧ ∀ c', (c ≤ c' < c1)%Z → exists_ (generate_new_name today info c') = true.
Proof.
  induction fuel as [|fuel IH]; intros taken c Hc Htaken Hsize; [lia|].
  cbn [unique_name].
  destruct (exists_ (generate_new_name today info c)) eqn:Hex; cbn [negb].
  - assert (key (generate_new_name today info c) ∈ taken) as Hin
      by (apply Htaken; [lia|done]).
    assert (size (taken ∖ {[key (generate_new_name today info c)]}) = size taken - 1)
      as Hsz.
    { rewrite size_difference by (by apply singleton_subseteq_l).
      by rewrite size_singleton. }
    assert (0 < size taken) as Hpos.
    { destruct (decide (size taken = 0)) as [Hz|]; [|lia].
      apply size_empty_inv in Hz. apply leibniz_equiv in Hz. subst taken.
      by apply not_elem_of_empty in Hin. }
    destruct (IH (taken ∖ {[key (generate_new_name today info c)]}) (c + 1)%Z)
      as (c1 & Hrange & Hrun & Hfree & Hbelow).
    + lia.
    + intros c' Hc' Hex'. apply elem_of_difference. split.
      * apply Htaken; [lia|done].
      * rewrite elem_of_singleton. intros Heq. apply key_inj in Heq.
        apply generate_new_name_inj in Heq; lia.
    + lia.
    + exists c1. split_and!; [lia|lia|done..|].
      intros c' Hc'. destruct (decide (c' = c)) as [->|]; [done|].
      apply Hbelow. lia.
  - exists c. split_and!; [lia|lia|done..|]. intros; lia.
Qed.
End UniqueName.

(** Whatever finite set of names exists, the loop started at counter 1
    stops at the first counter whose name is not among them. *)
Lemma unique_name_stops (today : pystr) (info : FileInfo) (dir : gset pystr) :
  ∃ c, (1 ≤ c ≤ 1 + Z.of_nat (size dir))%Z
    ∧ (∀ fuel, size dir < fuel →
         unique_name fuel today (λ n, bool_decide (n ∈ dir)) info 1
         = Some (c, generate_new_name today info c))
    ∧ (generate_new_name today info c ∉ dir)
    ∧ ∀ c', (1 ≤ c' < c)%Z → generate_new_name today info c' ∈ dir.
Proof.
  assert (∀ fuel, size dir < fuel →
    ∃ c, (1 ≤ c ≤ 1 + Z.of_nat (size dir))%Z
      ∧ unique_name fuel today (λ n, bool_decide (n ∈ dir)) info 1
        = Some (c, generate_new_name today info c)
      ∧ bool_decide (generate_new_name today info c ∈ dir) = false
      ∧ ∀ c', (1 ≤ c' < c)%Z →
          bool_decide (generate_new_name today info c' ∈ dir) = true) as Hrun.
  { intros fuel Hfuel.
    apply (unique_name_finds id) with (taken := dir); [done|lia| |done].
    intros c' _ Hex. by apply bool_decide_eq_true in Hex. }
  destruct (Hrun (S (size dir))) as (c & Hrange & _ & Hfree & Hbelow); [lia|].
  exists c. split_and!; [lia|lia| |by apply bool_decide_eq_false in Hfree|].
  - intros fuel Hfuel.
    destruct (Hrun fuel Hfuel) as (c2 & Hrange2 & Hrun2 & Hfree2 & Hbelow2).
    destruct (Z.lt_trichotomy c c2) as [Hlt | [-> | Hgt]]; [|done|].
    + rewrite Hbelow2 in Hfree by lia. done.
    + rewrite Hbelow in Hfree2 by lia. done.
  - intros c' Hc'. specialize (Hbelow c' Hc'). by apply bool_decide_eq_true in Hbelow.
Qed.

(** Two names are taken: the loop settles on counter 3. *)
Example unique_name_sample :
  unique_name 3 (u8 "2026-11-04")
    (λ n, bool_decide (n ∈ ({[ u8 "math_lecture_2026-11-04_documents_01.PDF";
                               u8 "math_lecture_2026-11-04_documents_02.PDF" ]}
                            : gset pystr)))
    sample_info 1
  = Some (3%Z, u8 "math_lecture_2026-11-04_documents_03.PDF").
Proof. vm_compute; reflexivity. Qed.

(** The loop inside [organize_file] finds a free place in the tree. *)
Lemma unique_name_in_tree (t : gmap (pystr * pystr) pybytes) (today : pystr)
    (info : FileInfo) (subdir : pystr) :
  ∃ c, (1 ≤ c)%Z
    ∧ unique_name (S (size t)) today
        (λ n, bool_decide (is_Some (t !! (subdir, n)))) info 1
      = Some (c, generate_new_name today info c)
    ∧ t !! (subdir, generate_new_name today info c) = None
    ∧ ∀ c', (1 ≤ c' < c)%Z →
        is_Some (t !! (subdir, generate_new_name today info c')).
Proof.
  assert (∀ a b : pystr, (subdir, a) = (subdir, b) → a = b) as Hinj
    by (by intros a b [= ->]).
  destruct (unique_name_finds (pair subdir) Hinj today info
              (λ n, bool_decide (is_Some (t !! (subdir, n))))
              (S (size t)) (dom t) 1%Z) as (c & Hrange & Hrun & Hfree & Hbelow).
  - lia.
  - intros c' _ Hex. apply bool_decide_eq_true in Hex. by apply elem_of_dom.
  - rewrite size_dom. lia.
  - exists c. split_and!; [lia|done| |].
    + apply bool_decide_eq_false in Hfree. by apply eq_None_not_Some.
    + intros c' Hc'. specialize (Hbelow c' Hc'). by apply bool_decide_eq_true in Hbelow.
Qed.

(** * Properties of [organize_file] *)

Section OrganizeFile.
Context `{PyUnicode}.

Lemma chosen_name_spec (e : Env) (file_path : SourcePath) (w : World) :
  ∃ c, (1 ≤ c)%Z
    ∧ unique_name (S (size (tree w))) (today e)
        (λ n, bool_decide (is_Some (tree w !!
                (category (analyze_filename (name file_path)), n))))
        (analyze_filename (name file_path)) 1
      = Some (c, chosen_name e file_path w)
    ∧ chosen_name e file_path w
      = generate_new_name (today e) (analyze_filename (name file_path)) c
    ∧ tree w !! destination e file_path w = None
    ∧ ∀ c', (1 ≤ c' < c)%Z →
        is_Some (tree w !! (category (analyze_filename (name file_path)),
                 generate_new_name (today e) (analyze_filename (name file_path)) c')).
Proof.
  destruct (unique_name_in_tree (tree w) (today e) (analyze_filename (name file_path))
              (category (analyze_filename (name file_path))))
    as (c & Hc & Hrun & Hfree & Hbelow).
  exists c. unfold destination, chosen_name. rewrite Hrun. by split_and!.
Qed.

Lemma organize_file_skip (e : Env) (file_path : SourcePath) (w : World) :
  is_system_file (name file_path) = true →
  organize_file e file_path w
  = (Done false,
     {| stats := incr_skipped (incr_total_files (stats w));
        log := log w ++ [(DEBUG, u8 "Пропущен системный файл: " ++ name file_path)];
        tree := tree w |}).
Proof. intros Hsys. run_organize. rewrite Hsys. reflexivity. Qed.

Lemma organize_file_mkdir_error (e : Env) (file_path : SourcePath) (w : World) err :
  is_system_file (name file_path) = false →
  mkdir_error e = Some err →
  organize_file e file_path w
  = (Done false,
     {| stats := incr_errors (incr_total_files (stats w));
        log := log w ++ [error_line file_path err];
        tree := tree w |}).
Proof. intros Hsys Hmk. run_organize. rewrite Hsys, Hmk. reflexivity. Qed.

Lemma organize_file_copy_error (e : Env) (file_path : SourcePath) (w : World)
    left_behind err :
  is_system_file (name file_path) = false →
  mkdir_error e = None →
  copy e = CopyRaises left_behind err →
  organize_file e file_path w
  = (Done false,
     {| stats := incr_errors (incr_total_files (stats w));
        log := log w ++ [error_line file_path err];
        tree := match left_behind with
                | Some part => <[destination e file_path w := part]> (tree w)
                | None => tree w
                end |}).
Proof.
  intros Hsys Hmk Hcp. run_organize. rewrite Hsys, Hmk. cbn [tree stats log].
  destruct (chosen_name_spec e file_path w) as (c & _ & Hrun & _).
  rewrite Hrun, Hcp. by destruct left_behind.
Qed.

Lemma organize_file_metadata_error (e : Env) (file_path : SourcePath) (w : World) err :
  is_system_file (name file_path) = false →
  mkdir_error e = None →
  copy e = CopyCompletes →
  metadata_error e = Some err →
  organize_file e file_path w
  = (Done false,
     {| stats := incr_errors
                   (count_category (category (analyze_filename (name file_path)))
                      (incr_processed (incr_total_files (stats w))));
        log := (log w ++ [info_line e file_path w]) ++ [error_line file_path err];
        tree := <[destination e file_path w := contents file_path]> (tree w) |}).
Proof.
  intros Hsys Hmk Hcp Hmeta. run_organize. rewrite Hsys, Hmk. cbn [tree stats log].
  destruct (chosen_name_spec e file_path w) as (c & _ & Hrun & _).
  rewrite Hrun, Hcp, Hmeta. reflexivity.
Qed.

Lemma organize_file_write_error (e : Env) (file_path : SourcePath) (w : World)
    kept err :
  is_system_file (name file_path) = false →
  mkdir_error e = None →
  copy e = CopyCompletes →
  metadata_error e = None →
  metadata_write e = WriteRaises kept err →
  organize_file e file_path w
  = (Done false,
     {| stats := incr_errors
                   (count_category (category (analyze_filename (name file_path)))
                      (incr_processed (incr_total_files (stats w))));
        log := (log w ++ [info_line e file_path w]) ++ [error_line file_path err];
        tree := <[metadata_path e file_path w
                  := take kept
                       (write_chunks
                          (Json.chunks (to_dict (final_info e file_path w)))).1]>
                  (<[destination e file_path w := contents file_path]> (tree w)) |}).
Proof.
  intros Hsys Hmk Hcp Hmeta Hwrite. run_organize. rewrite Hsys, Hmk.
  cbn [tree stats log].
  destruct (chosen_name_spec e file_path w) as (c & _ & Hrun & _).
  rewrite Hrun, Hcp, Hmeta, Hwrite. unfold final_info.
  by destruct (write_chunks _) as [data ok].
Qed.

Lemma organize_file_encode_error (e : Env) (file_path : SourcePath) (w : World) data :
  is_system_file (name file_path) = false →
  mkdir_error e = None →
  copy e = CopyCompletes →
  metadata_error e = None →
  metadata_write e = WriteCompletes →
  write_chunks (Json.chunks (to_dict (final_info e file_path w))) = (data, false) →
  organize_file e file_path w
  = (Done false,
     {| stats := incr_errors
                   (count_category (category (analyze_filename (name file_path)))
                      (incr_processed (incr_total_files (stats w))));
        log := (log w ++ [info_line e file_path w])
               ++ [error_line file_path (encode_error_text e)];
        tree := <[metadata_path e file_path w := data]>
                  (<[destination e file_path w := contents file_path]> (tree w)) |}).
Proof.
  intros Hsys Hmk Hcp Hmeta Hwrite Hwr. run_organize. rewrite Hsys, Hmk.
  cbn [tree stats log].
  destruct (chosen_name_spec e file_path w) as (c & _ & Hrun & _).
  rewrite Hrun, Hcp, Hmeta, Hwrite. unfold final_info in Hwr. rewrite Hwr. reflexivity.
Qed.

Lemma organize_file_success (e : Env) (file_path : SourcePath) (w : World) data :
  is_system_file (name file_path) = false →
  mkdir_error e = None →
  copy e = CopyCompletes →
  metadata_error e = None →
  metadata_write e = WriteCompletes →
  write_chunks (Json.chunks (to_dict (final_info e file_path w))) = (data, true) →
  organize_file e file_path w
  = (Done true,
     {| stats := count_category (category (analyze_filename (name file_path)))
                   (incr_processed (incr_total_files (stats w)));
        log := log w ++ [info_line e file_path w];
        tree := <[metadata_path e file_path w := data]>
                  (<[destination e file_path w := contents file_path]> (tree w)) |}).
Proof.
  intros Hsys Hmk Hcp Hmeta Hwrite Hwr. run_organize. rewrite Hsys, Hmk.
  cbn [tree stats log].
  destruct (chosen_name_spec e file_path w) as (c & _ & Hrun & _).
  rewrite Hrun, Hcp, Hmeta, Hwrite. unfold final_info in Hwr. rewrite Hwr. reflexivity.
Qed.

(** [organize_file] always returns: it neither raises nor loops. *)
Lemma organize_file_returns (e : Env) (file_path : SourcePath) (w : World) :
  ∃ b w', organize_file e file_path w = (Done b, w').
Proof.
  destruct (is_system_file (name file_path)) eqn:Hsys.
  { eexists _, _. by apply organize_file_skip. }
  destruct (mkdir_error e) as [err|] eqn:Hmk.
  { eexists _, _. by eapply organize_file_mkdir_error. }
  destruct (copy e) as [|left_behind err] eqn:Hcp.
  2: { eexists _, _. by eapply organize_file_copy_error. }
  destruct (metadata_error e) as [err|] eqn:Hmeta.
  { eexists _, _. by eapply organize_file_metadata_error. }
  destruct (metadata_write e) as [|kept werr] eqn:Hwrite.
  2: { eexists _, _. by eapply organize_file_write_error. }
  destruct (write_chunks (Json.chunks (to_dict (final_info e file_path w))))
    as [data [|]] eqn:Hwr.
  - eexists _, _. by eapply organize_file_success.
  - eexists _, _. by eapply organize_file_encode_error.
Qed.

Lemma run_files_cons (e : Env) (file_path : SourcePath)
    (rest : list (Env * SourcePath)) (w : World) :
  run_files ((e, file_path) :: rest) w
  = run_files rest (organize_file e file_path w).2.
Proof.
  destruct (organize_file_returns e file_path w) as (b & w' & Hrun).
  cbn [run_files]. unfold mbind, M_bind, Run.bind. by rewrite Hrun.
Qed.

(** [run] goes through the whole list: no file stops it. *)
Lemma run_files_returns (files : list (Env * SourcePath)) (w : World) :
  ∃ w', run_files files w = (Done tt, w').
Proof.
  revert w; induction files as [|[e file_path] files IH]; intros w.
  - by exists w.
  - rewrite run_files_cons. apply IH.
Qed.

End OrganizeFile.

(** ** C4 *)

(** C4. Whatever finite set of names the destination sub-directory holds,
    the loop that starts at counter 1 and moves on while the generated name
    exists stops: with any fuel above the number of existing names it
    returns a counter and the name generated for it.  That name is not among
    the existing ones, the counter is at most one more than their number,
    and every smaller counter gives a name that exists.  Accordingly
    [organize_file], which runs the loop against the tree, always returns,
    and the place it settles on for an ordinary file holds no file when the
    call begins. *)
Theorem unique_name_terminates :
  (∀ (today : pystr) (info : FileInfo) (dir : gset pystr),
     ∃ c, (1 ≤ c ≤ 1 + Z.of_nat (size dir))%Z
       ∧ (∀ fuel, size dir < fuel →
            unique_name fuel today (λ n, bool_decide (n ∈ dir)) info 1
            = Some (c, generate_new_name today info c))
       ∧ (generate_new_name today info c ∉ dir)
       ∧ ∀ c', (1 ≤ c' < c)%Z → generate_new_name today info c' ∈ dir)
  ∧ (∀ `{PyUnicode} (e : Env) (file_path : SourcePath) (w : World),
       (∃ b w', organize_file e file_path w = (Done b, w'))
       ∧ ∃ c, (1 ≤ c)%Z
           ∧ destination e file_path w
             = (category (analyze_filename (name file_path)),
                generate_new_name (today e) (analyze_filename (name file_path)) c)
           ∧ tree w !! destination e file_path w = None).
Proof.
  split.
  - apply unique_name_stops.
  - intros U e file_path w. split; [apply organize_file_returns|].
    destruct (chosen_name_spec e file_path w) as (c & Hc & _ & Hname & Hfree & _).
    exists c. split_and!; [done| |done]. unfold destination. by rewrite <- Hname.
Qed.

Lemma is_system_file_true (n : pystr) :
  is_system_file n = true ↔
  (∃ rest, n = u8 "." ++ rest) ∨ n = u8 "desktop.ini" ∨ n = u8 "thumbs.db".
Proof.
  unfold is_system_file, Str.mem.
  rewrite orb_true_iff, startswith_spec, bool_decide_eq_true.
  rewrite !elem_of_cons, elem_of_nil. tauto.
Qed.

Lemma is_system_file_false (n : pystr) :
  is_system_file n = false ↔
  ¬ (∃ rest, n = u8 "." ++ rest) ∧ n ≠ u8 "desktop.ini" ∧ n ≠ u8 "thumbs.db".
Proof. rewrite <- not_true_iff_false, is_system_file_true. tauto. Qed.

(** ** C7 *)

(** C7. For a file whose name starts with a dot or is exactly
    [desktop.ini] or [thumbs.db], [organize_file] returns [False] having
    added one to the skipped counter (and to the total); the error and
    processed counters and the destination tree are as before. *)
Theorem system_file_skipped `{PyUnicode} (e : Env) (file_path : SourcePath) (w : World) :
  (∃ rest, name file_path = u8 "." ++ rest)
  ∨ name file_path = u8 "desktop.ini" ∨ name file_path = u8 "thumbs.db" →
  ∃ w', organize_file e file_path w = (Done false, w')
    ∧ skipped (stats w') = skipped (stats w) + 1
    ∧ errors (stats w') = errors (stats w)
    ∧ processed (stats w') = processed (stats w)
    ∧ total_files (stats w') = total_files (stats w) + 1
    ∧ tree w' = tree w.
Proof.
  intros Hsys. apply is_system_file_true in Hsys.
  eexists. split; [by apply organize_file_skip|]. by split_and!.
Qed.

Lemma system_file_skipped_witness :
  ∃ w', @organize_file basic_unicode quiet_env
          {| name := u8 ".DS_Store"; contents := [1; 2; 3]%N |} empty_world
        = (Done false, w')
    ∧ skipped (stats w') = skipped (stats empty_world) + 1
    ∧ errors (stats w') = errors (stats empty_world)
    ∧ processed (stats w') = processed (stats empty_world)
    ∧ total_files (stats w') = total_files (stats empty_world) + 1
    ∧ tree w' = tree empty_world.
Proof.
  apply (@system_file_skipped basic_unicode). left. by exists (u8 "DS_Store").
Defined.

Lemma category_values `{PyUnicode} (filename : pystr) :
  category (analyze_filename filename)
  ∈ [u8 "lecture"; u8 "practice"; u8 "project"; u8 "lab"; u8 "material";
     u8 "exam"; u8 "other"].
Proof.
  rewrite category_analyze.
  destruct (first_entry (any_in (str_lower filename)) FILE_CATEGORIES)
    as [label|] eqn:Hfirst; simpl.
  - apply first_entry_Some in Hfirst as (i & kws & Hi & _).
    apply list_elem_of_lookup_2 in Hi.
    apply (list_elem_of_fmap_2 fst) in Hi. simpl in Hi.
    change (FILE_CATEGORIES.*1)
      with [u8 "lecture"; u8 "practice"; u8 "project"; u8 "lab"; u8 "material";
            u8 "exam"] in Hi.
    rewrite !elem_of_cons, elem_of_nil in Hi.
    repeat (destruct Hi as [->|Hi]; [repeat constructor|]). done.
  - repeat constructor.
Qed.

Lemma destination_not_metadata `{PyUnicode} (e : Env) (file_path : SourcePath) (w : World) :
  destination e file_path w ≠ metadata_path e file_path w.
Proof.
  unfold destination, metadata_path. intros Heq.
  apply (f_equal fst) in Heq. cbn [fst] in Heq.
  pose proof (category_values (name file_path)) as Hin. rewrite Heq in Hin.
  rewrite !elem_of_cons, elem_of_nil in Hin.
  repeat destruct Hin as [Hin|Hin]; try discriminate. done.
Qed.

(** ** C9 *)

(** C9. The reserved names are compared exactly: a name that is
    [desktop.ini] or [thumbs.db] up to the case of its letters, but not
    letter for letter, is not a system file (["Thumbs.db"],
    ["Desktop.ini"]).  A file that is not a system file is not skipped:
    when [mkdir] and the copy succeed it is copied under a name that was
    free and counted as processed, the skipped counter staying as it was,
    and the call returns [True] when the metadata is written too ([False],
    with an error counted, when the write to the metadata file fails). *)
Theorem reserved_names_case_sensitive `{PyUnicode} :
  (∀ n, Str.ascii_lower_cp <$> n = u8 "desktop.ini"
        ∨ Str.ascii_lower_cp <$> n = u8 "thumbs.db" →
        n ≠ u8 "desktop.ini" → n ≠ u8 "thumbs.db" → is_system_file n = false)
  ∧ is_system_file (u8 "Thumbs.db") = false
  ∧ is_system_file (u8 "Desktop.ini") = false
  ∧ (∀ e file_path w,
       is_system_file (name file_path) = false →
       mkdir_error e = None → copy e = CopyCompletes →
       ∃ b w', organize_file e file_path w = (Done b, w')
         ∧ tree w !! destination e file_path w = None
         ∧ tree w' !! destination e file_path w = Some (contents file_path)
         ∧ processed (stats w') = processed (stats w) + 1
         ∧ skipped (stats w') = skipped (stats w)
         ∧ (metadata_error e = None →
            (write_chunks (Json.chunks (to_dict (final_info e file_path w)))).2 = true →
            b = match metadata_write e with
                | WriteCompletes => true
                | WriteRaises _ _ => false
                end
            ∧ errors (stats w')
              = errors (stats w) + match metadata_write e with
                                   | WriteCompletes => 0
                                   | WriteRaises _ _ => 1
                                   end)).
Proof.
  split_and!; [|reflexivity|reflexivity|].
  - intros n Hlow Hd Ht. apply is_system_file_false. split_and!; [|done..].
    intros [rest ->]. change (u8 "." ++ rest) with (46%N :: rest) in Hlow.
    destruct Hlow as [Hlow|Hlow]; discriminate.
  - intros e file_path w Hsys Hmk Hcp.
    destruct (chosen_name_spec e file_path w) as (c & _ & _ & _ & Hfree & _).
    pose proof (destination_not_metadata e file_path w) as Hne.
    destruct (metadata_error e) as [err|] eqn:Hmeta.
    { eexists _, _. split; [by eapply organize_file_metadata_error|].
      cbn [tree stats processed skipped count_category incr_errors incr_processed
           incr_total_files].
      rewrite lookup_insert_eq. by split_and!. }
    destruct (metadata_write e) as [|kept werr] eqn:Hwrite.
    2: { eexists _, _. split; [by eapply organize_file_write_error|].
         cbn [tree stats processed skipped errors count_category incr_errors
              incr_processed incr_total_files].
         rewrite lookup_insert_ne, lookup_insert_eq by done. by split_and!. }
    destruct (write_chunks (Json.chunks (to_dict (final_info e file_path w))))
      as [data [|]] eqn:Hwr.
    + eexists _, _. split; [by eapply organize_file_success|].
      cbn [tree stats processed skipped errors count_category incr_errors
           incr_processed incr_total_files].
      rewrite lookup_insert_ne, lookup_insert_eq by done. by split_and!.
    + eexists _, _. split; [by eapply organize_file_encode_error|].
      cbn [tree stats processed skipped errors count_category incr_errors
           incr_processed incr_total_files].
      rewrite lookup_insert_ne, lookup_insert_eq by done. by split_and!.
Qed.

(** ["Thumbs.db"] in an empty tree: copied into [other], one file
    processed, none skipped. *)
Example thumbs_db_copied :
  let file_path := {| name := u8 "Thumbs.db"; contents := [1; 2; 3]%N |} in
  let r := @organize_file basic_unicode quiet_env file_path empty_world in
  r.1 = Done true
  ∧ tree r.2 !! (u8 "other", u8 "unknown_other_2026-11-04_other_01.db")
    = Some [1; 2; 3]%N
  ∧ processed (stats r.2) = 1 ∧ skipped (stats r.2) = 0.
Proof. vm_compute. by split_and!. Qed.

(** ** C6 *)

(** C6, as the code has it: a failure while an ordinary file is processed
    is caught inside [organize_file], which returns [False]; the error
    counter goes up by one, the last line logged is the error line with the
    file name and the text of the exception, and [run] goes on with the next
    file.  Nothing is removed from the destination: after a failed [mkdir]
    the tree is as before, after a failed copy the bytes that the copy left
    are still there, and after a failure of the metadata the whole copy
    is. *)
Theorem failure_caught_and_counted `{PyUnicode}
    (e : Env) (file_path : SourcePath) (w : World) (err : pystr) :
  is_system_file (name file_path) = false →
  failure_of e file_path w = Some err →
  ∃ w', organize_file e file_path w = (Done false, w')
    ∧ errors (stats w') = errors (stats w) + 1
    ∧ skipped (stats w') = skipped (stats w)
    ∧ last (log w')
      = Some (ERROR, u8 "Ошибка обработки " ++ name file_path ++ u8 ": " ++ err)
    ∧ (∀ rest, run_files ((e, file_path) :: rest) w = run_files rest w')
    ∧ (mkdir_error e ≠ None → tree w' = tree w)
    ∧ (∀ err0, mkdir_error e = None → copy e = CopyRaises None err0 →
         tree w' = tree w)
    ∧ (∀ part err0, mkdir_error e = None → copy e = CopyRaises (Some part) err0 →
         tree w' = <[destination e file_path w := part]> (tree w))
    ∧ (mkdir_error e = None → copy e = CopyCompletes →
         tree w' !! destination e file_path w = Some (contents file_path)).
Proof.
  intros Hsys Hfail. unfold failure_of in Hfail.
  assert (∀ w', organize_file e file_path w = (Done false, w') →
            ∀ rest, run_files ((e, file_path) :: rest) w = run_files rest w')
    as Hnext by (intros w' Hrun rest; by rewrite run_files_cons, Hrun).
  pose proof (destination_not_metadata e file_path w) as Hne.
  destruct (mkdir_error e) as [err0|] eqn:Hmk.
  { injection Hfail as ->. eexists. split; [by apply organize_file_mkdir_error|].
    split_and!; try done.
    - cbn [log]. by rewrite last_snoc.
    - apply Hnext. by apply organize_file_mkdir_error. }
  destruct (copy e) as [|left_behind err0] eqn:Hcp.
  2: { injection Hfail as ->.
       eexists. split; [by eapply organize_file_copy_error|].
       split_and!; try done.
       - cbn [log]. by rewrite last_snoc.
       - apply Hnext. by eapply organize_file_copy_error.
       - intros err1 _ [= -> _]. done.
       - intros part err1 _ [= -> _]. done. }
  destruct (metadata_error e) as [err0|] eqn:Hmeta.
  { injection Hfail as ->.
    eexists. split; [by eapply organize_file_metadata_error|].
    split_and!; try done.
    - cbn [log]. by rewrite last_snoc.
    - apply Hnext. by eapply organize_file_metadata_error.
    - intros _ _. cbn [tree]. by rewrite lookup_insert_eq. }
  destruct (metadata_write e) as [|kept werr] eqn:Hwrite.
  2: { injection Hfail as ->.
       eexists. split; [by eapply organize_file_write_error|].
       split_and!; try done.
       - cbn [log]. by rewrite last_snoc.
       - apply Hnext. by eapply organize_file_write_error.
       - intros _ _. cbn [tree]. by rewrite lookup_insert_ne, lookup_insert_eq. }
  destruct (write_chunks (Json.chunks (to_dict (final_info e file_path w))))
    as [data ok] eqn:Hwr.
  cbn [snd] in Hfail. destruct ok; [done|]. injection Hfail as <-.
  eexists. split; [by eapply organize_file_encode_error|].
  split_and!; try done.
  - cbn [log]. by rewrite last_snoc.
  - apply Hnext. by eapply organize_file_encode_error.
  - intros _ _. cbn [tree]. by rewrite lookup_insert_ne, lookup_insert_eq.
Qed.

Lemma failure_caught_witness :
  ∃ w', @organize_file basic_unicode disk_full_env notes_txt empty_world = (Done false, w')
    ∧ errors (stats w') = errors (stats empty_world) + 1
    ∧ skipped (stats w') = skipped (stats empty_world)
    ∧ last (log w')
      = Some (ERROR, u8 "Ошибка обработки " ++ name notes_txt ++ u8 ": "
                     ++ u8 "[Errno 28] No space left on device")
    ∧ (∀ rest, @run_files basic_unicode ((disk_full_env, notes_txt) :: rest) empty_world
               = @run_files basic_unicode rest w')
    ∧ (mkdir_error disk_full_env ≠ None → tree w' = tree empty_world)
    ∧ (∀ err0, mkdir_error disk_full_env = None →
         copy disk_full_env = CopyRaises None err0 → tree w' = tree empty_world)
    ∧ (∀ part err0, mkdir_error disk_full_env = None →
         copy disk_full_env = CopyRaises (Some part) err0 →
         tree w' = <[@destination basic_unicode disk_full_env notes_txt empty_world := part]>
                     (tree empty_world))
    ∧ (mkdir_error disk_full_env = None → copy disk_full_env = CopyCompletes →
         tree w' !! @destination basic_unicode disk_full_env notes_txt empty_world
         = Some (contents notes_txt)).
Proof.
  apply (@failure_caught_and_counted basic_unicode disk_full_env notes_txt empty_world);
    vm_compute; reflexivity.
Defined.

(** The claim as worded fails here: the copy of [notes.txt] raises after two
    bytes; the call counts an error and the two bytes stay at the
    destination. *)
Lemma partial_file_counterexample :
  let r := @organize_file basic_unicode disk_full_env notes_txt empty_world in
  r.1 = Done false
  ∧ errors (stats r.2) = 1
  ∧ tree r.2 !! (u8 "other", u8 "unknown_other_2026-11-04_documents_01.txt")
    = Some [1; 2]%N.
Proof. vm_compute. by split_and!. Qed.

(** ** C10 *)

(** A call keeps the tallies in step with the total, except that a file
    whose metadata cannot be written is counted twice: as processed and as
    an error. *)
Lemma tally_step `{PyUnicode} (e : Env) (file_path : SourcePath) (w : World) :
  excess (stats (organize_file e file_path w).2)
  = (excess (stats w) + if metadata_fails e file_path w then 1 else 0)%Z.
Proof.
  unfold metadata_fails.
  destruct (is_system_file (name file_path)) eqn:Hsys.
  { rewrite organize_file_skip by done. unfold excess. simpl. lia. }
  destruct (mkdir_error e) as [err|] eqn:Hmk.
  { erewrite organize_file_mkdir_error by done. unfold excess. simpl. lia. }
  destruct (copy e) as [|left_behind err] eqn:Hcp.
  2: { erewrite organize_file_copy_error by done. unfold excess. simpl. lia. }
  destruct (metadata_error e) as [err|] eqn:Hmeta.
  { erewrite organize_file_metadata_error by done. unfold excess. simpl. lia. }
  destruct (metadata_write e) as [|kept werr] eqn:Hwrite.
  2: { erewrite organize_file_write_error by done. unfold excess. cbn. lia. }
  destruct (write_chunks (Json.chunks (to_dict (final_info e file_path w))))
    as [data [|]] eqn:Hwr.
  - erewrite organize_file_success by done. unfold excess. simpl. lia.
  - erewrite organize_file_encode_error by done. unfold excess. simpl. lia.
Qed.

(** C10 fails on the code.  [notes.txt] with a metadata directory that
    cannot be written, and a file whose name holds a lone surrogate (the
    metadata cannot be encoded): in both runs, started from zero, the copy
    is made and one file is counted in total, one as processed and one as an
    error, so that total_files = 1 while processed + skipped + errors = 2. *)
Theorem tally_counts_twice :
  let r1 := @organize_file basic_unicode read_only_metadata_env notes_txt empty_world in
  let r2 := @organize_file basic_unicode quiet_env undecodable_txt empty_world in
  (r1.1 = Done false
   ∧ total_files (stats r1.2) = 1 ∧ processed (stats r1.2) = 1
   ∧ skipped (stats r1.2) = 0 ∧ errors (stats r1.2) = 1
   ∧ total_files (stats r1.2)
     ≠ processed (stats r1.2) + skipped (stats r1.2) + errors (stats r1.2)
   ∧ tree r1.2 !! (u8 "other", u8 "unknown_other_2026-11-04_documents_01.txt")
     = Some [1; 2; 3; 4]%N)
  ∧ (r2.1 = Done false
     ∧ total_files (stats r2.2) = 1 ∧ processed (stats r2.2) = 1
     ∧ skipped (stats r2.2) = 0 ∧ errors (stats r2.2) = 1
     ∧ total_files (stats r2.2)
       ≠ processed (stats r2.2) + skipped (stats r2.2) + errors (stats r2.2)
     ∧ tree r2.2 !! (u8 "other", u8 "unknown_other_2026-11-04_documents_01.txt")
       = Some [1; 2; 3; 4]%N).
Proof. vm_compute. by split_and!. Qed.

(** * The metadata round trip *)

Lemma decode_encode_cp (c : N) (bs rest : pybytes) :
  Utf8.encode_cp c = Some bs →
  Utf8.decode (bs ++ rest) = cons c <$> Utf8.decode rest.
Proof.
  unfold Utf8.encode_cp, Utf8.is_surrogate.
  destruct (N.ltb_spec c 0x80) as [H1|H1].
  { intros [= <-]. cbn [app Utf8.decode]. by decide_cmp. }
  destruct (N.ltb_spec c 0x800) as [H2|H2].
  { intros [= <-]. cbn [app Utf8.decode]. unfold Utf8.is_cont.
    split64 c q1 r1. decide_cmp. cbn [andb]. do 2 f_equal. lia. }
  destruct (N.ltb_spec c 0x10000) as [H3|H3].
  { destruct (N.leb_spec 0xD800 c) as [H4|H4];
      [destruct (N.ltb_spec c 0xE000) as [H5|H5]|]; cbn [andb]; [done|..];
      intros [= <-]; cbn [app Utf8.decode]; unfold Utf8.is_cont, Utf8.is_surrogate;
      replace (c / 4096)%N with (c / 64 / 64)%N by (by rewrite N.Div0.div_div);
      split64 c q1 r1; split64 q1 q2 r2; decide_cmp; cbn [andb negb];
      do 2 f_equal; lia. }
  destruct (N.ltb_spec c 0x110000) as [H4|H4]; [|done].
  intros [= <-]. cbn [app Utf8.decode]. unfold Utf8.is_cont.
  replace (c / 262144)%N with (c / 64 / 64 / 64)%N by (by rewrite !N.Div0.div_div).
  replace (c / 4096)%N with (c / 64 / 64)%N by (by rewrite N.Div0.div_div).
  split64 c q1 r1. split64 q1 q2 r2. split64 q2 q3 r3.
  decide_cmp. cbn [andb]. do 2 f_equal. lia.
Qed.

Lemma decode_encode (s : pystr) (bs : pybytes) :
  Utf8.encode s = Some bs → Utf8.decode bs = Some s.
Proof.
  revert bs; induction s as [|c s IH]; intros bs; cbn [Utf8.encode].
  - by intros [= <-].
  - destruct (Utf8.encode_cp c) as [b1|] eqn:Hc; [|done].
    destruct (Utf8.encode s) as [b2|] eqn:Hs; [|done].
    intros [= <-]. rewrite (decode_encode_cp c b1 b2 Hc).
    by rewrite (IH b2).
Qed.

Lemma encode_cp_scalar (c : N) : scalar c = true → is_Some (Utf8.encode_cp c).
Proof.
  unfold scalar, Utf8.encode_cp. rewrite andb_true_iff, N.ltb_lt, negb_true_iff.
  intros [Hlt ->]. by decide_cmp; repeat case_match.
Qed.

Lemma encode_text (s : pystr) : is_text s = true → is_Some (Utf8.encode s).
Proof.
  unfold is_text. induction s as [|c s IH]; cbn [forallb Utf8.encode]; [done|].
  rewrite andb_true_iff. intros [Hc Hs].
  destruct (encode_cp_scalar c Hc) as [b1 ->].
  destruct (IH Hs) as [b2 ->]. done.
Qed.

Lemma encode_app (a b : pystr) :
  Utf8.encode (a ++ b)
  = match Utf8.encode a, Utf8.encode b with
    | Some x, Some y => Some (x ++ y)
    | _, _ => None
    end.
Proof.
  induction a as [|c a IH]; cbn [app Utf8.encode].
  - by destruct (Utf8.encode b).
  - rewrite IH. destruct (Utf8.encode_cp c), (Utf8.encode a), (Utf8.encode b);
      try done. by rewrite app_assoc.
Qed.

(** When every piece can be encoded, what is written is the encoding of the
    whole text. *)
Lemma write_chunks_text (chunks : list pystr) :
  forallb is_text chunks = true →
  ∃ data, write_chunks chunks = (data, true)
          ∧ Utf8.encode (concat chunks) = Some data.
Proof.
  induction chunks as [|c chunks IH]; cbn [forallb write_chunks concat].
  - intros _. by exists [].
  - rewrite andb_true_iff. intros [Hc Hs].
    destruct (encode_text c Hc) as [b1 Hb1].
    destruct (IH Hs) as (b2 & Hw & Hb2).
    exists (b1 ++ b2). rewrite Hb1, Hw, encode_app, Hb1, Hb2. done.
Qed.

(** ** Strings *)

Lemma scanstring_plain (c : N) (r : pystr) :
  c ≠ 34%N → c ≠ 92%N → (32 ≤ c)%N →
  Json.scanstring (c :: r) = Json.push c (Json.scanstring r).
Proof. intros H1 H2 H3. cbn [Json.scanstring]. by decide_cmp. Qed.

Lemma scanstring_short (e x : N) (r : pystr) :
  e ≠ 117%N → Json.unescape e = Some x →
  Json.scanstring (92%N :: e :: r) = Json.push x (Json.scanstring r).
Proof.
  intros H1 H2. cbn [Json.scanstring].
  change (92 =? 34)%N with false. change (92 =? 92)%N with true. cbv iota.
  rewrite (proj2 (N.eqb_neq e 117)) by done. by rewrite H2.
Qed.

Lemma scanstring_u4 (a b c d uni : N) (r : pystr) :
  Json.hex4 a b c d = Some uni → (uni < 0xD800)%N →
  Json.scanstring (92%N :: 117%N :: a :: b :: c :: d :: r)
  = Json.push uni (Json.scanstring r).
Proof.
  intros H1 H2. cbn [Json.scanstring].
  change (92 =? 34)%N with false. change (92 =? 92)%N with true.
  change (117 =? 117)%N with true. cbv iota.
  rewrite H1. by decide_cmp.
Qed.

Lemma hex4_control (c : N) :
  (c < 32)%N →
  Json.hex4 48 48 (Json.hex_digit (c / 16)) (Json.hex_digit (c mod 16)) = Some c.
Proof.
  intros Hc.
  assert (forallb (λ k, bool_decide
            (Json.hex4 48 48 (Json.hex_digit (N.of_nat k / 16))
               (Json.hex_digit (N.of_nat k mod 16)) = Some (N.of_nat k)))
            (seq 0 32) = true) as Hall by (vm_compute; reflexivity).
  rewrite forallb_forall in Hall. specialize (Hall (N.to_nat c)).
  rewrite N2Nat.id in Hall. eapply bool_decide_eq_true_1, Hall, in_seq. lia.
Qed.

(** The scanner undoes the escaping of one character. *)
Lemma scanstring_escape (c : N) (r : pystr) :
  Json.scanstring (Json.escape_cp c ++ r) = Json.push c (Json.scanstring r).
Proof.
  unfold Json.escape_cp.
  destruct (N.eqb_spec c 92) as [->|H92]; [by apply scanstring_short|].
  destruct (N.eqb_spec c 34) as [->|H34]; [by apply scanstring_short|].
  destruct (N.eqb_spec c 8) as [->|H8]; [by apply scanstring_short|].
  destruct (N.eqb_spec c 12) as [->|H12]; [by apply scanstring_short|].
  destruct (N.eqb_spec c 10) as [->|H10]; [by apply scanstring_short|].
  destruct (N.eqb_spec c 13) as [->|H13]; [by apply scanstring_short|].
  destruct (N.eqb_spec c 9) as [->|H9]; [by apply scanstring_short|].
  destruct (N.ltb_spec c 32) as [Hlt|Hge].
  - apply scanstring_u4; [by apply hex4_control|lia].
  - by apply scanstring_plain.
Qed.

Lemma scanstring_encoded (s rest : pystr) :
  Json.scanstring (flat_map Json.escape_cp s ++ 34%N :: rest) = Some (s, rest).
Proof.
  induction s as [|c s IH]; cbn [flat_map app].
  - reflexivity.
  - rewrite <- app_assoc, scanstring_escape, IH. reflexivity.
Qed.

Lemma parse_value_encoded (v : option pystr) (rest : pystr) :
  Json.parse_value (Json.encode_value v ++ rest) = Some (v, rest).
Proof.
  destruct v as [s|]; cbn [Json.encode_value].
  - unfold Json.encode_basestring. cbn [app Json.parse_value].
    change (34 =? 34)%N with true. cbv iota.
    rewrite <- app_assoc. cbn [app]. by rewrite scanstring_encoded.
  - reflexivity.
Qed.

(** ** Objects *)

Lemma dict_set_fresh (k : pystr) (v : option pystr) (d : Json.dict) :
  k ∉ d.*1 → Json.dict_set k v d = d ++ [(k, v)].
Proof.
  induction d as [|[k' v'] d IH]; cbn [Json.dict_set fmap list_fmap app fst]; [done|].
  rewrite not_elem_of_cons. intros [Hne Hk].
  rewrite bool_decide_eq_false_2 by done. by rewrite IH.
Qed.

Lemma fold_dict_set (d acc : Json.dict) :
  NoDup ((acc ++ d).*1) →
  fold_left (λ a kv, Json.dict_set kv.1 kv.2 a) d acc = acc ++ d.
Proof.
  revert acc; induction d as [|[k v] d IH]; intros acc Hnd; cbn [fold_left fst snd].
  - by rewrite app_nil_r.
  - assert (k ∉ acc.*1) as Hk.
    { rewrite fmap_app in Hnd. apply NoDup_app in Hnd as (_ & Hdisj & _).
      intros Hin. apply (Hdisj k Hin). cbn. left. }
    rewrite dict_set_fresh by done. rewrite IH.
    + by rewrite <- app_assoc.
    + by rewrite <- app_assoc.
Qed.

Lemma more_text_cons (k : pystr) (v : option pystr) (d : Json.dict) :
  more_text ((k, v) :: d)
  = [44; 10; 32; 32]%N ++ Json.encode_basestring k ++ [58; 32]%N
    ++ Json.encode_value v ++ more_text d.
Proof.
  unfold more_text. cbn [Json.member_chunks app concat].
  change (u8 ": ") with [58; 32]%N. by rewrite <- ?app_assoc.
Qed.

Lemma members_text_cons (k : pystr) (v : option pystr) (d : Json.dict) :
  concat (Json.member_chunks true ((k, v) :: d))
  = Json.encode_basestring k ++ [58; 32]%N ++ Json.encode_value v ++ more_text d.
Proof.
  unfold more_text. cbn [Json.member_chunks app concat].
  change (u8 ": ") with [58; 32]%N. by rewrite <- ?app_assoc.
Qed.

Lemma skip_ws_string (s rest : pystr) :
  Json.skip_ws (Json.encode_basestring s ++ rest) = Json.encode_basestring s ++ rest.
Proof. reflexivity. Qed.

Lemma skip_ws_value (v : option pystr) (rest : pystr) :
  Json.skip_ws (Json.encode_value v ++ rest) = Json.encode_value v ++ rest.
Proof. by destruct v. Qed.

(** One member: key, colon, value; then a comma and more members, or the
    closing brace. *)
Lemma parse_members_step (fuel : nat) (acc : Json.dict) (k : pystr)
    (v : option pystr) (rest : pystr) :
  Json.parse_members (S fuel) acc
    (Json.encode_basestring k ++ [58; 32]%N ++ Json.encode_value v ++ rest)
  = match Json.skip_ws rest with
    | sep :: r4 =>
        if (sep =? 44)%N
        then Json.parse_members fuel (Json.dict_set k v acc) (Json.skip_ws r4)
        else if (sep =? 125)%N then Some (Json.dict_set k v acc, r4) else None
    | [] => None
    end.
Proof.
  unfold Json.encode_basestring at 1. cbn [app Json.parse_members].
  change (34 =? 34)%N with true. cbv iota.
  rewrite <- app_assoc. cbn [app]. rewrite scanstring_encoded.
  cbn [Json.skip_ws]. change (Json.is_ws 58) with false. cbv iota.
  change (58 =? 58)%N with true. cbv iota.
  cbn [Json.skip_ws]. change (Json.is_ws 32) with true. cbv iota.
  by rewrite skip_ws_value, parse_value_encoded.
Qed.

Lemma parse_members_last (fuel : nat) (acc : Json.dict) (k : pystr)
    (v : option pystr) (tail : pystr) :
  Json.parse_members (S fuel) acc
    (Json.encode_basestring k ++ [58; 32]%N ++ Json.encode_value v
     ++ 10%N :: 125%N :: tail)
  = Some (Json.dict_set k v acc, tail).
Proof. rewrite parse_members_step. reflexivity. Qed.

Lemma parse_members_comma (fuel : nat) (acc : Json.dict) (k k' : pystr)
    (v : option pystr) (rest : pystr) :
  Json.parse_members (S fuel) acc
    (Json.encode_basestring k ++ [58; 32]%N ++ Json.encode_value v
     ++ [44; 10; 32; 32]%N ++ Json.encode_basestring k' ++ rest)
  = Json.parse_members fuel (Json.dict_set k v acc)
      (Json.encode_basestring k' ++ rest).
Proof. rewrite parse_members_step. reflexivity. Qed.

Lemma parse_members_all (d : Json.dict) :
  ∀ fuel acc k v tail,
    length d < fuel →
    Json.parse_members fuel acc
      (Json.encode_basestring k ++ [58; 32]%N ++ Json.encode_value v
       ++ more_text d ++ 10%N :: 125%N :: tail)
    = Some (fold_left (λ a kv, Json.dict_set kv.1 kv.2 a) d (Json.dict_set k v acc),
            tail).
Proof.
  induction d as [|[k' v'] d IH]; intros fuel acc k v tail Hfuel;
    (destruct fuel as [|fuel]; [simpl in Hfuel; lia|]).
  - apply parse_members_last.
  - rewrite more_text_cons, <- !app_assoc.
    rewrite parse_members_comma.
    rewrite IH by (simpl in Hfuel; lia). reflexivity.
Qed.

Lemma more_text_length (d : Json.dict) : length d ≤ length (more_text d).
Proof.
  induction d as [|[k v] d IH]; [done|].
  rewrite more_text_cons, !length_app. simpl. lia.
Qed.

Lemma dumps_cons (k : pystr) (v : option pystr) (d : Json.dict) :
  Json.dumps ((k, v) :: d)
  = [123; 10; 32; 32]%N ++ Json.encode_basestring k ++ [58; 32]%N
    ++ Json.encode_value v ++ more_text d ++ [10; 125]%N.
Proof.
  unfold Json.dumps, Json.chunks. rewrite !concat_app, members_text_cons.
  change (u8 "{") with [123%N]. change (u8 "}") with [125%N].
  cbn [concat app]. do 4 f_equal.
  rewrite <- app_assoc. cbn [app]. by rewrite <- app_assoc.
Qed.

Lemma loads_object (k : pystr) (rest : pystr) :
  Json.loads ([123; 10; 32; 32]%N ++ Json.encode_basestring k ++ rest)
  = match Json.parse_members
            (length ([123; 10; 32; 32]%N ++ Json.encode_basestring k ++ rest)) []
            (Json.encode_basestring k ++ rest) with
    | Some (d, rest') =>
        match Json.skip_ws rest' with [] => Some d | _ => None end
    | None => None
    end.
Proof. reflexivity. Qed.

(** [loads] reads back what [dumps] wrote. *)
Lemma loads_dumps (d : Json.dict) :
  NoDup (d.*1) → Json.loads (Json.dumps d) = Some d.
Proof.
  intros Hnd. destruct d as [|[k v] d]; [reflexivity|].
  rewrite dumps_cons, loads_object.
  change ([10; 125]%N) with (10%N :: 125%N :: []).
  rewrite parse_members_all.
  - cbn [Json.skip_ws]. f_equal.
    change (Json.dict_set k v []) with [(k, v)].
    by rewrite fold_dict_set.
  - rewrite !length_app. pose proof (more_text_length d). simpl. lia.
Qed.

(** ** C8 *)

Lemma is_text_app (a b : pystr) : is_text (a ++ b) = is_text a && is_text b.
Proof. unfold is_text. apply forallb_app. Qed.

Lemma escape_is_text (c : N) : scalar c = true → is_text (Json.escape_cp c) = true.
Proof.
  intros Hc. destruct (N.ltb_spec c 32) as [Hlt|Hge].
  - assert (forallb (λ k, is_text (Json.escape_cp (N.of_nat k))) (seq 0 32) = true)
      as Hall by (vm_compute; reflexivity).
    rewrite forallb_forall in Hall. specialize (Hall (N.to_nat c)).
    rewrite N2Nat.id in Hall. apply Hall, in_seq. lia.
  - unfold Json.escape_cp. decide_cmp.
    destruct (N.eqb_spec c 92); [done|]. destruct (N.eqb_spec c 34); [done|].
    unfold is_text. cbn [forallb]. by rewrite Hc.
Qed.

Lemma encode_basestring_is_text (s : pystr) :
  is_text s = true → is_text (Json.encode_basestring s) = true.
Proof.
  intros Hs. unfold Json.encode_basestring.
  change (34%N :: flat_map Json.escape_cp s ++ [34%N])
    with ([34%N] ++ flat_map Json.escape_cp s ++ [34%N]).
  rewrite !is_text_app. cbn [is_text forallb]. change (scalar 34) with true.
  rewrite andb_true_r. cbn [andb].
  induction s as [|c s IH]; [done|]. cbn [flat_map].
  unfold is_text in Hs. cbn [forallb] in Hs. apply andb_true_iff in Hs as [Hc Hs].
  fold (is_text (Json.escape_cp c ++ flat_map Json.escape_cp s)).
  rewrite is_text_app, escape_is_text by done. by apply IH.
Qed.

Lemma encode_value_is_text (v : option pystr) :
  opt_is_text v = true → is_text (Json.encode_value v) = true.
Proof. destruct v; [apply encode_basestring_is_text | done]. Qed.

Lemma member_chunks_text (first : bool) (d : Json.dict) :
  dict_is_text d = true → forallb is_text (Json.member_chunks first d) = true.
Proof.
  revert first; induction d as [|[k v] d IH]; intros first; [done|].
  unfold dict_is_text. cbn [forallb fst snd Json.member_chunks].
  rewrite !andb_true_iff. intros [[Hk Hv] Hd].
  rewrite forallb_app. cbn [app forallb].
  rewrite encode_basestring_is_text, encode_value_is_text, (IH false) by done.
  by destruct first.
Qed.

Lemma chunks_text (d : Json.dict) :
  dict_is_text d = true → forallb is_text (Json.chunks d) = true.
Proof.
  intros Hd. destruct d as [|kv d]; [done|]. unfold Json.chunks.
  cbn [app forallb]. rewrite forallb_app, member_chunks_text by done. done.
Qed.

Lemma of_to_dict (i : FileInfo) : of_dict (to_dict i) = Some i.
Proof. by destruct i. Qed.

Lemma encode_not_text (s : pystr) : is_text s = false → Utf8.encode s = None.
Proof.
  intros Hs. destruct (Utf8.encode s) as [bs|] eqn:He; [|done].
  exfalso. revert bs He Hs. induction s as [|c s IH]; intros bs; [done|].
  cbn [Utf8.encode is_text forallb].
  destruct (Utf8.encode_cp c) as [b1|] eqn:Hc; [|done].
  destruct (Utf8.encode s) as [b2|] eqn:Hs; [|done]. intros _.
  fold (is_text s). rewrite andb_false_iff. intros [Hsc|Hst]; [|by eapply IH].
  revert Hc. unfold scalar in Hsc. unfold Utf8.encode_cp.
  destruct (N.ltb_spec c 0x110000) as [Hlt|Hge].
  - cbn [andb] in Hsc. apply negb_false_iff in Hsc. rewrite Hsc.
    unfold Utf8.is_surrogate in Hsc. apply andb_true_iff in Hsc as [H1%N.leb_le H2%N.ltb_lt].
    destruct (N.ltb_spec c 0x80); [lia|]. destruct (N.ltb_spec c 0x800); [lia|].
    destruct (N.ltb_spec c 0x10000); [done|lia].
  - destruct (N.ltb_spec c 0x80); [lia|]. destruct (N.ltb_spec c 0x800); [lia|].
    destruct (N.ltb_spec c 0x10000); [lia|done].
Qed.

Lemma escape_not_scalar (c : N) : scalar c = false → Json.escape_cp c = [c].
Proof.
  unfold scalar, Utf8.is_surrogate. intros Hc.
  assert (0xD800 ≤ c)%N as Hge.
  { destruct (N.ltb_spec c 0x110000); [|lia]. cbn [andb] in Hc.
    apply negb_false_iff, andb_true_iff in Hc as [?%N.leb_le _]. done. }
  unfold Json.escape_cp.
  repeat match goal with
         | |- context [(c =? ?k)%N] => destruct (N.eqb_spec c k); [lia|]
         end.
  destruct (N.ltb_spec c 32); [lia|done].
Qed.

Lemma encode_basestring_not_text (s : pystr) :
  is_text s = false → Utf8.encode (Json.encode_basestring s) = None.
Proof.
  intros Hs. apply encode_not_text. unfold Json.encode_basestring.
  change (34%N :: flat_map Json.escape_cp s ++ [34%N])
    with ([34%N] ++ flat_map Json.escape_cp s ++ [34%N]).
  rewrite !is_text_app.
  assert (is_text (flat_map Json.escape_cp s) = false) as ->; [|done].
  induction s as [|c s IH]; [done|]. cbn [flat_map]. rewrite is_text_app.
  cbn [is_text forallb] in Hs. fold (is_text s) in Hs.
  apply andb_false_iff in Hs as [Hc|Hs'].
  - rewrite (escape_not_scalar c Hc). cbn [is_text forallb]. by rewrite Hc.
  - rewrite (IH Hs'). apply andb_false_r.
Qed.

(** What could be written in full was text. *)
Lemma write_chunks_ok_text (chunks : list pystr) :
  (write_chunks chunks).2 = true → forallb is_text chunks = true.
Proof.
  induction chunks as [|c chunks IH]; [done|]. cbn [write_chunks forallb].
  destruct (is_text c) eqn:Hc.
  - destruct (Utf8.encode c); [|done]. destruct (write_chunks chunks) as [bs ok].
    cbn [snd] in *. intros ->. by rewrite IH.
  - by rewrite (encode_not_text c Hc).
Qed.

Lemma encode_basestring_text_inv (s : pystr) :
  is_text (Json.encode_basestring s) = true → is_text s = true.
Proof.
  intros Hq. destruct (is_text s) eqn:Hs; [done|].
  destruct (encode_text _ Hq) as [bs Hbs].
  by rewrite (encode_basestring_not_text s Hs) in Hbs.
Qed.

Lemma member_chunks_text_inv (first : bool) (d : Json.dict) :
  forallb is_text (Json.member_chunks first d) = true → dict_is_text d = true.
Proof.
  revert first; induction d as [|[k v] d IH]; intros first; [done|].
  unfold dict_is_text. cbn [forallb fst snd Json.member_chunks].
  rewrite forallb_app. cbn [app forallb]. rewrite !andb_true_iff.
  intros (_ & Hk & _ & Hv & Hd). split_and!.
  - by apply encode_basestring_text_inv.
  - destruct v as [s|]; [by apply encode_basestring_text_inv|done].
  - by apply (IH false).
Qed.

Lemma chunks_text_inv (d : Json.dict) :
  d ≠ [] → forallb is_text (Json.chunks d) = true → dict_is_text d = true.
Proof.
  destruct d as [|kv d]; [done|]. intros _. unfold Json.chunks.
  cbn [app forallb]. rewrite forallb_app, !andb_true_iff.
  intros (_ & _ & Hm & _). by apply (member_chunks_text_inv true).
Qed.

Lemma to_dict_is_text_iff (info : FileInfo) :
  dict_is_text (to_dict info) = true ↔ info_is_text info = true.
Proof.
  unfold info_is_text, dict_is_text, to_dict. cbn [forallb fst snd opt_is_text].
  assert (∀ k, is_text (u8 k) = true → ∀ b, is_text (u8 k) && b = b) as Hkey
    by (by intros k -> b).
  rewrite !Hkey by (vm_compute; reflexivity).
  rewrite !andb_true_iff. cbn [opt_is_text]. tauto.
Qed.

(** C8, as the code has it.  The records that [save_file_info] can write
    in full are exactly those whose strings are text (sequences of Unicode
    scalar values, whatever the script).  For such a record, when the
    metadata file can be opened and every write completes,
    [save_file_info] writes a metadata file from which [json.load] gives
    back the dictionary written, and with it every field of the record as
    it was. *)
Theorem metadata_round_trip (info : FileInfo) :
  (info_is_text info = true
   ↔ (write_chunks (Json.chunks (to_dict info))).2 = true)
  ∧ (info_is_text info = true →
     ∃ data, write_chunks (Json.chunks (to_dict info)) = (data, true)
       ∧ Json.load data = Some (to_dict info)
       ∧ Json.load data ≫= of_dict = Some info
       ∧ ∀ e file_path w, metadata_error e = None →
           metadata_write e = WriteCompletes →
           save_file_info e info file_path w
           = (Done tt,
              {| stats := stats w; log := log w;
                 tree := <[(u8 "_metadata", Path.stem file_path ++ u8 ".json")
                           := data]> (tree w) |})).
Proof.
  assert (info_is_text info = true →
          ∃ data, write_chunks (Json.chunks (to_dict info)) = (data, true)
                  ∧ Utf8.encode (concat (Json.chunks (to_dict info))) = Some data)
    as Hwritten.
  { intros Htext. apply write_chunks_text, chunks_text. by apply to_dict_is_text_iff. }
  split.
  - split.
    + intros Htext. by destruct (Hwritten Htext) as (data & -> & _).
    + intros Hok. apply to_dict_is_text_iff, chunks_text_inv; [by destruct info|].
      by apply write_chunks_ok_text.
  - intros Htext. destruct (Hwritten Htext) as (data & Hwrite & Henc).
    assert (Json.load data = Some (to_dict info)) as Hload.
    { unfold Json.load. rewrite (decode_encode _ _ Henc). cbn [mbind option_bind].
      apply loads_dumps. destruct info. apply (bool_decide_unpack _).
      vm_compute. exact I. }
    exists data. split_and!; [done|done| |].
    + rewrite Hload. cbn [mbind option_bind]. apply of_to_dict.
    + intros e file_path w Hmeta Hflush. unfold save_file_info.
      rewrite Hmeta, Hwrite, Hflush. reflexivity.
Qed.

Lemma metadata_round_trip_witness :
  ∃ data, write_chunks (Json.chunks (to_dict cyrillic_info)) = (data, true)
    ∧ Json.load data = Some (to_dict cyrillic_info)
    ∧ Json.load data ≫= of_dict = Some cyrillic_info
    ∧ ∀ e file_path w, metadata_error e = None →
        metadata_write e = WriteCompletes →
        save_file_info e cyrillic_info file_path w
        = (Done tt,
           {| stats := stats w; log := log w;
              tree := <[(u8 "_metadata", Path.stem file_path ++ u8 ".json") := data]>
                        (tree w) |}).
Proof.
  apply (proj2 (metadata_round_trip cyrillic_info)). vm_compute. reflexivity.
Defined.

(** The claim as worded fails here: the record of a file whose name holds
    a lone surrogate (a byte of the name that could not be decoded) is not
    written in full; [save_file_info] raises and leaves a file that stops
    after the first key and does not load. *)
Lemma record_not_written_counterexample :
  let info := @final_info basic_unicode quiet_env undecodable_txt empty_world in
  let r := save_file_info quiet_env info
             (u8 "unknown_other_2026-11-04_documents_01.txt") empty_world in
  new_name info = Some (u8 "unknown_other_2026-11-04_documents_01.txt")
  ∧ original_name info = name undecodable_txt
  ∧ info_is_text info = false
  ∧ r.1 = Raised (u8 "surrogates not allowed")
  ∧ tree r.2 !! (u8 "_metadata", u8 "unknown_other_2026-11-04_documents_01.json")
    = Some truncated_metadata
  ∧ Json.load truncated_metadata = None.
Proof. vm_compute. by split_and!. Qed.

(** A string with a lone surrogate is no text: the encoder refuses it and
    the metadata file stops before it. *)
Example surrogate_not_written :
  write_chunks (Json.chunks (to_dict (set_new_name
    (@analyze_filename basic_unicode (name undecodable_txt)) (u8 "x.txt"))))
  = (Utf8.bytes_of_string "{" ++ [10; 32; 32; 34]%N
     ++ Utf8.bytes_of_string "original_name" ++ [34]%N
     ++ Utf8.bytes_of_string ": ", false).
Proof. vm_compute; reflexivity. Qed.

(** * Further properties of the classifier *)

Lemma file_type_analyze `{PyUnicode} (filename : pystr) :
  file_type (analyze_filename filename)
  = default (u8 "other")
      (first_entry (Str.mem (str_lower (Path.suffix filename))) FILE_TYPES).
Proof. reflexivity. Qed.

Lemma str_lower_nil `{PyUnicode} : str_lower [] = [].
Proof. by rewrite str_lower_ascii by constructor. Qed.

(** No extension belongs to two file types. *)
Lemma file_types_disjoint (l1 l2 : pystr) (e1 e2 : list pystr) (x : pystr) :
  (l1, e1) ∈ FILE_TYPES → (l2, e2) ∈ FILE_TYPES → x ∈ e1 → x ∈ e2 → l1 = l2.
Proof.
  intros H1 H2 Hx1 Hx2.
  assert (forallb (λ a, forallb (λ b, forallb (λ x,
            negb (bool_decide (x ∈ b.2)) || bool_decide (a.1 = b.1)) a.2)
            FILE_TYPES) FILE_TYPES = true) as Hall by (vm_compute; reflexivity).
  rewrite forallb_forall in Hall. apply list_elem_of_In in H1, H2, Hx1.
  specialize (Hall _ H1). rewrite forallb_forall in Hall.
  specialize (Hall _ H2). rewrite forallb_forall in Hall.
  specialize (Hall _ Hx1). cbn [fst snd] in Hall.
  rewrite (bool_decide_eq_true_2 _ Hx2) in Hall. cbn [negb orb] in Hall.
  by apply bool_decide_eq_true in Hall.
Qed.

Lemma rfind_absent (c : N) (s : pystr) : c ∉ s → Str.rfind c s = (-1)%Z.
Proof.
  intros Hc. destruct (rfind_spec c s) as [[Hr _] | (a & b & -> & _ & _)]; [done|].
  destruct Hc. apply elem_of_app. right. left.
Qed.

(** The last occurrence is where nothing equal follows. *)
Lemma rfind_last (c : N) (a b : pystr) :
  c ∉ b → Str.rfind c (a ++ c :: b) = Z.of_nat (length a).
Proof.
  intros Hb. induction a as [|x a IH]; cbn [app Str.rfind length].
  - rewrite (rfind_absent c b Hb). cbn. by rewrite N.eqb_refl.
  - rewrite IH. destruct (Z.leb_spec 0 (Z.of_nat (length a))); lia.
Qed.

Lemma suffix_of_name (p : pystr) (stem e : pystr) :
  Path.name p = stem ++ 46%N :: e → stem ≠ [] → e ≠ [] → 46%N ∉ e →
  Path.suffix p = 46%N :: e ∧ Path.stem p = stem.
Proof.
  intros Hn Hs He Hdot. unfold Path.suffix, Path.stem. cbv zeta.
  rewrite Hn, (rfind_last 46 stem e Hdot), length_app. cbn [length].
  assert (length stem ≠ 0) by (by destruct stem).
  assert (length e ≠ 0) by (by destruct e).
  rewrite (proj2 (Z.ltb_lt _ _)) by lia. rewrite (proj2 (Z.ltb_lt _ _)) by lia.
  cbn [andb]. rewrite Nat2Z.id. by rewrite drop_app_length, take_app_length.
Qed.

Lemma suffix_empty (p : pystr) :
  46%N ∉ Path.name p
  ∨ (∃ rest, Path.name p = 46%N :: rest ∧ 46%N ∉ rest)
  ∨ (∃ stem, Path.name p = stem ++ [46%N]) →
  Path.suffix p = [] ∧ Path.stem p = Path.name p.
Proof.
  unfold Path.suffix, Path.stem. cbv zeta.
  intros [Hno | [(rest & Hn & Hrest) | (stem & Hn)]].
  - by rewrite (rfind_absent _ _ Hno).
  - rewrite Hn. pose proof (rfind_last 46 [] rest Hrest) as Hr.
    cbn [app length] in Hr. by rewrite Hr.
  - rewrite Hn. rewrite (rfind_last 46 stem []) by apply not_elem_of_nil.
    rewrite length_app. cbn [length].
    rewrite (proj2 (Z.ltb_ge (Z.of_nat (length stem)) _)) by lia.
    by rewrite andb_false_r.
Qed.

(** X1. The file type is looked up by the lower-cased extension: when it
    is in the list of a type, that type is returned, whatever the case of
    the letters in the name (no extension is in two lists, so the order of
    the table plays no part). *)
Theorem file_type_by_extension `{PyUnicode}
    (filename label : pystr) (exts : list pystr) :
  (label, exts) ∈ FILE_TYPES →
  str_lower (Path.suffix filename) ∈ exts →
  file_type (analyze_filename filename) = label.
Proof.
  intros Hin Hext. rewrite file_type_analyze.
  destruct (first_entry (Str.mem (str_lower (Path.suffix filename))) FILE_TYPES)
    as [found|] eqn:Hfirst.
  - apply first_entry_Some in Hfirst as (i & exts' & Hi & Hmem & _).
    apply list_elem_of_lookup_2 in Hi. apply bool_decide_eq_true in Hmem.
    simpl. by apply (file_types_disjoint found label exts' exts
                       (str_lower (Path.suffix filename))).
  - rewrite first_entry_None in Hfirst. specialize (Hfirst label exts Hin).
    apply bool_decide_eq_false in Hfirst. done.
Qed.

Lemma file_type_by_extension_witness :
  file_type (@analyze_filename basic_unicode (u8 "Final_Report.PDF")) = u8 "documents".
Proof.
  apply (@file_type_by_extension basic_unicode (u8 "Final_Report.PDF") (u8 "documents")
           [u8 ".pdf"; u8 ".doc"; u8 ".docx"; u8 ".txt"; u8 ".rtf"]).
  - apply list_elem_of_In. vm_compute. tauto.
  - apply list_elem_of_In. vm_compute. tauto.
Defined.

(** X2. A name without an extension (no dot at all, a single leading dot,
    or a dot at the very end) has an empty suffix, is of type ["other"], and
    gets a new name that ends with the counter, nothing after it. *)
Theorem file_type_without_extension `{PyUnicode} (filename : pystr) :
  46%N ∉ Path.name filename
  ∨ (∃ rest, Path.name filename = 46%N :: rest ∧ 46%N ∉ rest)
  ∨ (∃ stem, Path.name filename = stem ++ [46%N]) →
  Path.suffix filename = []
  ∧ file_type (analyze_filename filename) = u8 "other"
  ∧ ∀ today counter, ∃ front,
      generate_new_name today (analyze_filename filename) counter
      = front ++ u8 "_other_" ++ Fmt.d02 counter.
Proof.
  intros Hname. destruct (suffix_empty filename Hname) as [Hsuf _].
  assert (file_type (analyze_filename filename) = u8 "other") as Htype.
  { rewrite file_type_analyze, Hsuf, str_lower_nil. reflexivity. }
  split_and!; [done..|]. intros today counter.
  unfold generate_new_name. rewrite Htype. cbn [original_name analyze_filename].
  rewrite Hsuf, app_nil_r. cbn [Str.join].
  match goal with
  | |- ∃ _, ?a ++ ?u ++ ?b ++ ?u ++ ?c ++ _ = _ => exists (a ++ u ++ b ++ u ++ c)
  end.
  change (u8 "_other_") with (u8 "_" ++ u8 "other" ++ u8 "_").
  by rewrite <- !app_assoc.
Qed.

Lemma file_type_without_extension_witness :
  Path.suffix (u8 "Makefile") = []
  ∧ file_type (@analyze_filename basic_unicode (u8 "Makefile")) = u8 "other"
  ∧ ∀ today counter, ∃ front,
      generate_new_name today (@analyze_filename basic_unicode (u8 "Makefile")) counter
      = front ++ u8 "_other_" ++ Fmt.d02 counter.
Proof.
  apply (@file_type_without_extension basic_unicode (u8 "Makefile")).
  left. apply (bool_decide_unpack _). vm_compute. exact I.
Defined.

Lemma subject_keywords_stable (s : pystr) (kws : list pystr) (k : pystr) :
  (s, kws) ∈ subject_patterns → k ∈ kws → forallb Str.lower_stable k = true.
Proof.
  intros Hs Hk.
  assert (forallb (λ e, forallb (forallb Str.lower_stable) e.2) subject_patterns = true)
    as Hall by (vm_compute; reflexivity).
  rewrite forallb_forall in Hall. apply list_elem_of_In in Hs.
  specialize (Hall _ Hs). simpl in Hall.
  rewrite forallb_forall in Hall. apply Hall. by apply list_elem_of_In.
Qed.

(** X3. When a keyword of some subject occurs in the filename (as written,
    or after lower-casing), the subject found is the first one, in the
    order math, programming, database, web, english, physics, one of whose
    keywords occurs in the lower-cased name. *)
Theorem subject_first_match `{PyUnicode} (filename s k : pystr) (kws : list pystr) :
  (s, kws) ∈ subject_patterns → k ∈ kws →
  occurs k filename ∨ occurs k (str_lower filename) →
  subject_patterns.*1 = [u8 "math"; u8 "programming"; u8 "database"; u8 "web";
                         u8 "english"; u8 "physics"]
  ∧ ∃ i found kws',
      subject (analyze_filename filename) = Some found
      ∧ subject_patterns !! i = Some (found, kws')
      ∧ (∃ k', k' ∈ kws' ∧ occurs k' (str_lower filename))
      ∧ ∀ j s' kws'' k'', j < i → subject_patterns !! j = Some (s', kws'') →
          k'' ∈ kws'' → ¬ occurs k'' (str_lower filename).
Proof.
  intros Hs Hk Hocc. split; [reflexivity|].
  assert (occurs k (str_lower filename)) as Hlow.
  { destruct Hocc as [Ho|Ho]; [|done].
    apply occurs_lower; [|done]. by apply (subject_keywords_stable s kws). }
  rewrite subject_analyze.
  destruct (first_entry (any_in (str_lower filename)) subject_patterns)
    as [found|] eqn:Hfirst.
  - apply first_entry_Some in Hfirst as (i & kws' & Hi & Htest & Hbefore).
    exists i, found, kws'. split_and!; [done|done|by apply any_in_true|].
    intros j s' kws'' k'' Hj Hlk Hk''.
    specialize (Hbefore j s' kws'' Hj Hlk).
    rewrite any_in_false in Hbefore. by apply Hbefore.
  - rewrite first_entry_None in Hfirst. specialize (Hfirst s kws Hs).
    rewrite any_in_false in Hfirst. by destruct (Hfirst k Hk).
Qed.

Lemma subject_first_match_witness :
  subject_patterns.*1 = [u8 "math"; u8 "programming"; u8 "database"; u8 "web";
                         u8 "english"; u8 "physics"]
  ∧ ∃ i found kws',
      subject (@analyze_filename basic_unicode (u8 "WEB_SQL_notes.html")) = Some found
      ∧ subject_patterns !! i = Some (found, kws')
      ∧ (∃ k', k' ∈ kws'
               ∧ occurs k' (@str_lower basic_unicode (u8 "WEB_SQL_notes.html")))
      ∧ ∀ j s' kws'' k'', j < i → subject_patterns !! j = Some (s', kws'') →
          k'' ∈ kws'' →
          ¬ occurs k'' (@str_lower basic_unicode (u8 "WEB_SQL_notes.html")).
Proof.
  apply (@subject_first_match basic_unicode (u8 "WEB_SQL_notes.html")
           (u8 "web") (u8 "html") [u8 "веб"; u8 "web"; u8 "html"; u8 "css"; u8 "js"]).
  - apply list_elem_of_In. vm_compute. tauto.
  - apply list_elem_of_In. vm_compute. tauto.
  - left. apply contains_spec. vm_compute. reflexivity.
Defined.

(** Keywords of web and of database occur in ["WEB_SQL_notes.html"];
    database comes first in the table. *)
Example subject_order_example `{PyUnicode} :
  subject (analyze_filename (u8 "WEB_SQL_notes.html")) = Some (u8 "database").
Proof. rewrite analyze_filename_ascii by reflexivity. vm_compute; reflexivity. Qed.

Lemma subject_values `{PyUnicode} (filename : pystr) :
  subject (analyze_filename filename)
  ∈ [None; Some (u8 "math"); Some (u8 "programming"); Some (u8 "database");
     Some (u8 "web"); Some (u8 "english"); Some (u8 "physics")].
Proof.
  rewrite subject_analyze.
  destruct (first_entry (any_in (str_lower filename)) subject_patterns)
    as [label|] eqn:Hfirst; [|left].
  apply first_entry_Some in Hfirst as (i & kws & Hi & _).
  apply list_elem_of_lookup_2 in Hi.
  apply (list_elem_of_fmap_2 fst) in Hi. simpl in Hi.
  change (subject_patterns.*1)
    with [u8 "math"; u8 "programming"; u8 "database"; u8 "web"; u8 "english";
          u8 "physics"] in Hi.
  rewrite !elem_of_cons, elem_of_nil in Hi.
  repeat (destruct Hi as [->|Hi]; [repeat constructor|]). done.
Qed.

Lemma file_type_values `{PyUnicode} (filename : pystr) :
  file_type (analyze_filename filename)
  ∈ [u8 "documents"; u8 "presentations"; u8 "spreadsheets"; u8 "code";
     u8 "archives"; u8 "images"; u8 "other"].
Proof.
  rewrite file_type_analyze.
  destruct (first_entry (Str.mem (str_lower (Path.suffix filename))) FILE_TYPES)
    as [label|] eqn:Hfirst; simpl; [|repeat constructor].
  apply first_entry_Some in Hfirst as (i & exts & Hi & _).
  apply list_elem_of_lookup_2 in Hi.
  apply (list_elem_of_fmap_2 fst) in Hi. simpl in Hi.
  change (FILE_TYPES.*1)
    with [u8 "documents"; u8 "presentations"; u8 "spreadsheets"; u8 "code";
          u8 "archives"; u8 "images"; u8 "other"] in Hi.
  done.
Qed.

(** X4. Whatever the filename, the record that [analyze_filename] returns
    keeps the name as given, has no new name yet, and takes its subject, its
    category and its file type from the fixed lists of the tables (the
    subject possibly absent, the other two defaulting to ["other"]). *)
Theorem analyze_filename_values `{PyUnicode} (filename : pystr) :
  original_name (analyze_filename filename) = filename
  ∧ new_name (analyze_filename filename) = None
  ∧ subject (analyze_filename filename)
    ∈ [None; Some (u8 "math"); Some (u8 "programming"); Some (u8 "database");
       Some (u8 "web"); Some (u8 "english"); Some (u8 "physics")]
  ∧ category (analyze_filename filename)
    ∈ [u8 "lecture"; u8 "practice"; u8 "project"; u8 "lab"; u8 "material";
       u8 "exam"; u8 "other"]
  ∧ file_type (analyze_filename filename)
    ∈ [u8 "documents"; u8 "presentations"; u8 "spreadsheets"; u8 "code";
       u8 "archives"; u8 "images"; u8 "other"].
Proof.
  split_and!; [reflexivity|reflexivity|apply subject_values|apply category_values|
               apply file_type_values].
Qed.

Lemma date_here_occurs (dig : N → bool) (w1 w3 : nat) (s : pystr) (i : nat)
    (g1 g2 g3 : pystr) :
  date_at dig w1 w3 s i g1 g2 g3 → occurs g1 s ∧ occurs g2 s ∧ occurs g3 s.
Proof.
  intros (s1 & s2 & rest & Hs & _). unfold occurs.
  rewrite <- (take_drop i s), Hs. split_and!.
  - exists (take i s), (s1 :: g2 ++ s2 :: g3 ++ rest). done.
  - exists (take i s ++ g1 ++ [s1]), (s2 :: g3 ++ rest).
    rewrite <- !app_assoc. done.
  - exists (take i s ++ g1 ++ s1 :: g2 ++ [s2]), rest.
    rewrite <- !app_assoc. cbn [app]. rewrite <- !app_assoc. done.
Qed.

Lemma date_groups `{PyUnicode} (filename d : pystr) :
  date (analyze_filename filename) = Some d →
  ∃ year month day,
    d = year ++ u8 "-" ++ month ++ u8 "-" ++ day
    ∧ length year = 4 ∧ length month = 2 ∧ length day = 2 ∧ length d = 10
    ∧ forallb re_digit year = true ∧ forallb re_digit month = true
    ∧ forallb re_digit day = true
    ∧ occurs year filename ∧ occurs month filename ∧ occurs day filename.
Proof.
  intros Hd. pose proof (find_date_spec re_digit filename) as Hspec.
  rewrite <- date_analyze, Hd in Hspec.
  inversion Hspec as [i dd m y Hat _ Heq | i y m dd _ Hat _ Heq | ]; subst.
  - destruct (date_here_occurs _ _ _ _ _ _ _ _ Hat) as (Ho1 & Ho2 & Ho3).
    destruct Hat as (s1 & s2 & rest & _ & Hl1 & Hl2 & Hl3 & Hd1 & Hd2 & Hd3 & _).
    exists y, m, dd. split_and!; try done.
    repeat (rewrite length_app; cbn [length]). lia.
  - destruct (date_here_occurs _ _ _ _ _ _ _ _ Hat) as (Ho1 & Ho2 & Ho3).
    destruct Hat as (s1 & s2 & rest & _ & Hl1 & Hl2 & Hl3 & Hd1 & Hd2 & Hd3 & _).
    exists y, m, dd. split_and!; try done.
    repeat (rewrite length_app; cbn [length]). lia.
Qed.

(** X5. A date that [analyze_filename] extracts always has the shape
    YYYY-MM-DD: four digits, a hyphen, two digits, a hyphen, two digits, ten
    characters in all (the separators of the filename, dots or hyphens, are
    not kept), and each of the three groups of digits occurs in the
    filename. *)
Theorem date_shape `{PyUnicode} (filename d : pystr) :
  date (analyze_filename filename) = Some d →
  ∃ year month day,
    d = year ++ u8 "-" ++ month ++ u8 "-" ++ day
    ∧ length year = 4 ∧ length month = 2 ∧ length day = 2 ∧ length d = 10
    ∧ forallb re_digit year = true ∧ forallb re_digit month = true
    ∧ forallb re_digit day = true
    ∧ occurs year filename ∧ occurs month filename ∧ occurs day filename.
Proof.
  intros Hd. pose proof (find_date_spec re_digit filename) as Hspec.
  rewrite <- date_analyze, Hd in Hspec.
  inversion Hspec as [i dd m y Hat _ Heq | i y m dd _ Hat _ Heq | ]; subst.
  - destruct (date_here_occurs _ _ _ _ _ _ _ _ Hat) as (Ho1 & Ho2 & Ho3).
    destruct Hat as (s1 & s2 & rest & _ & Hl1 & Hl2 & Hl3 & Hd1 & Hd2 & Hd3 & _).
    exists y, m, dd. split_and!; try done.
    repeat (rewrite length_app; cbn [length]). lia.
  - destruct (date_here_occurs _ _ _ _ _ _ _ _ Hat) as (Ho1 & Ho2 & Ho3).
    destruct Hat as (s1 & s2 & rest & _ & Hl1 & Hl2 & Hl3 & Hd1 & Hd2 & Hd3 & _).
    exists y, m, dd. split_and!; try done.
    repeat (rewrite length_app; cbn [length]). lia.
Qed.

Lemma date_shape_witness :
  ∃ year month day,
    u8 "2024-03-15" = year ++ u8 "-" ++ month ++ u8 "-" ++ day
    ∧ length year = 4 ∧ length month = 2 ∧ length day = 2
    ∧ length (u8 "2024-03-15") = 10
    ∧ forallb (@re_digit basic_unicode) year = true
    ∧ forallb (@re_digit basic_unicode) month = true
    ∧ forallb (@re_digit basic_unicode) day = true
    ∧ occurs year (u8 "seminar 15.03.2024.txt")
    ∧ occurs month (u8 "seminar 15.03.2024.txt")
    ∧ occurs day (u8 "seminar 15.03.2024.txt").
Proof.
  apply (@date_shape basic_unicode (u8 "seminar 15.03.2024.txt") (u8 "2024-03-15")).
  vm_compute. reflexivity.
Defined.

(** * Further properties of the namer *)

Lemma dec_nonempty (n : N) : Fmt.dec n ≠ [].
Proof.
  unfold Fmt.dec. pose proof (DecimalN.Unsigned.to_of (N.to_uint n)) as Hn.
  rewrite DecimalN.Unsigned.of_to in Hn.
  destruct (N.to_uint n) eqn:Hu; done.
Qed.

(** A number that is not negative is never printed with a sign. *)
Lemma d02_unsigned (n : Z) (r : pystr) : (0 ≤ n)%Z → Fmt.d02 n ≠ 45%N :: r.
Proof.
  intros Hn. unfold Fmt.d02. destruct (Z.ltb_spec n 0); [lia|].
  destruct (Z.ltb_spec n 10); [done|].
  pose proof (dec_ascii (Z.to_N n)) as Hd. pose proof (dec_nonempty (Z.to_N n)) as Hne.
  destruct (Fmt.dec (Z.to_N n)) as [|c s]; [done|].
  cbn [forallb] in Hd. apply andb_true_iff in Hd as [Hc _].
  intros [= -> _]. done.
Qed.

Lemma d02_inj_all (n m : Z) : Fmt.d02 n = Fmt.d02 m → n = m.
Proof.
  destruct (Z.le_gt_cases 0 n) as [Hn|Hn], (Z.le_gt_cases 0 m) as [Hm|Hm].
  - by apply d02_inj.
  - intros Heq. exfalso. revert Heq. unfold Fmt.d02 at 2.
    rewrite (proj2 (Z.ltb_lt m 0)) by lia. by apply d02_unsigned.
  - intros Heq. exfalso. symmetry in Heq. revert Heq. unfold Fmt.d02 at 2.
    rewrite (proj2 (Z.ltb_lt n 0)) by lia. by apply d02_unsigned.
  - unfold Fmt.d02. rewrite !(proj2 (Z.ltb_lt _ 0)) by lia.
    intros [= Heq]. apply dec_inj in Heq. lia.
Qed.

(** X6. Two different counters never give the same name, whatever the
    record and the date. *)
Theorem generate_new_name_counters_differ (today : pystr) (info : FileInfo) (a b : Z) :
  a ≠ b → generate_new_name today info a ≠ generate_new_name today info b.
Proof.
  intros Hab Heq. apply Hab. revert Heq.
  unfold generate_new_name. cbn [Str.join].
  intros Heq. apply app_inv_tail in Heq.
  repeat apply app_inv_head in Heq. by apply d02_inj_all.
Qed.

Lemma generate_new_name_counters_differ_witness :
  (99 ≠ 100)%Z
  ∧ generate_new_name (u8 "2026-11-04") sample_info 99
    ≠ generate_new_name (u8 "2026-11-04") sample_info 100.
Proof.
  split; [lia|].
  apply (generate_new_name_counters_differ (u8 "2026-11-04") sample_info 99 100). lia.
Defined.

(** * Further properties of [organize_file] and [run] *)

Section MoreOrganize.
Context `{PyUnicode}.

(** A call touches at most two places of the tree: the destination of the
    copy and the metadata file. *)
Lemma organize_file_frame (e : Env) (file_path : SourcePath) (w : World)
    (p : pystr * pystr) :
  p ≠ destination e file_path w → p ≠ metadata_path e file_path w →
  tree (organize_file e file_path w).2 !! p = tree w !! p.
Proof.
  intros Hd Hm.
  destruct (is_system_file (name file_path)) eqn:Hsys.
  { by rewrite organize_file_skip. }
  destruct (mkdir_error e) as [err|] eqn:Hmk.
  { by erewrite organize_file_mkdir_error. }
  destruct (copy e) as [|left_behind err] eqn:Hcp.
  2: { erewrite organize_file_copy_error by done. cbn [snd tree].
       destruct left_behind; [by rewrite lookup_insert_ne|done]. }
  destruct (metadata_error e) as [err|] eqn:Hmeta.
  { erewrite organize_file_metadata_error by done. cbn [snd tree].
    by rewrite lookup_insert_ne. }
  destruct (metadata_write e) as [|kept werr] eqn:Hwrite.
  2: { erewrite organize_file_write_error by done. cbn [snd tree].
       by rewrite !lookup_insert_ne. }
  destruct (write_chunks (Json.chunks (to_dict (final_info e file_path w))))
    as [data [|]] eqn:Hwr.
  - erewrite organize_file_success by done. cbn [snd tree].
    by rewrite !lookup_insert_ne.
  - erewrite organize_file_encode_error by done. cbn [snd tree].
    by rewrite !lookup_insert_ne.
Qed.

Lemma organize_file_keeps (e : Env) (file_path : SourcePath) (w : World)
    (p : pystr * pystr) (x : pybytes) :
  p.1 ≠ u8 "_metadata" → tree w !! p = Some x →
  tree (organize_file e file_path w).2 !! p = Some x.
Proof.
  intros Hp Hx. rewrite organize_file_frame; [done| |].
  - destruct (chosen_name_spec e file_path w) as (c & _ & _ & _ & Hfree & _).
    intros ->. congruence.
  - intros ->. by apply Hp.
Qed.

Lemma run_files_keeps (files : list (Env * SourcePath)) (w : World)
    (p : pystr * pystr) (x : pybytes) :
  p.1 ≠ u8 "_metadata" → tree w !! p = Some x →
  tree (run_files files w).2 !! p = Some x.
Proof.
  intros Hp. revert w; induction files as [|[e file_path] files IH]; intros w Hx.
  - done.
  - rewrite run_files_cons. apply IH. by apply organize_file_keeps.
Qed.

End MoreOrganize.

(** X7. Nothing is overwritten or removed outside the metadata directory:
    a file that is in the tree, in any other sub-directory, before
    [organize_file] or [run] is there with the same contents afterwards,
    whatever the files processed and whatever fails. *)
Theorem organized_files_kept `{PyUnicode} (files : list (Env * SourcePath))
    (w : World) (p : pystr * pystr) (x : pybytes) :
  p.1 ≠ u8 "_metadata" → tree w !! p = Some x →
  tree (run_files files w).2 !! p = Some x
  ∧ ∀ e file_path, tree (organize_file e file_path w).2 !! p = Some x.
Proof.
  intros Hp Hx. split; [by apply run_files_keeps|].
  intros e file_path. by apply organize_file_keeps.
Qed.

Lemma organized_files_kept_witness :
  tree (@run_files basic_unicode [(quiet_env, notes_txt); (disk_full_env, notes_txt)]
          busy_world).2
    !! (u8 "other", u8 "unknown_other_2026-11-04_documents_01.txt") = Some [9; 9]%N
  ∧ ∀ e file_path,
      tree (@organize_file basic_unicode e file_path busy_world).2
        !! (u8 "other", u8 "unknown_other_2026-11-04_documents_01.txt")
      = Some [9; 9]%N.
Proof.
  apply (@organized_files_kept basic_unicode); [|vm_compute; reflexivity].
  vm_compute. discriminate.
Defined.

(** In that tree [notes.txt] goes to counter 2, and a second copy, broken
    off, to counter 3. *)
Example busy_world_run :
  let t := tree (@run_files basic_unicode
                   [(quiet_env, notes_txt); (disk_full_env, notes_txt)] busy_world).2 in
  t !! (u8 "other", u8 "unknown_other_2026-11-04_documents_01.txt") = Some [9; 9]%N
  ∧ t !! (u8 "other", u8 "unknown_other_2026-11-04_documents_02.txt")
    = Some [1; 2; 3; 4]%N
  ∧ t !! (u8 "other", u8 "unknown_other_2026-11-04_documents_03.txt")
    = Some [1; 2]%N.
Proof. vm_compute. by split_and!. Qed.

Lemma total_files_step `{PyUnicode} (e : Env) (file_path : SourcePath) (w : World) :
  total_files (stats (organize_file e file_path w).2) = total_files (stats w) + 1.
Proof.
  destruct (is_system_file (name file_path)) eqn:Hsys.
  { by rewrite organize_file_skip. }
  destruct (mkdir_error e) as [err|] eqn:Hmk.
  { by erewrite organize_file_mkdir_error. }
  destruct (copy e) as [|left_behind err] eqn:Hcp.
  2: { by erewrite organize_file_copy_error. }
  destruct (metadata_error e) as [err|] eqn:Hmeta.
  { by erewrite organize_file_metadata_error. }
  destruct (metadata_write e) as [|kept werr] eqn:Hwrite.
  2: { by erewrite organize_file_write_error. }
  destruct (write_chunks (Json.chunks (to_dict (final_info e file_path w))))
    as [data [|]] eqn:Hwr.
  - by erewrite organize_file_success.
  - by erewrite organize_file_encode_error.
Qed.

(** X8. The accounts of a run: [total_files] goes up by the number of files
    handed to [organize_file]; the three outcome counters together go up by
    that number plus the number of files whose metadata could not be written
    after their copy had succeeded, those being counted both as processed
    and as errors. *)
Theorem run_accounts `{PyUnicode} (files : list (Env * SourcePath)) (w : World) :
  total_files (stats (run_files files w).2) = total_files (stats w) + length files
  ∧ processed (stats (run_files files w).2) + skipped (stats (run_files files w).2)
    + errors (stats (run_files files w).2)
    = processed (stats w) + skipped (stats w) + errors (stats w)
      + length files + metadata_failures files w.
Proof.
  revert w; induction files as [|[e file_path] files IH]; intros w.
  - cbn. lia.
  - rewrite run_files_cons. destruct (IH (organize_file e file_path w).2) as [IH1 IH2].
    pose proof (total_files_step e file_path w) as Ht.
    pose proof (tally_step e file_path w) as Hx. unfold excess in Hx.
    cbn [length metadata_failures].
    destruct (metadata_fails e file_path w); lia.
Qed.

Lemma categories_total_count (c : pystr) (s : Stats) :
  categories_total (count_category c s) = categories_total s + 1.
Proof.
  unfold categories_total, count_category. cbn [categories].
  destruct (categories s !! c) as [v|] eqn:Hc.
  - rewrite Hc. cbn [default].
    rewrite <- (insert_delete_eq (categories s)).
    rewrite <- (insert_id (categories s) c v Hc) at 2.
    rewrite <- (insert_delete_eq (categories s) c v).
    rewrite !map_fold_insert_L by (first [apply lookup_delete_eq | intros; lia]).
    unfold id. lia.
  - rewrite lookup_insert_eq. cbn [default]. rewrite insert_insert_eq.
    rewrite map_fold_insert_L by (first [done | intros; lia]). unfold id. lia.
Qed.

Lemma categories_step `{PyUnicode} (e : Env) (file_path : SourcePath) (w : World) :
  categories_total (stats (organize_file e file_path w).2) + processed (stats w)
  = categories_total (stats w) + processed (stats (organize_file e file_path w).2).
Proof.
  destruct (is_system_file (name file_path)) eqn:Hsys.
  { by rewrite organize_file_skip. }
  destruct (mkdir_error e) as [err|] eqn:Hmk.
  { by erewrite organize_file_mkdir_error. }
  destruct (copy e) as [|left_behind err] eqn:Hcp.
  2: { by erewrite organize_file_copy_error. }
  destruct (metadata_error e) as [err|] eqn:Hmeta.
  { erewrite organize_file_metadata_error by done. cbn [snd stats].
    change (categories_total (incr_errors ?s)) with (categories_total s).
    rewrite categories_total_count.
    change (categories_total (incr_processed (incr_total_files (stats w))))
      with (categories_total (stats w)). cbn. lia. }
  destruct (metadata_write e) as [|kept werr] eqn:Hwrite.
  2: { erewrite organize_file_write_error by done. cbn [snd stats].
       change (categories_total (incr_errors ?s)) with (categories_total s).
       rewrite categories_total_count.
       change (categories_total (incr_processed (incr_total_files (stats w))))
         with (categories_total (stats w)). cbn. lia. }
  destruct (write_chunks (Json.chunks (to_dict (final_info e file_path w))))
    as [data [|]] eqn:Hwr.
  - erewrite organize_file_success by done. cbn [snd stats].
    rewrite categories_total_count.
    change (categories_total (incr_processed (incr_total_files (stats w))))
      with (categories_total (stats w)). cbn. lia.
  - erewrite organize_file_encode_error by done. cbn [snd stats].
    change (categories_total (incr_errors ?s)) with (categories_total s).
    rewrite categories_total_count.
    change (categories_total (incr_processed (incr_total_files (stats w))))
      with (categories_total (stats w)). cbn. lia.
Qed.

(** X9. The counts per category add up to the number of processed files:
    a call, and so a run, adds the same amount to both; a run that starts
    with the statistics at zero ends with the two equal. *)
Theorem categories_add_up `{PyUnicode} (files : list (Env * SourcePath)) (w : World) :
  categories_total (stats (run_files files w).2) + processed (stats w)
  = categories_total (stats w) + processed (stats (run_files files w).2)
  ∧ (stats w = empty_stats →
     categories_total (stats (run_files files w).2)
     = processed (stats (run_files files w).2)).
Proof.
  assert (∀ w, categories_total (stats (run_files files w).2) + processed (stats w)
               = categories_total (stats w) + processed (stats (run_files files w).2))
    as Hrun.
  { clear w. induction files as [|[e file_path] files IH]; intros w; [done|].
    rewrite run_files_cons. pose proof (IH (organize_file e file_path w).2).
    pose proof (categories_step e file_path w). lia. }
  split; [apply Hrun|]. intros Hw. pose proof (Hrun w) as Hr. rewrite Hw in Hr.
  change (categories_total empty_stats) with 0 in Hr. cbn in Hr. lia.
Qed.

Lemma write_chunks_encode (chunks : list pystr) (data : pybytes) :
  write_chunks chunks = (data, true) → Utf8.encode (concat chunks) = Some data.
Proof.
  revert data; induction chunks as [|c chunks IH]; intros data;
    cbn [write_chunks concat].
  - by intros [= <-].
  - destruct (Utf8.encode c) as [b1|] eqn:Hc; [|done].
    destruct (write_chunks chunks) as [b2 ok]. intros [= <- ->].
    by rewrite encode_app, Hc, (IH b2).
Qed.

(** What was written in full loads back. *)
Lemma written_metadata_loads (info : FileInfo) (data : pybytes) :
  write_chunks (Json.chunks (to_dict info)) = (data, true) →
  Json.load data ≫= of_dict = Some info.
Proof.
  intros Hw. apply write_chunks_encode in Hw.
  assert (Json.load data = Some (to_dict info)) as ->.
  { unfold Json.load. rewrite (decode_encode _ _ Hw). cbn [mbind option_bind].
    apply loads_dumps. destruct info. apply (bool_decide_unpack _).
    vm_compute. exact I. }
  cbn [mbind option_bind]. apply of_to_dict.
Qed.

Lemma destination_subdir `{PyUnicode} (e : Env) (file_path : SourcePath) (w : World) :
  (destination e file_path w).1 ≠ u8 "_metadata".
Proof.
  unfold destination. cbn [fst]. intros Heq.
  pose proof (category_values (name file_path)) as Hin. rewrite Heq in Hin.
  rewrite !elem_of_cons, elem_of_nil in Hin.
  repeat destruct Hin as [Hin|Hin]; try discriminate. done.
Qed.

(** What a call that returns [True] has done. *)
Lemma organize_file_true_inv `{PyUnicode} (e : Env) (file_path : SourcePath)
    (w w' : World) :
  organize_file e file_path w = (Done true, w') →
  is_system_file (name file_path) = false
  ∧ failure_of e file_path w = None
  ∧ stats w' = count_category (category (analyze_filename (name file_path)))
                 (incr_processed (incr_total_files (stats w)))
  ∧ log w' = log w ++ [info_line e file_path w]
  ∧ tree w !! destination e file_path w = None
  ∧ tree w' !! destination e file_path w = Some (contents file_path)
  ∧ ∃ data, tree w' !! metadata_path e file_path w = Some data
            ∧ write_chunks (Json.chunks (to_dict (final_info e file_path w)))
              = (data, true).
Proof.
  intros Hrun. unfold failure_of.
  destruct (chosen_name_spec e file_path w) as (c & _ & _ & _ & Hfree & _).
  pose proof (destination_not_metadata e file_path w) as Hne.
  destruct (is_system_file (name file_path)) eqn:Hsys.
  { rewrite organize_file_skip in Hrun by done. discriminate. }
  destruct (mkdir_error e) as [err|] eqn:Hmk.
  { erewrite organize_file_mkdir_error in Hrun by done. discriminate. }
  destruct (copy e) as [|left_behind err] eqn:Hcp.
  2: { erewrite organize_file_copy_error in Hrun by done. discriminate. }
  destruct (metadata_error e) as [err|] eqn:Hmeta.
  { erewrite organize_file_metadata_error in Hrun by done. discriminate. }
  destruct (metadata_write e) as [|kept werr] eqn:Hwrite.
  2: { erewrite organize_file_write_error in Hrun by done. discriminate. }
  destruct (write_chunks (Json.chunks (to_dict (final_info e file_path w))))
    as [data [|]] eqn:Hwr.
  - erewrite organize_file_success in Hrun by done. injection Hrun as <-.
    cbn [stats log tree snd]. split_and!; try done.
    + by rewrite lookup_insert_ne, lookup_insert_eq.
    + exists data. by rewrite lookup_insert_eq.
  - erewrite organize_file_encode_error in Hrun by done. discriminate.
Qed.

(** X10. What [True] means: [organize_file] returns [True] exactly for a
    file that is not a system file and for which no step fails.  Then the
    copy stands, with the contents of the source, at a place of the category
    sub-directory that was free; one more file is counted as processed and
    none as skipped or as an error; the line logged last is the one that
    names the file and its new name; and the metadata file, read back, gives
    the record of the file with that new name in it. *)
Theorem organize_file_true `{PyUnicode} (e : Env) (file_path : SourcePath) (w : World) :
  ((organize_file e file_path w).1 = Done true
   ↔ is_system_file (name file_path) = false ∧ failure_of e file_path w = None)
  ∧ ((organize_file e file_path w).1 = Done true →
      tree w !! destination e file_path w = None
      ∧ tree (organize_file e file_path w).2 !! destination e file_path w
        = Some (contents file_path)
      ∧ processed (stats (organize_file e file_path w).2) = processed (stats w) + 1
      ∧ skipped (stats (organize_file e file_path w).2) = skipped (stats w)
      ∧ errors (stats (organize_file e file_path w).2) = errors (stats w)
      ∧ last (log (organize_file e file_path w).2)
        = Some (INFO, u8 "Обработан: " ++ name file_path ++ u8 " -> "
                      ++ (destination e file_path w).2)
      ∧ new_name (final_info e file_path w) = Some (destination e file_path w).2
      ∧ ∃ data,
          tree (organize_file e file_path w).2 !! metadata_path e file_path w
          = Some data
          ∧ Json.load data ≫= of_dict = Some (final_info e file_path w)).
Proof.
  destruct (organize_file e file_path w) as [r w'] eqn:Hrun. cbn [fst snd].
  split.
  - split.
    + intros ->. apply organize_file_true_inv in Hrun. by destruct Hrun as (? & ? & _).
    + intros [Hsys Hfail]. unfold failure_of in Hfail.
      destruct (mkdir_error e) eqn:Hmk; [done|].
      destruct (copy e) eqn:Hcp; [|done].
      destruct (metadata_error e) eqn:Hmeta; [done|].
      destruct (metadata_write e) eqn:Hwrite; [|done].
      destruct (write_chunks (Json.chunks (to_dict (final_info e file_path w))))
        as [data [|]] eqn:Hwr; [|done].
      erewrite organize_file_success in Hrun by done. by injection Hrun as <- _.
  - intros ->.
    apply organize_file_true_inv in Hrun
      as (_ & _ & Hst & Hlog & Hfree & Hcopy & data & Hmeta & Hwr).
    rewrite Hst, Hlog. split_and!; try done.
    + by rewrite last_snoc.
    + exists data. split; [done|]. by apply written_metadata_loads.
Qed.

(** [notes.txt] in an empty tree, nothing failing. *)
Example organize_file_true_sample :
  (@organize_file basic_unicode quiet_env notes_txt empty_world).1 = Done true
  ∧ @destination basic_unicode quiet_env notes_txt empty_world
    = (u8 "other", u8 "unknown_other_2026-11-04_documents_01.txt")
  ∧ @metadata_path basic_unicode quiet_env notes_txt empty_world
    = (u8 "_metadata", u8 "unknown_other_2026-11-04_documents_01.json").
Proof. vm_compute. by split_and!. Qed.

(** X11. The organizer does not recognise a file it has already organized:
    when the same file is processed twice with success, the second call
    makes a second copy under another name, beside the first, and both
    count as processed. *)
Theorem second_run_copies_again `{PyUnicode} (e1 e2 : Env) (file_path : SourcePath)
    (w : World) :
  (organize_file e1 file_path w).1 = Done true →
  (organize_file e2 file_path (organize_file e1 file_path w).2).1 = Done true →
  destination e2 file_path (organize_file e1 file_path w).2
  ≠ destination e1 file_path w
  ∧ tree (organize_file e2 file_path (organize_file e1 file_path w).2).2
      !! destination e1 file_path w
    = Some (contents file_path)
  ∧ tree (organize_file e2 file_path (organize_file e1 file_path w).2).2
      !! destination e2 file_path (organize_file e1 file_path w).2
    = Some (contents file_path)
  ∧ processed (stats (organize_file e2 file_path (organize_file e1 file_path w).2).2)
    = processed (stats w) + 2.
Proof.
  destruct (organize_file e1 file_path w) as [r1 w1] eqn:Hrun1. cbn [fst snd].
  intros ->.
  pose proof (organize_file_keeps e2 file_path w1 (destination e1 file_path w)
                (contents file_path) (destination_subdir e1 file_path w)) as Hkeep.
  destruct (organize_file e2 file_path w1) as [r2 w2] eqn:Hrun2. cbn [fst snd] in *.
  intros ->.
  apply organize_file_true_inv in Hrun1 as (_ & _ & Hst1 & _ & _ & Hcopy1 & _).
  apply organize_file_true_inv in Hrun2 as (_ & _ & Hst2 & _ & Hfree2 & Hcopy2 & _).
  split_and!; [|by apply Hkeep|done|].
  - intros Heq. rewrite Heq in Hfree2. congruence.
  - rewrite Hst2, Hst1. cbn. lia.
Qed.

Lemma second_run_copies_again_witness :
  @destination basic_unicode quiet_env notes_txt
    (@organize_file basic_unicode quiet_env notes_txt empty_world).2
  ≠ @destination basic_unicode quiet_env notes_txt empty_world
  ∧ tree (@organize_file basic_unicode quiet_env notes_txt
            (@organize_file basic_unicode quiet_env notes_txt empty_world).2).2
      !! @destination basic_unicode quiet_env notes_txt empty_world
    = Some (contents notes_txt)
  ∧ tree (@organize_file basic_unicode quiet_env notes_txt
            (@organize_file basic_unicode quiet_env notes_txt empty_world).2).2
      !! @destination basic_unicode quiet_env notes_txt
           (@organize_file basic_unicode quiet_env notes_txt empty_world).2
    = Some (contents notes_txt)
  ∧ processed (stats (@organize_file basic_unicode quiet_env notes_txt
                        (@organize_file basic_unicode quiet_env notes_txt
                           empty_world).2).2)
    = processed (stats empty_world) + 2.
Proof.
  apply (@second_run_copies_again basic_unicode quiet_env quiet_env notes_txt
           empty_world); vm_compute; reflexivity.
Defined.

(** The two copies of [notes.txt]. *)
Example second_run_sample :
  let t := tree (@run_files basic_unicode
                   [(quiet_env, notes_txt); (quiet_env, notes_txt)] empty_world).2 in
  t !! (u8 "other", u8 "unknown_other_2026-11-04_documents_01.txt")
  = Some [1; 2; 3; 4]%N
  ∧ t !! (u8 "other", u8 "unknown_other_2026-11-04_documents_02.txt")
    = Some [1; 2; 3; 4]%N.
Proof. vm_compute. by split_and!. Qed.

(** * Names without dots and slashes *)

Lemma plain_app (a b : pystr) : plain (a ++ b) = plain a && plain b.
Proof. apply forallb_app. Qed.

Lemma plain_spec (s : pystr) : plain s = true ↔ (46%N ∉ s) ∧ (47%N ∉ s).
Proof.
  induction s as [|c s IH]; cbn [plain forallb].
  - split; [intros _; split; apply not_elem_of_nil|done].
  - fold (plain s). rewrite andb_true_iff, IH, !not_elem_of_cons.
    destruct (N.eqb_spec c 46), (N.eqb_spec c 47); cbn; intuition congruence.
Qed.

Lemma digits_plain (dig : N → bool) (g : pystr) :
  dig 46%N = false → dig 47%N = false → forallb dig g = true → plain g = true.
Proof.
  intros H46 H47. induction g as [|c g IH]; [done|]. cbn [forallb plain].
  fold (plain g). intros [Hc Hg]%andb_true_iff. rewrite (IH Hg), andb_true_r.
  destruct (N.eqb_spec c 46) as [->|]; [congruence|].
  destruct (N.eqb_spec c 47) as [->|]; [congruence|]. done.
Qed.

Lemma d02_plain (n : Z) : plain (Fmt.d02 n) = true.
Proof.
  pose proof (digits_plain Str.ascii_digit (Fmt.dec (Z.to_N n)) eq_refl eq_refl
                (dec_ascii _)) as H1.
  pose proof (digits_plain Str.ascii_digit (Fmt.dec (Z.to_N (- n))) eq_refl eq_refl
                (dec_ascii _)) as H2.
  unfold Fmt.d02. destruct (n <? 0)%Z; [|destruct (n <? 10)%Z]; cbn [plain forallb];
    done.
Qed.

Lemma split_absent (c : N) (s : pystr) : c ∉ s → Str.split c s = [s].
Proof.
  induction s as [|x s IH]; [done|]. intros [Hne Hc]%not_elem_of_cons.
  cbn [Str.split]. destruct (N.eqb_spec x c); [congruence|]. by rewrite IH.
Qed.

Lemma split_free (c : N) (s part : pystr) : part ∈ Str.split c s → c ∉ part.
Proof.
  revert part. induction s as [|x s IH]; intros part; cbn [Str.split].
  - intros ->%list_elem_of_singleton. apply not_elem_of_nil.
  - destruct (N.eqb_spec x c) as [->|Hne].
    + intros [->|Hin]%elem_of_cons; [apply not_elem_of_nil | by apply IH].
    + destruct (Str.split c s) as [|w ws] eqn:Hs.
      * intros ->%list_elem_of_singleton. apply not_elem_of_cons.
        split; [done|apply not_elem_of_nil].
      * intros [->|Hin]%elem_of_cons.
        -- apply not_elem_of_cons. split; [done|]. apply IH. left.
        -- apply IH. by right.
Qed.

Lemma last_default_or_in {A} (l : list A) (d : A) :
  List.last l d = d ∨ List.last l d ∈ l.
Proof.
  induction l as [|x [|y l] IH]; [by left|right; left|].
  destruct IH as [IH|IH]; [left|right]; [exact IH|by right].
Qed.

(** A name has no slash in it. *)
Lemma name_no_slash (p : pystr) : 47%N ∉ Path.name p.
Proof.
  unfold Path.name.
  destruct (last_default_or_in
              (List.filter (λ x, negb (bool_decide (x = []))
                                 && negb (bool_decide (x = u8 ".")))
                 (Str.split 47 p)) []) as [-> | Hin].
  - apply not_elem_of_nil.
  - apply list_elem_of_In, filter_In in Hin as [Hin _].
    by apply (split_free 47 p), list_elem_of_In.
Qed.

Lemma suffix_no_slash (p : pystr) : 47%N ∉ Path.suffix p.
Proof.
  unfold Path.suffix. cbv zeta.
  destruct (_ && _); [|apply not_elem_of_nil].
  intros Hin. apply (name_no_slash p).
  by apply (subseteq_drop (Z.to_nat (Str.rfind 46 (Path.name p)))).
Qed.

(** A string without a slash, other than [""] and ["."], is its own
    name. *)
Lemma name_plain (s : pystr) :
  47%N ∉ s → s ≠ [] → s ≠ u8 "." → Path.name s = s.
Proof.
  intros Hs He Hd. unfold Path.name. rewrite (split_absent _ _ Hs).
  cbn [List.filter]. by rewrite !bool_decide_eq_false_2.
Qed.

(** * The new name, taken apart *)

Lemma generate_new_name_front (today : pystr) (file_info : FileInfo) (counter : Z) :
  generate_new_name today file_info counter
  = front today file_info counter ++ Path.suffix (original_name file_info).
Proof. reflexivity. Qed.

Section NameParts.
Context `{PyUnicode}.

Lemma subject_part_plain (filename : pystr) :
  plain (match subject (analyze_filename filename) with
         | Some ((_ :: _) as s) => s
         | _ => u8 "unknown"
         end) = true.
Proof.
  pose proof (subject_values filename) as Hs.
  rewrite !elem_of_cons, elem_of_nil in Hs.
  repeat destruct Hs as [Hs|Hs]; try done; rewrite Hs; vm_compute; reflexivity.
Qed.

Lemma subject_part_nonempty (filename : pystr) :
  match subject (analyze_filename filename) with
  | Some ((_ :: _) as s) => s
  | _ => u8 "unknown"
  end ≠ [].
Proof. destruct (subject (analyze_filename filename)) as [[|c s]|]; done. Qed.

Lemma category_plain (filename : pystr) :
  plain (category (analyze_filename filename)) = true.
Proof.
  pose proof (category_values filename) as Hs.
  rewrite !elem_of_cons, elem_of_nil in Hs.
  repeat destruct Hs as [Hs|Hs]; try done; rewrite Hs; vm_compute; reflexivity.
Qed.

Lemma file_type_plain (filename : pystr) :
  plain (file_type (analyze_filename filename)) = true.
Proof.
  pose proof (file_type_values filename) as Hs.
  rewrite !elem_of_cons, elem_of_nil in Hs.
  repeat destruct Hs as [Hs|Hs]; try done; rewrite Hs; vm_compute; reflexivity.
Qed.

Lemma date_part_plain (today filename : pystr) :
  plain today = true →
  plain (match date (analyze_filename filename) with
         | Some ((_ :: _) as d) => d
         | _ => today
         end) = true.
Proof.
  intros Ht. destruct (date (analyze_filename filename)) as [[|c d]|] eqn:Hd; try done.
  apply date_groups in Hd
    as (y & m & dd & -> & _ & _ & _ & _ & Hy & Hm & Hdd & _).
  assert (re_digit 46 = false) as H46 by (by rewrite re_digit_ascii).
  assert (re_digit 47 = false) as H47 by (by rewrite re_digit_ascii).
  rewrite !plain_app, (digits_plain re_digit y), (digits_plain re_digit m),
    (digits_plain re_digit dd) by done.
  reflexivity.
Qed.

Lemma front_plain (today filename : pystr) (counter : Z) :
  plain today = true → plain (front today (analyze_filename filename) counter) = true.
Proof.
  intros Ht. unfold front. cbn [Str.join]. rewrite !plain_app.
  rewrite subject_part_plain, category_plain, (date_part_plain _ _ Ht),
    file_type_plain, d02_plain.
  reflexivity.
Qed.

Lemma front_nonempty (today filename : pystr) (counter : Z) :
  front today (analyze_filename filename) counter ≠ [].
Proof.
  unfold front. cbn [Str.join]. intros [Hs _]%app_eq_nil.
  by apply (subject_part_nonempty filename).
Qed.

(** The new name is one path component; its suffix is the one of the
    original name and its stem is all that comes before. *)
Lemma new_name_parts (today filename : pystr) (counter : Z) :
  plain today = true →
  Path.name (generate_new_name today (analyze_filename filename) counter)
  = generate_new_name today (analyze_filename filename) counter
  ∧ Path.suffix (generate_new_name today (analyze_filename filename) counter)
    = Path.suffix filename
  ∧ Path.stem (generate_new_name today (analyze_filename filename) counter)
    = front today (analyze_filename filename) counter.
Proof.
  intros Ht. rewrite generate_new_name_front.
  change (original_name (analyze_filename filename)) with filename.
  pose proof (front_plain today filename counter Ht) as Hp.
  pose proof (front_nonempty today filename counter) as Hne.
  apply plain_spec in Hp as [H46 H47].
  set (fr := front today (analyze_filename filename) counter) in *.
  assert (Path.name (fr ++ Path.suffix filename) = fr ++ Path.suffix filename) as Hn.
  { apply name_plain.
    - rewrite not_elem_of_app. split; [done|apply suffix_no_slash].
    - intros [? _]%app_eq_nil. done.
    - destruct fr as [|c fr']; [done|]. intros [= -> _]. apply H46. left. }
  split; [done|].
  destruct (suffix_spec filename) as [He | (st & e & _ & He & _ & Hne' & Hdot)].
  - rewrite He, app_nil_r in *. rewrite <- Hn at 3.
    apply suffix_empty. left. by rewrite Hn.
  - rewrite He in *. by apply suffix_of_name.
Qed.

End NameParts.

(** X12. The new name keeps the extension of the original: when the date
    of the day has neither a dot nor a slash in it (as [%Y-%m-%d] gives it),
    the new name is a single path component, its suffix is the suffix of the
    original name, its stem is the rest, without any dot, and, analysed in
    its turn, it has the file type of the original. *)
Theorem new_name_keeps_extension `{PyUnicode} (today filename : pystr) (counter : Z) :
  plain today = true →
  Path.name (generate_new_name today (analyze_filename filename) counter)
  = generate_new_name today (analyze_filename filename) counter
  ∧ Path.suffix (generate_new_name today (analyze_filename filename) counter)
    = Path.suffix filename
  ∧ Path.stem (generate_new_name today (analyze_filename filename) counter)
    ++ Path.suffix filename
    = generate_new_name today (analyze_filename filename) counter
  ∧ plain (Path.stem (generate_new_name today (analyze_filename filename) counter))
    = true
  ∧ file_type (analyze_filename
                 (generate_new_name today (analyze_filename filename) counter))
    = file_type (analyze_filename filename).
Proof.
  intros Ht. destruct (new_name_parts today filename counter Ht) as (Hn & Hs & Hst).
  split_and!; try done.
  - by rewrite Hst, generate_new_name_front.
  - rewrite Hst. by apply front_plain.
  - by rewrite !file_type_analyze, Hs.
Qed.

Lemma new_name_keeps_extension_witness :
  Path.name (generate_new_name (u8 "2026-11-04")
               (@analyze_filename basic_unicode (u8 "Final.Report.PDF")) 7)
  = generate_new_name (u8 "2026-11-04")
      (@analyze_filename basic_unicode (u8 "Final.Report.PDF")) 7
  ∧ Path.suffix (generate_new_name (u8 "2026-11-04")
                   (@analyze_filename basic_unicode (u8 "Final.Report.PDF")) 7)
    = Path.suffix (u8 "Final.Report.PDF")
  ∧ Path.stem (generate_new_name (u8 "2026-11-04")
                 (@analyze_filename basic_unicode (u8 "Final.Report.PDF")) 7)
    ++ Path.suffix (u8 "Final.Report.PDF")
    = generate_new_name (u8 "2026-11-04")
        (@analyze_filename basic_unicode (u8 "Final.Report.PDF")) 7
  ∧ plain (Path.stem (generate_new_name (u8 "2026-11-04")
                        (@analyze_filename basic_unicode (u8 "Final.Report.PDF")) 7))
    = true
  ∧ file_type (@analyze_filename basic_unicode
                 (generate_new_name (u8 "2026-11-04")
                    (@analyze_filename basic_unicode (u8 "Final.Report.PDF")) 7))
    = file_type (@analyze_filename basic_unicode (u8 "Final.Report.PDF")).
Proof.
  apply (@new_name_keeps_extension basic_unicode (u8 "2026-11-04")
           (u8 "Final.Report.PDF") 7).
  vm_compute. reflexivity.
Defined.

(** The name of [Final.Report.PDF], seventh of its kind. *)
Example new_name_sample :
  generate_new_name (u8 "2026-11-04")
    (@analyze_filename basic_unicode (u8 "Final.Report.PDF")) 7
  = u8 "unknown_other_2026-11-04_documents_07.PDF".
Proof. vm_compute. reflexivity. Qed.

(** Without the hypothesis the extension can change: a date of the day
    written with dots gives a file without extension a suffix. *)
Example dotted_today_sample :
  Path.suffix (generate_new_name (u8 "04.11.2026")
                 (@analyze_filename basic_unicode (u8 "Makefile")) 1)
  = u8 ".2026_other_01"
  ∧ Path.suffix (u8 "Makefile") = [].
Proof. vm_compute. by split. Qed.

(** * Metadata files that coincide *)

Lemma chosen_name_first `{PyUnicode} (e : Env) (file_path : SourcePath) (w : World) :
  tree w !! (category (analyze_filename (name file_path)),
             generate_new_name (today e) (analyze_filename (name file_path)) 1) = None →
  chosen_name e file_path w
  = generate_new_name (today e) (analyze_filename (name file_path)) 1.
Proof.
  intros Hfree. unfold chosen_name. cbn [unique_name].
  rewrite bool_decide_eq_false_2; [done|]. rewrite Hfree. by intros [? ?].
Qed.

(** X13. Two files can share one metadata file.  The metadata file is
    named after the stem of the new name, and the new name tells two files
    apart by the extension alone when they have the same subject, category,
    date and file type (as [photo.jpg] and [photo.png] have).  When two such
    files are organized one after the other into a category directory that
    was empty, both copies are made, under names that differ in the
    extension only, but there is one metadata file for the two and what it
    holds in the end is the record of the second file. *)
Theorem metadata_shared `{PyUnicode} (e1 e2 : Env) (f1 f2 : SourcePath) (w : World) :
  plain (today e1) = true → today e2 = today e1 →
  subject (analyze_filename (name f1)) = subject (analyze_filename (name f2)) →
  category (analyze_filename (name f1)) = category (analyze_filename (name f2)) →
  date (analyze_filename (name f1)) = date (analyze_filename (name f2)) →
  file_type (analyze_filename (name f1)) = file_type (analyze_filename (name f2)) →
  Path.suffix (name f1) ≠ Path.suffix (name f2) →
  (∀ n, tree w !! (category (analyze_filename (name f1)), n) = None) →
  (organize_file e1 f1 w).1 = Done true →
  (organize_file e2 f2 (organize_file e1 f1 w).2).1 = Done true →
  destination e2 f2 (organize_file e1 f1 w).2 ≠ destination e1 f1 w
  ∧ tree (organize_file e2 f2 (organize_file e1 f1 w).2).2 !! destination e1 f1 w
    = Some (contents f1)
  ∧ tree (organize_file e2 f2 (organize_file e1 f1 w).2).2
      !! destination e2 f2 (organize_file e1 f1 w).2
    = Some (contents f2)
  ∧ metadata_path e2 f2 (organize_file e1 f1 w).2 = metadata_path e1 f1 w
  ∧ ∃ data,
      tree (organize_file e2 f2 (organize_file e1 f1 w).2).2 !! metadata_path e1 f1 w
      = Some data
      ∧ Json.load data ≫= of_dict
        = Some (final_info e2 f2 (organize_file e1 f1 w).2)
      ∧ original_name (final_info e2 f2 (organize_file e1 f1 w).2) = name f2.
Proof.
  intros Hplain Htoday Hs Hc Hd Hft Hext Hempty.
  pose proof (chosen_name_first e1 f1 w (Hempty _)) as Hch1.
  assert (front (today e1) (analyze_filename (name f1)) 1
          = front (today e1) (analyze_filename (name f2)) 1) as Hfront.
  { unfold front. by rewrite Hs, Hc, Hd, Hft. }
  assert (generate_new_name (today e1) (analyze_filename (name f2)) 1
          ≠ generate_new_name (today e1) (analyze_filename (name f1)) 1) as Hdiff.
  { rewrite !generate_new_name_front, Hfront. intros Heq%app_inv_head.
    by apply Hext. }
  pose proof (organize_file_frame e1 f1 w
                (category (analyze_filename (name f2)),
                 generate_new_name (today e2) (analyze_filename (name f2)) 1)) as Hfr.
  pose proof (organize_file_keeps e2 f2 (organize_file e1 f1 w).2 (destination e1 f1 w)
                (contents f1) (destination_subdir e1 f1 w)) as Hkeep.
  destruct (organize_file e1 f1 w) as [r1 w1] eqn:Hrun1. cbn [fst snd] in *.
  intros ->.
  assert (tree w1 !! (category (analyze_filename (name f2)),
                      generate_new_name (today e2) (analyze_filename (name f2)) 1)
          = None) as Hfree2.
  { rewrite Hfr.
    - rewrite <- Hc. apply Hempty.
    - unfold destination. rewrite Hch1, Htoday. intros Heq.
      apply (f_equal snd) in Heq. cbn [snd] in Heq. by apply Hdiff.
    - intros Heq. apply (f_equal fst) in Heq. cbn [fst] in Heq.
      by apply (destination_subdir e2 f2 w). }
  pose proof (chosen_name_first e2 f2 w1 Hfree2) as Hch2.
  assert (metadata_path e2 f2 w1 = metadata_path e1 f1 w) as Hmeta.
  { unfold metadata_path. rewrite Hch1, Hch2, Htoday.
    destruct (new_name_parts (today e1) (name f1) 1 Hplain) as (_ & _ & ->).
    destruct (new_name_parts (today e1) (name f2) 1 Hplain) as (_ & _ & ->).
    by rewrite Hfront. }
  destruct (organize_file e2 f2 w1) as [r2 w2] eqn:Hrun2. cbn [fst snd] in *.
  intros ->.
  apply organize_file_true_inv in Hrun1 as (_ & _ & _ & _ & _ & Hcopy1 & _).
  apply organize_file_true_inv in Hrun2
    as (_ & _ & _ & _ & _ & Hcopy2 & data & Hdata & Hwr).
  split_and!; [|by apply Hkeep|done|done|].
  - unfold destination. rewrite Hch1, Hch2, Htoday. intros Heq.
    apply (f_equal snd) in Heq. cbn [snd] in Heq. by apply Hdiff.
  - exists data. rewrite <- Hmeta. split_and!; [done| |done].
    by apply written_metadata_loads.
Qed.

Lemma metadata_shared_witness :
  @destination basic_unicode quiet_env photo_png
    (@organize_file basic_unicode quiet_env photo_jpg empty_world).2
  ≠ @destination basic_unicode quiet_env photo_jpg empty_world
  ∧ tree (@organize_file basic_unicode quiet_env photo_png
            (@organize_file basic_unicode quiet_env photo_jpg empty_world).2).2
      !! @destination basic_unicode quiet_env photo_jpg empty_world
    = Some (contents photo_jpg)
  ∧ tree (@organize_file basic_unicode quiet_env photo_png
            (@organize_file basic_unicode quiet_env photo_jpg empty_world).2).2
      !! @destination basic_unicode quiet_env photo_png
           (@organize_file basic_unicode quiet_env photo_jpg empty_world).2
    = Some (contents photo_png)
  ∧ @metadata_path basic_unicode quiet_env photo_png
      (@organize_file basic_unicode quiet_env photo_jpg empty_world).2
    = @metadata_path basic_unicode quiet_env photo_jpg empty_world
  ∧ ∃ data,
      tree (@organize_file basic_unicode quiet_env photo_png
              (@organize_file basic_unicode quiet_env photo_jpg empty_world).2).2
        !! @metadata_path basic_unicode quiet_env photo_jpg empty_world
      = Some data
      ∧ Json.load data ≫= of_dict
        = Some (@final_info basic_unicode quiet_env photo_png
                  (@organize_file basic_unicode quiet_env photo_jpg empty_world).2)
      ∧ original_name (@final_info basic_unicode quiet_env photo_png
                         (@organize_file basic_unicode quiet_env photo_jpg
                            empty_world).2)
        = name photo_png.
Proof.
  apply (@metadata_shared basic_unicode quiet_env quiet_env photo_jpg photo_png
           empty_world);
    first [ vm_compute; reflexivity | vm_compute; discriminate
          | intros n; apply lookup_empty ].
Defined.

(** The two photographs and their one metadata file. *)
Example metadata_shared_sample :
  let w := (@run_files basic_unicode [(quiet_env, photo_jpg); (quiet_env, photo_png)]
              empty_world).2 in
  tree w !! (u8 "other", u8 "unknown_other_2026-11-04_images_01.jpg") = Some [1; 1; 1]%N
  ∧ tree w !! (u8 "other", u8 "unknown_other_2026-11-04_images_01.png") = Some [2; 2]%N
  ∧ match tree w !! (u8 "_metadata", u8 "unknown_other_2026-11-04_images_01.json") with
    | Some data => original_name <$> (Json.load data ≫= of_dict)
    | None => None
    end = Some (u8 "photo.png")
  ∧ size (tree w) = 3.
Proof. vm_compute. by split_and!. Qed.

(** * Names that are text *)

Lemma is_text_spec (s : pystr) : is_text s = true ↔ ∀ c, c ∈ s → scalar c = true.
Proof.
  unfold is_text. rewrite forallb_forall.
  split; intros Hs c Hc; apply Hs; by apply list_elem_of_In.
Qed.

Lemma is_text_subseteq (a b : pystr) : a ⊆ b → is_text b = true → is_text a = true.
Proof. rewrite !is_text_spec. intros Hab Hb c Hc. by apply Hb, Hab. Qed.

Lemma ascii_is_text (s : pystr) : is_ascii s = true → is_text s = true.
Proof.
  unfold is_ascii, is_text. rewrite !forallb_forall. intros Hs c Hc.
  specialize (Hs c Hc). cbv beta in Hs. apply N.ltb_lt in Hs.
  unfold scalar, Utf8.is_surrogate.
  destruct (N.ltb_spec c 0x110000); [|lia]. destruct (N.leb_spec 0xD800 c); [lia|done].
Qed.

Lemma digits_is_ascii (s : pystr) : forallb Str.ascii_digit s = true → is_ascii s = true.
Proof.
  unfold is_ascii. rewrite !forallb_forall. intros Hs c Hc. specialize (Hs c Hc).
  unfold Str.ascii_digit in Hs. apply andb_true_iff in Hs as [_ Hs%N.leb_le].
  apply N.ltb_lt. lia.
Qed.

Lemma d02_is_text (n : Z) : is_text (Fmt.d02 n) = true.
Proof.
  pose proof (ascii_is_text _ (digits_is_ascii _ (dec_ascii (Z.to_N n)))) as H1.
  pose proof (ascii_is_text _ (digits_is_ascii _ (dec_ascii (Z.to_N (- n))))) as H2.
  unfold Fmt.d02. destruct (n <? 0)%Z; [|destruct (n <? 10)%Z]; cbn [is_text forallb];
    done.
Qed.

Lemma split_subseteq (c : N) (s part : pystr) : part ∈ Str.split c s → part ⊆ s.
Proof.
  revert part. induction s as [|x s IH]; intros part; cbn [Str.split].
  - by intros ->%list_elem_of_singleton.
  - destruct (N.eqb_spec x c) as [->|Hne].
    + intros [->|Hin]%elem_of_cons; [apply list_subseteq_nil|].
      by apply list_subseteq_cons, IH.
    + destruct (Str.split c s) as [|w ws] eqn:Hs.
      * intros ->%list_elem_of_singleton. intros y [->|Hy]%elem_of_cons; [left|].
        by apply elem_of_nil in Hy.
      * intros [->|Hin]%elem_of_cons.
        -- intros y [->|Hy]%elem_of_cons; [left|right]. apply (IH w); [left|done].
        -- apply list_subseteq_cons, IH. by right.
Qed.

Lemma name_subseteq (p : pystr) : Path.name p ⊆ p.
Proof.
  unfold Path.name.
  destruct (last_default_or_in
              (List.filter (λ x, negb (bool_decide (x = []))
                                 && negb (bool_decide (x = u8 ".")))
                 (Str.split 47 p)) []) as [-> | Hin].
  - apply list_subseteq_nil.
  - apply list_elem_of_In, filter_In in Hin as [Hin _].
    by apply (split_subseteq 47 p), list_elem_of_In.
Qed.

Lemma suffix_subseteq (p : pystr) : Path.suffix p ⊆ p.
Proof.
  unfold Path.suffix. cbv zeta.
  destruct (_ && _); [|apply list_subseteq_nil].
  etrans; [apply subseteq_drop|apply name_subseteq].
Qed.

Lemma occurs_subseteq (k s : pystr) : occurs k s → k ⊆ s.
Proof.
  intros (a & b & ->) c Hc. rewrite !elem_of_app. right. by left.
Qed.

Lemma to_dict_is_text (info : FileInfo) :
  info_is_text info = true → dict_is_text (to_dict info) = true.
Proof.
  unfold info_is_text. intros Htext.
  repeat (apply andb_true_iff in Htext as [Htext ?]).
  unfold dict_is_text, to_dict. cbn [forallb fst snd opt_is_text].
  repeat (apply andb_true_iff; split); done.
Qed.

Section TextNames.
Context `{PyUnicode}.

Lemma subject_is_text (filename : pystr) :
  opt_is_text (subject (analyze_filename filename)) = true
  ∧ is_text (match subject (analyze_filename filename) with
             | Some ((_ :: _) as s) => s
             | _ => u8 "unknown"
             end) = true.
Proof.
  pose proof (subject_values filename) as Hs.
  rewrite !elem_of_cons, elem_of_nil in Hs.
  repeat destruct Hs as [Hs|Hs]; try done; rewrite Hs; vm_compute; by split.
Qed.

Lemma category_is_text (filename : pystr) :
  is_text (category (analyze_filename filename)) = true.
Proof.
  pose proof (category_values filename) as Hs.
  rewrite !elem_of_cons, elem_of_nil in Hs.
  repeat destruct Hs as [Hs|Hs]; try done; rewrite Hs; vm_compute; reflexivity.
Qed.

Lemma file_type_is_text (filename : pystr) :
  is_text (file_type (analyze_filename filename)) = true.
Proof.
  pose proof (file_type_values filename) as Hs.
  rewrite !elem_of_cons, elem_of_nil in Hs.
  repeat destruct Hs as [Hs|Hs]; try done; rewrite Hs; vm_compute; reflexivity.
Qed.

Lemma date_is_text (filename : pystr) :
  is_text filename = true → opt_is_text (date (analyze_filename filename)) = true.
Proof.
  intros Hf. destruct (date (analyze_filename filename)) as [d|] eqn:Hd; [|done].
  apply date_groups in Hd
    as (y & m & dd & -> & _ & _ & _ & _ & _ & _ & _ & Hy & Hm & Hdd).
  cbn [opt_is_text]. rewrite !is_text_app.
  rewrite (is_text_subseteq y filename), (is_text_subseteq m filename),
    (is_text_subseteq dd filename) by (by first [apply occurs_subseteq | idtac]).
  reflexivity.
Qed.

Lemma front_is_text (today filename : pystr) (counter : Z) :
  is_text today = true → is_text filename = true →
  is_text (front today (analyze_filename filename) counter) = true.
Proof.
  intros Ht Hf. unfold front. cbn [Str.join]. rewrite !is_text_app.
  rewrite (proj2 (subject_is_text filename)), category_is_text, file_type_is_text,
    d02_is_text.
  pose proof (date_is_text filename Hf) as Hd.
  destruct (date (analyze_filename filename)) as [[|c d]|]; cbn [opt_is_text] in Hd;
    by rewrite ?Hd, ?Ht.
Qed.

Lemma final_info_is_text (e : Env) (file_path : SourcePath) (w : World) :
  is_text (today e) = true → is_text (name file_path) = true →
  info_is_text (final_info e file_path w) = true.
Proof.
  intros Ht Hf. destruct (chosen_name_spec e file_path w) as (c & _ & _ & Hch & _).
  unfold info_is_text, final_info, set_new_name.
  cbn [original_name subject category date file_type new_name opt_is_text].
  change (original_name (analyze_filename (name file_path))) with (name file_path).
  rewrite Hf, (proj1 (subject_is_text _)), category_is_text, (date_is_text _ Hf),
    file_type_is_text.
  rewrite Hch, generate_new_name_front, is_text_app, (front_is_text _ _ _ Ht Hf).
  change (original_name (analyze_filename (name file_path))) with (name file_path).
  by rewrite (is_text_subseteq _ _ (suffix_subseteq (name file_path)) Hf).
Qed.

Lemma text_written (e : Env) (file_path : SourcePath) (w : World) :
  is_text (today e) = true → is_text (name file_path) = true →
  (write_chunks (Json.chunks (to_dict (final_info e file_path w)))).2 = true.
Proof.
  intros Ht Hf.
  destruct (write_chunks_text _
              (chunks_text _ (to_dict_is_text _ (final_info_is_text e file_path w Ht Hf))))
    as (data & -> & _).
  reflexivity.
Qed.

End TextNames.

(** X14. A file whose name is text (no lone surrogate, that is, no byte the
    file system encoding could not decode) can only fail for a reason
    outside it: whatever the script of the name, the encoder never refuses
    its metadata, so that the call returns [True] exactly when the directory
    can be made, the copy completes, the metadata file can be opened and
    every write to it completes; the file is then counted once, as
    processed. *)
Theorem text_names_succeed `{PyUnicode} (e : Env) (file_path : SourcePath) (w : World) :
  is_text (name file_path) = true → is_text (today e) = true →
  is_system_file (name file_path) = false →
  ((organize_file e file_path w).1 = Done true
   ↔ mkdir_error e = None ∧ copy e = CopyCompletes ∧ metadata_error e = None
     ∧ metadata_write e = WriteCompletes)
  ∧ (mkdir_error e = None → copy e = CopyCompletes → metadata_error e = None →
     metadata_write e = WriteCompletes →
     processed (stats (organize_file e file_path w).2) = processed (stats w) + 1
     ∧ errors (stats (organize_file e file_path w).2) = errors (stats w)
     ∧ excess (stats (organize_file e file_path w).2) = excess (stats w)).
Proof.
  intros Hf Ht Hsys.
  pose proof (text_written e file_path w Ht Hf) as Hwr.
  destruct (write_chunks (Json.chunks (to_dict (final_info e file_path w))))
    as [data ok] eqn:Hdata.
  cbn [snd] in Hwr. subst ok.
  destruct (mkdir_error e) as [err|] eqn:Hmk.
  { erewrite organize_file_mkdir_error by done. cbn [fst].
    split; [split; [done|by intros (? & _)]|done]. }
  destruct (copy e) as [|left_behind err] eqn:Hcp.
  2: { erewrite organize_file_copy_error by done. cbn [fst].
       split; [split; [done|by intros (_ & ? & _)]|done]. }
  destruct (metadata_error e) as [err|] eqn:Hmeta.
  { erewrite organize_file_metadata_error by done. cbn [fst].
    split; [split; [done|by intros (_ & _ & ? & _)]|done]. }
  destruct (metadata_write e) as [|kept err] eqn:Hwrite.
  2: { erewrite organize_file_write_error by done. cbn [fst].
       split; [split; [done|by intros (_ & _ & _ & ?)]|done]. }
  erewrite organize_file_success by done. cbn [fst snd stats].
  split; [done|]. intros _ _ _ _. split_and!; try done. unfold excess. cbn. lia.
Qed.

Lemma text_names_succeed_witness :
  ((@organize_file basic_unicode quiet_env lecture_ru empty_world).1 = Done true
   ↔ mkdir_error quiet_env = None ∧ copy quiet_env = CopyCompletes
     ∧ metadata_error quiet_env = None ∧ metadata_write quiet_env = WriteCompletes)
  ∧ (mkdir_error quiet_env = None → copy quiet_env = CopyCompletes →
     metadata_error quiet_env = None → metadata_write quiet_env = WriteCompletes →
     processed (stats (@organize_file basic_unicode quiet_env lecture_ru empty_world).2)
     = processed (stats empty_world) + 1
     ∧ errors (stats (@organize_file basic_unicode quiet_env lecture_ru empty_world).2)
       = errors (stats empty_world)
     ∧ excess (stats (@organize_file basic_unicode quiet_env lecture_ru empty_world).2)
       = excess (stats empty_world)).
Proof.
  apply (@text_names_succeed basic_unicode quiet_env lecture_ru empty_world);
    vm_compute; reflexivity.
Defined.

(** The Russian lecture is organized where nothing fails, and is not
    where the disk is full once the copy is made. *)
Example lecture_ru_outcomes :
  (@organize_file basic_unicode quiet_env lecture_ru empty_world).1 = Done true
  ∧ (@organize_file basic_unicode no_room_for_metadata_env lecture_ru empty_world).1
    = Done false.
Proof. vm_compute. by split. Qed.

(** Where the Russian lecture goes. *)
Example lecture_ru_sample :
  @destination basic_unicode quiet_env lecture_ru empty_world
  = (u8 "lecture", u8 "physics_lecture_2025-09-12_presentations_01.pptx").
Proof. vm_compute. reflexivity. Qed.

Lemma metadata_writable_no_failure `{PyUnicode} (e : Env) (file_path : SourcePath)
    (w : World) :
  metadata_writable (e, file_path) = true → metadata_fails e file_path w = false.
Proof.
  unfold metadata_writable, metadata_fails. cbn [fst snd].
  intros [[[Hm Hwrite]%andb_true_iff Ht]%andb_true_iff Hf]%andb_true_iff.
  destruct (metadata_error e); [done|]. destruct (metadata_write e); [|done].
  rewrite (text_written e file_path w Ht Hf).
  destruct (is_system_file (name file_path)), (mkdir_error e), (copy e); done.
Qed.

(** X15. The accounts balance when the metadata can always be written: in
    a run where every file has a name that is text and no metadata file
    fails to open or to be written, each file is counted exactly once, as
    processed, skipped or error, whatever else goes wrong (directories that
    cannot be made, copies that break off); started from zero,
    [total_files] is the sum of the three. *)
Theorem run_balanced `{PyUnicode} (files : list (Env * SourcePath)) (w : World) :
  forallb metadata_writable files = true →
  excess (stats (run_files files w).2) = excess (stats w)
  ∧ (stats w = empty_stats →
     total_files (stats (run_files files w).2)
     = processed (stats (run_files files w).2) + skipped (stats (run_files files w).2)
       + errors (stats (run_files files w).2)).
Proof.
  intros Hall.
  assert (excess (stats (run_files files w).2) = excess (stats w)) as Hex.
  { revert w; induction files as [|[e file_path] files IH]; intros w; [done|].
    cbn [forallb] in Hall. apply andb_true_iff in Hall as [Hone Hall].
    rewrite run_files_cons, (IH Hall), tally_step.
    rewrite (metadata_writable_no_failure e file_path w Hone). lia. }
  split; [done|]. intros Hw. rewrite Hw in Hex. unfold excess in Hex.
  cbn [empty_stats processed skipped errors total_files] in Hex. lia.
Qed.

Lemma run_balanced_witness :
  excess (stats (@run_files basic_unicode
                   [(quiet_env, notes_txt); (disk_full_env, lecture_ru);
                    (quiet_env, {| name := u8 ".hidden"; contents := [] |})]
                   empty_world).2)
  = excess (stats empty_world)
  ∧ (stats empty_world = empty_stats →
     total_files (stats (@run_files basic_unicode
                           [(quiet_env, notes_txt); (disk_full_env, lecture_ru);
                            (quiet_env, {| name := u8 ".hidden"; contents := [] |})]
                           empty_world).2)
     = processed (stats (@run_files basic_unicode
                           [(quiet_env, notes_txt); (disk_full_env, lecture_ru);
                            (quiet_env, {| name := u8 ".hidden"; contents := [] |})]
                           empty_world).2)
       + skipped (stats (@run_files basic_unicode
                           [(quiet_env, notes_txt); (disk_full_env, lecture_ru);
                            (quiet_env, {| name := u8 ".hidden"; contents := [] |})]
                           empty_world).2)
       + errors (stats (@run_files basic_unicode
                          [(quiet_env, notes_txt); (disk_full_env, lecture_ru);
                           (quiet_env, {| name := u8 ".hidden"; contents := [] |})]
                          empty_world).2)).
Proof.
  apply (@run_balanced basic_unicode
           [(quiet_env, notes_txt); (disk_full_env, lecture_ru);
            (quiet_env, {| name := u8 ".hidden"; contents := [] |})] empty_world).
  vm_compute. reflexivity.
Defined.

(** One processed, one error, one skipped. *)
Example run_balanced_sample :
  let s := stats (@run_files basic_unicode
                    [(quiet_env, notes_txt); (disk_full_env, lecture_ru);
                     (quiet_env, {| name := u8 ".hidden"; contents := [] |})]
                    empty_world).2 in
  total_files s = 3 ∧ processed s = 1 ∧ errors s = 1 ∧ skipped s = 1.
Proof. vm_compute. by split_and!. Qed.

(** * Names that are no text *)

Lemma write_chunks_not_text (info : FileInfo) :
  is_text (original_name info) = false →
  write_chunks (Json.chunks (to_dict info)) = (truncated_metadata, false).
Proof.
  intros Hs. destruct info as [orig subj cat dt ft nn]. cbn [original_name] in Hs.
  unfold to_dict.
  cbn [Json.chunks Json.member_chunks app Json.encode_value original_name].
  cbn [write_chunks].
  change (Utf8.encode (u8 "{")) with (Some [123%N]).
  change (Utf8.encode [10%N; 32%N; 32%N]) with (Some [10%N; 32%N; 32%N]).
  replace (Utf8.encode (Json.encode_basestring (u8 "original_name")))
    with (Some (34%N :: Utf8.bytes_of_string "original_name" ++ [34%N]))
    by (vm_compute; reflexivity).
  replace (Utf8.encode (u8 ": ")) with (Some [58%N; 32%N]) by (vm_compute; reflexivity).
  rewrite (encode_basestring_not_text orig Hs). vm_compute. reflexivity.
Qed.

Lemma truncated_metadata_prefix (kept : nat) :
  Json.load (take kept truncated_metadata) = None.
Proof.
  assert (forallb (λ k, match Json.load (take k truncated_metadata) with
                        | None => true
                        | Some _ => false
                        end) (seq 0 22) = true) as Hall by (vm_compute; reflexivity).
  destruct (decide (kept < 22)) as [Hlt|Hge].
  - rewrite forallb_forall in Hall. specialize (Hall kept).
    destruct (Json.load (take kept truncated_metadata)); [|done].
    discriminate Hall. apply in_seq. lia.
  - rewrite take_ge by (change (length truncated_metadata) with 21; lia).
    vm_compute. reflexivity.
Qed.

(** X16. A file whose name is no text (it holds a lone surrogate, which is
    how Python hands over a byte of the name that it could not decode) is
    copied and counted as processed, and then its metadata cannot be
    written: the call returns [False], counts an error as well, logs it, and
    leaves a metadata file that stops after the first key and cannot be
    loaded.  When, on top of that, the write to the file fails, the error
    logged is that of the write and the file holds the bytes that had
    reached it, the first ones of the same text. *)
Theorem undecodable_name_fails `{PyUnicode} (e : Env) (file_path : SourcePath)
    (w : World) :
  is_text (name file_path) = false →
  is_system_file (name file_path) = false →
  mkdir_error e = None → copy e = CopyCompletes → metadata_error e = None →
  (organize_file e file_path w).1 = Done false
  ∧ tree (organize_file e file_path w).2 !! destination e file_path w
    = Some (contents file_path)
  ∧ tree (organize_file e file_path w).2 !! metadata_path e file_path w
    = Some (match metadata_write e with
            | WriteCompletes => truncated_metadata
            | WriteRaises kept _ => take kept truncated_metadata
            end)
  ∧ Json.load truncated_metadata = None
  ∧ (∀ kept, Json.load (take kept truncated_metadata) = None)
  ∧ processed (stats (organize_file e file_path w).2) = processed (stats w) + 1
  ∧ errors (stats (organize_file e file_path w).2) = errors (stats w) + 1
  ∧ last (log (organize_file e file_path w).2)
    = Some (ERROR, u8 "Ошибка обработки " ++ name file_path ++ u8 ": "
                   ++ match metadata_write e with
                      | WriteCompletes => encode_error_text e
                      | WriteRaises _ err => err
                      end).
Proof.
  intros Hf Hsys Hmk Hcp Hmeta.
  pose proof (destination_not_metadata e file_path w) as Hne.
  pose proof (write_chunks_not_text (final_info e file_path w) Hf) as Hwr.
  destruct (metadata_write e) as [|kept err] eqn:Hwrite.
  - erewrite organize_file_encode_error by done.
    cbn [fst snd tree stats log]. split_and!; try done.
    + by rewrite lookup_insert_ne, lookup_insert_eq.
    + by rewrite lookup_insert_eq.
    + apply truncated_metadata_prefix.
    + by rewrite last_snoc.
  - erewrite organize_file_write_error by done. rewrite Hwr.
    cbn [fst snd tree stats log]. split_and!; try done.
    + by rewrite lookup_insert_ne, lookup_insert_eq.
    + by rewrite lookup_insert_eq.
    + apply truncated_metadata_prefix.
    + by rewrite last_snoc.
Qed.

Lemma undecodable_name_fails_witness :
  (@organize_file basic_unicode quiet_env undecodable_txt empty_world).1 = Done false
  ∧ tree (@organize_file basic_unicode quiet_env undecodable_txt empty_world).2
      !! @destination basic_unicode quiet_env undecodable_txt empty_world
    = Some (contents undecodable_txt)
  ∧ tree (@organize_file basic_unicode quiet_env undecodable_txt empty_world).2
      !! @metadata_path basic_unicode quiet_env undecodable_txt empty_world
    = Some (match metadata_write quiet_env with
            | WriteCompletes => truncated_metadata
            | WriteRaises kept _ => take kept truncated_metadata
            end)
  ∧ Json.load truncated_metadata = None
  ∧ (∀ kept, Json.load (take kept truncated_metadata) = None)
  ∧ processed (stats (@organize_file basic_unicode quiet_env undecodable_txt
                        empty_world).2)
    = processed (stats empty_world) + 1
  ∧ errors (stats (@organize_file basic_unicode quiet_env undecodable_txt
                     empty_world).2)
    = errors (stats empty_world) + 1
  ∧ last (log (@organize_file basic_unicode quiet_env undecodable_txt empty_world).2)
    = Some (ERROR, u8 "Ошибка обработки " ++ name undecodable_txt ++ u8 ": "
                   ++ match metadata_write quiet_env with
                      | WriteCompletes => encode_error_text quiet_env
                      | WriteRaises _ err => err
                      end).
Proof.
  apply (@undecodable_name_fails basic_unicode quiet_env undecodable_txt empty_world);
    vm_compute; reflexivity.
Defined.

(** The same file where nothing else fails: the file of 21 bytes and the
    error of the encoder. *)
Example undecodable_name_sample :
  let r := @organize_file basic_unicode quiet_env undecodable_txt empty_world in
  tree r.2 !! (u8 "_metadata", u8 "unknown_other_2026-11-04_documents_01.json")
  = Some truncated_metadata
  ∧ length truncated_metadata = 21
  ∧ last (log r.2)
    = Some (ERROR, u8 "Ошибка обработки " ++ name undecodable_txt
                   ++ u8 ": surrogates not allowed").
Proof. vm_compute. by split_and!. Qed.

(** * Letter case *)

(** ** Maps that keep the separators *)

Section Renaming.
Variable f : N → N.

Lemma rfind_fmap (c : N) (s : pystr) :
  (∀ x, (f x =? c)%N = (x =? c)%N) → Str.rfind c (f <$> s) = Str.rfind c s.
Proof.
  intros Hf. induction s as [|x s IH]; [done|].
  cbn [fmap list_fmap Str.rfind]. fold (fmap f s). by rewrite IH, Hf.
Qed.

Lemma split_fmap (c : N) (s : pystr) :
  (∀ x, (f x =? c)%N = (x =? c)%N) →
  Str.split c (f <$> s) = fmap (M:=list) f <$> Str.split c s.
Proof.
  intros Hf. induction s as [|x s IH]; [done|].
  cbn [fmap list_fmap Str.split]. fold (fmap f s). rewrite IH, Hf.
  destruct (x =? c)%N; [done|]. by destruct (Str.split c s).
Qed.

Lemma filter_fmap {A B} (g : A → B) (P : B → bool) (Q : A → bool) (l : list A) :
  (∀ x, P (g x) = Q x) → List.filter P (g <$> l) = g <$> List.filter Q l.
Proof.
  intros HPQ. induction l as [|x l IH]; [done|].
  cbn [fmap list_fmap List.filter]. fold (fmap g l). rewrite IH, HPQ.
  by destruct (Q x).
Qed.

Lemma last_fmap {A B} (g : A → B) (l : list A) (d : A) :
  List.last (g <$> l) (g d) = g (List.last l d).
Proof. induction l as [|x [|y l] IH]; done. Qed.

Hypothesis keeps_dot : ∀ x, (f x =? 46)%N = (x =? 46)%N.
Hypothesis keeps_slash : ∀ x, (f x =? 47)%N = (x =? 47)%N.

Lemma name_fmap (p : pystr) : Path.name (f <$> p) = f <$> Path.name p.
Proof.
  unfold Path.name. rewrite (split_fmap 47 p keeps_slash).
  rewrite (filter_fmap (fmap (M:=list) f) _
             (λ x, negb (bool_decide (x = [])) && negb (bool_decide (x = u8 ".")))).
  - exact (last_fmap (fmap (M:=list) f) _ []).
  - intros x. f_equal; f_equal.
    + apply bool_decide_ext. split; [apply fmap_nil_inv|by intros ->].
    + apply bool_decide_ext. change (u8 ".") with [46%N].
      destruct x as [|c [|c' x]]; try done. cbn [fmap list_fmap].
      specialize (keeps_dot c). split; intros [= Hc].
      * rewrite Hc, N.eqb_refl in keeps_dot. symmetry in keeps_dot.
        apply N.eqb_eq in keeps_dot. by subst.
      * subst c. rewrite N.eqb_refl in keeps_dot. apply N.eqb_eq in keeps_dot.
        by rewrite keeps_dot.
Qed.

Lemma suffix_fmap (p : pystr) : Path.suffix (f <$> p) = f <$> Path.suffix p.
Proof.
  unfold Path.suffix. cbv zeta.
  rewrite name_fmap, (rfind_fmap 46 _ keeps_dot), length_fmap.
  destruct (_ && _); [|done]. by rewrite fmap_drop.
Qed.

(** ** Maps that keep the classes of a pattern *)

Variable dig : N → bool.

Lemma take_n_fmap (cs : Re.cset) (n : nat) (s : pystr) :
  respects f dig cs →
  Re.take_n dig cs n (f <$> s)
  = (λ gr : pystr * pystr, (f <$> gr.1, f <$> gr.2)) <$> Re.take_n dig cs n s.
Proof.
  intros Hcs. revert s; induction n as [|n IH]; intros s; [done|].
  destruct s as [|c s]; [done|]. cbn [fmap list_fmap Re.take_n]. fold (fmap f s).
  rewrite Hcs. destruct (Re.in_cset dig cs c); [|done].
  rewrite IH. by destruct (Re.take_n dig cs n s) as [[g r]|].
Qed.

Lemma match_here_fmap (p : Re.pattern) (s : pystr) :
  Forall (λ it, respects f dig (item_cset it)) p →
  Re.match_here dig p (f <$> s) = fmap (M:=list) (fmap (M:=list) f) <$> Re.match_here dig p s.
Proof.
  intros Hp. revert s; induction Hp as [|[cs n|cs] p Hit Hp IH]; intros s; [done| |];
    cbn [Re.match_here item_cset] in *.
  - rewrite (take_n_fmap cs n s Hit).
    destruct (Re.take_n dig cs n s) as [[g r]|]; [|done]. cbn [fmap option_fmap option_map fst snd].
    rewrite IH. by destruct (Re.match_here dig p r).
  - destruct s as [|c s]; [done|]. cbn [fmap list_fmap]. fold (fmap f s).
    rewrite Hit. destruct (Re.in_cset dig cs c); [apply IH|done].
Qed.

Lemma search_fmap (p : Re.pattern) (s : pystr) :
  Forall (λ it, respects f dig (item_cset it)) p →
  Re.search dig p (f <$> s) = fmap (M:=list) (fmap (M:=list) f) <$> Re.search dig p s.
Proof.
  intros Hp. induction s as [|c s IH].
  - pose proof (match_here_fmap p [] Hp) as Hm.
    change (f <$> []) with (@nil N) in *. cbn [Re.search].
    by destruct (Re.match_here dig p []).
  - pose proof (match_here_fmap p (c :: s) Hp) as Hm.
    change (f <$> c :: s) with (f c :: (f <$> s)) in *. cbn [Re.search]. rewrite Hm.
    destruct (Re.match_here dig p (c :: s)); [done|].
    cbn [fmap option_fmap option_map]. exact IH.
Qed.

Lemma find_date_fmap (patterns : list Re.pattern) (s : pystr) :
  Forall (Forall (λ it, respects f dig (item_cset it))) patterns →
  f 45%N = 45%N →
  find_date (Re.search dig) patterns (f <$> s)
  = fmap (M:=list) f <$> find_date (Re.search dig) patterns s.
Proof.
  intros Hps Hhyphen. induction Hps as [|p ps Hp Hps IH]; [done|].
  cbn [find_date]. rewrite (search_fmap p s Hp), IH.
  destruct (Re.search dig p s) as [[|g1 [|g2 [|g3 [|g4 gs]]]]|]; try done.
  cbn [fmap option_fmap option_map list_fmap]. rewrite length_fmap.
  change (u8 "-") with [45%N].
  destruct (length g1 =? 4); cbn [fmap option_fmap option_map];
    rewrite !fmap_app; cbn [fmap list_fmap]; by rewrite Hhyphen.
Qed.

End Renaming.

(** ** Lower-casing of ASCII *)

Lemma lower_eqb (k : N) :
  (k < 65 ∨ 122 < k)%N → ∀ x, (Str.ascii_lower_cp x =? k)%N = (x =? k)%N.
Proof.
  intros Hk x. unfold Str.ascii_lower_cp.
  destruct (N.leb_spec 65 x), (N.leb_spec x 90); cbn [andb]; try done.
  destruct (N.eqb_spec (x + 32) k), (N.eqb_spec x k); lia || done.
Qed.

Lemma lower_digit (c : N) :
  Str.ascii_digit (Str.ascii_lower_cp c) = Str.ascii_digit c.
Proof.
  unfold Str.ascii_digit, Str.ascii_lower_cp.
  destruct (N.leb_spec 65 c), (N.leb_spec c 90); cbn [andb]; try done.
  destruct (N.leb_spec 48 (c + 32)), (N.leb_spec (c + 32) 57),
    (N.leb_spec 48 c), (N.leb_spec c 57); cbn [andb]; lia || done.
Qed.

Lemma digits_lower_fixed (g : pystr) :
  forallb Str.ascii_digit g = true → Str.ascii_lower_cp <$> g = g.
Proof.
  induction g as [|c g IH]; [done|]. cbn [forallb fmap list_fmap].
  intros [Hc Hg]%andb_true_iff. fold (fmap Str.ascii_lower_cp g). rewrite (IH Hg).
  f_equal. unfold Str.ascii_digit in Hc. apply andb_true_iff in Hc as [_ Hc%N.leb_le].
  unfold Str.ascii_lower_cp. destruct (N.leb_spec 65 c); [lia|done].
Qed.

Lemma lower_respects_dates :
  Forall (Forall (λ it, respects Str.ascii_lower_cp Str.ascii_digit (item_cset it)))
    date_patterns.
Proof.
  assert (∀ c, Re.in_cset Str.ascii_digit (Re.OneOf (u8 "-.")) (Str.ascii_lower_cp c)
               = Re.in_cset Str.ascii_digit (Re.OneOf (u8 "-.")) c) as Hsep.
  { intros c. change (u8 "-.") with [45%N; 46%N]. cbn [Re.in_cset].
    apply bool_decide_ext. rewrite !elem_of_cons, !elem_of_nil.
    pose proof (lower_eqb 45 ltac:(lia) c) as H45.
    pose proof (lower_eqb 46 ltac:(lia) c) as H46. revert H45 H46.
    destruct (N.eqb_spec (Str.ascii_lower_cp c) 45), (N.eqb_spec c 45),
      (N.eqb_spec (Str.ascii_lower_cp c) 46), (N.eqb_spec c 46);
      intros H45 H46; try discriminate H45; try discriminate H46; tauto. }
  unfold date_patterns.
  repeat (first [ apply Forall_nil_2 | apply Forall_cons_2 ]);
    cbn [item_cset]; first [ exact Hsep | intros c; apply lower_digit ].
Qed.

Lemma date_lower_fixed (s d : pystr) :
  find_date (Re.search Str.ascii_digit) date_patterns s = Some d →
  Str.ascii_lower_cp <$> d = d.
Proof.
  intros Hd.
  assert (∃ y m dd, d = y ++ u8 "-" ++ m ++ u8 "-" ++ dd
                    ∧ forallb Str.ascii_digit y = true
                    ∧ forallb Str.ascii_digit m = true
                    ∧ forallb Str.ascii_digit dd = true)
    as (y & m & dd & -> & Hy & Hm & Hdd).
  { pose proof (find_date_spec Str.ascii_digit s) as Hspec. rewrite Hd in Hspec.
    inversion Hspec as [i dd m y Hat _ Heq | i y m dd _ Hat _ Heq | ]; subst;
      destruct Hat as (s1 & s2 & rest & _ & _ & _ & _ & Hd1 & Hd2 & Hd3 & _);
      by exists y, m, dd. }
  change (u8 "-") with [45%N]. rewrite !fmap_app. cbn [fmap list_fmap].
  fold (fmap Str.ascii_lower_cp dd).
  by rewrite (digits_lower_fixed y), (digits_lower_fixed m), (digits_lower_fixed dd).
Qed.

Lemma is_ascii_subseteq (a b : pystr) : a ⊆ b → is_ascii b = true → is_ascii a = true.
Proof.
  unfold is_ascii. rewrite !forallb_forall. intros Hab Hb c Hc.
  by apply Hb, list_elem_of_In, Hab, list_elem_of_In.
Qed.

(** X17. On ASCII names the classification ignores the case of letters:
    two names that are equal once their capitals A-Z are made small get the
    same subject, the same category, the same date and the same file
    type. *)
Theorem classification_ignores_case `{PyUnicode} (a b : pystr) :
  is_ascii a = true → is_ascii b = true →
  Str.ascii_lower_cp <$> a = Str.ascii_lower_cp <$> b →
  subject (analyze_filename a) = subject (analyze_filename b)
  ∧ category (analyze_filename a) = category (analyze_filename b)
  ∧ date (analyze_filename a) = date (analyze_filename b)
  ∧ file_type (analyze_filename a) = file_type (analyze_filename b).
Proof.
  intros Ha Hb Heq.
  assert (str_lower a = str_lower b) as Hlow.
  { by rewrite !str_lower_ascii by (by apply is_ascii_Forall). }
  assert (str_lower (Path.suffix a) = str_lower (Path.suffix b)) as Hext.
  { rewrite !str_lower_ascii
      by (eapply is_ascii_Forall, is_ascii_subseteq; [apply suffix_subseteq|done]).
    rewrite <- !(suffix_fmap Str.ascii_lower_cp (lower_eqb 46 ltac:(lia))
                   (lower_eqb 47 ltac:(lia))).
    by rewrite Heq. }
  split_and!.
  - by rewrite !subject_analyze, Hlow.
  - by rewrite !category_analyze, Hlow.
  - rewrite !date_analyze.
    assert (∀ s, is_ascii s = true →
              find_date (Re.search re_digit) date_patterns s
              = find_date (Re.search Str.ascii_digit) date_patterns s) as Hdig.
    { intros s Hs. apply find_date_ext. intros p. apply search_ext.
      eapply Forall_impl; [apply is_ascii_Forall, Hs|].
      intros c Hc. by apply re_digit_ascii. }
    rewrite !Hdig by done.
    pose proof (find_date_fmap Str.ascii_lower_cp Str.ascii_digit date_patterns a
                  lower_respects_dates eq_refl) as Hda.
    pose proof (find_date_fmap Str.ascii_lower_cp Str.ascii_digit date_patterns b
                  lower_respects_dates eq_refl) as Hdb.
    rewrite Heq, Hdb in Hda.
    destruct (find_date (Re.search Str.ascii_digit) date_patterns a) as [d1|] eqn:H1,
      (find_date (Re.search Str.ascii_digit) date_patterns b) as [d2|] eqn:H2;
      try done.
    cbn [fmap option_fmap option_map] in Hda. injection Hda as Hda.
    f_equal. rewrite <- (date_lower_fixed a d1 H1), <- (date_lower_fixed b d2 H2).
    by rewrite Hda.
  - by rewrite !file_type_analyze, Hext.
Qed.

Lemma classification_ignores_case_witness :
  subject (@analyze_filename basic_unicode (u8 "Lecture_MATH_15.03.2024.PDF"))
  = subject (@analyze_filename basic_unicode (u8 "lecture_math_15.03.2024.pdf"))
  ∧ category (@analyze_filename basic_unicode (u8 "Lecture_MATH_15.03.2024.PDF"))
    = category (@analyze_filename basic_unicode (u8 "lecture_math_15.03.2024.pdf"))
  ∧ date (@analyze_filename basic_unicode (u8 "Lecture_MATH_15.03.2024.PDF"))
    = date (@analyze_filename basic_unicode (u8 "lecture_math_15.03.2024.pdf"))
  ∧ file_type (@analyze_filename basic_unicode (u8 "Lecture_MATH_15.03.2024.PDF"))
    = file_type (@analyze_filename basic_unicode (u8 "lecture_math_15.03.2024.pdf")).
Proof.
  apply (@classification_ignores_case basic_unicode
           (u8 "Lecture_MATH_15.03.2024.PDF") (u8 "lecture_math_15.03.2024.pdf"));
    vm_compute; reflexivity.
Defined.

(** What the two names are classified as. *)
Example ignores_case_sample :
  let i := @analyze_filename basic_unicode (u8 "Lecture_MATH_15.03.2024.PDF") in
  subject i = Some (u8 "math") ∧ category i = u8 "lecture"
  ∧ date i = Some (u8 "2024-03-15") ∧ file_type i = u8 "documents".
Proof. vm_compute. by split_and!. Qed.

(** * Properties of the whole run *)

Section WholeRun.
Context `{PyUnicode}.

(** The log is only written to: with another log in front, a call does the
    same and logs the same lines. *)
Lemma organize_file_log (e : Env) (file_path : SourcePath) (w : World)
    (l : list (level * pystr)) :
  ∃ r s t lines,
    organize_file e file_path w = (r, {| stats := s; log := log w ++ lines; tree := t |})
    ∧ organize_file e file_path (with_log l w)
      = (r, {| stats := s; log := l ++ lines; tree := t |}).
Proof.
  assert (final_info e file_path (with_log l w) = final_info e file_path w) as Hfi
    by reflexivity.
  assert (info_line e file_path (with_log l w) = info_line e file_path w) as Hil
    by reflexivity.
  assert (destination e file_path (with_log l w) = destination e file_path w) as Hde
    by reflexivity.
  assert (metadata_path e file_path (with_log l w) = metadata_path e file_path w) as Hme
    by reflexivity.
  destruct (is_system_file (name file_path)) eqn:Hsys.
  { rewrite !organize_file_skip by done. by eexists _, _, _, _. }
  destruct (mkdir_error e) as [err|] eqn:Hmk.
  { erewrite !organize_file_mkdir_error by done. by eexists _, _, _, _. }
  destruct (copy e) as [|left_behind err] eqn:Hcp.
  2: { erewrite !organize_file_copy_error by done. rewrite Hde.
       by eexists _, _, _, _. }
  destruct (metadata_error e) as [err|] eqn:Hmeta.
  { erewrite !organize_file_metadata_error by done. rewrite Hde, Hil.
    rewrite <- !app_assoc. by eexists _, _, _, _. }
  destruct (metadata_write e) as [|kept werr] eqn:Hwrite.
  2: { erewrite !organize_file_write_error by done. rewrite Hde, Hil, Hme, Hfi.
       rewrite <- !app_assoc. by eexists _, _, _, _. }
  destruct (write_chunks (Json.chunks (to_dict (final_info e file_path w))))
    as [data [|]] eqn:Hwr.
  - erewrite (organize_file_success e file_path w) by done.
    erewrite (organize_file_success e file_path (with_log l w)) by (by rewrite ?Hfi).
    rewrite Hde, Hil, Hme. by eexists _, _, _, _.
  - erewrite (organize_file_encode_error e file_path w) by done.
    erewrite (organize_file_encode_error e file_path (with_log l w))
      by (by rewrite ?Hfi).
    rewrite Hde, Hil, Hme. rewrite <- !app_assoc. by eexists _, _, _, _.
Qed.

Lemma run_files_log (files : list (Env * SourcePath)) (w : World)
    (l : list (level * pystr)) :
  ∃ s t lines,
    run_files files w = (Done tt, {| stats := s; log := log w ++ lines; tree := t |})
    ∧ run_files files (with_log l w)
      = (Done tt, {| stats := s; log := l ++ lines; tree := t |}).
Proof.
  revert w l; induction files as [|[e file_path] files IH]; intros w l.
  - exists (stats w), (tree w), []. rewrite !app_nil_r. by destruct w.
  - rewrite !run_files_cons.
    destruct (organize_file_log e file_path w l) as (r & s & t & lines & -> & ->).
    cbn [snd].
    destruct (IH {| stats := s; log := log w ++ lines; tree := t |} (l ++ lines))
      as (s' & t' & lines' & -> & Hl).
    unfold with_log in Hl. cbn [stats log tree] in Hl. rewrite Hl.
    exists s', t', (lines ++ lines'). by rewrite !app_assoc.
Qed.

Lemma run_files_total (files : list (Env * SourcePath)) (w : World) :
  total_files (stats (run_files files w).2) = total_files (stats w) + length files.
Proof.
  revert w; induction files as [|[e file_path] files IH]; intros w.
  - cbn. lia.
  - rewrite run_files_cons, IH, total_files_step. cbn [length]. lia.
Qed.

(** What [main] does when the source directory exists and the organizer
    could be set up: the statistics start from zero, the opening lines are
    logged, the listed files are organized and the report is written. *)
Lemma main_runs (args : Args) (s : Surroundings) (w : World) :
  source_exists s = true → init_error s = None →
  ∃ st t lines,
    run_files (listed s (recursive args))
      {| stats := empty_stats; log := []; tree := tree w |}
    = (Done tt, {| stats := st; log := lines; tree := t |})
    ∧ main args s w
      = match report s st with
        | ReportWritten data =>
            (Done 0%Z,
             {| stats := st; log := log w ++ opening_lines args s ++ lines;
                tree := <[report_file := data]> t |})
        | ReportRaises left_behind err =>
            (Raised err,
             {| stats := st; log := log w ++ opening_lines args s ++ lines;
                tree := match left_behind with
                        | Some part => <[report_file := part]> t
                        | None => t
                        end |})
        end.
Proof.
  intros Hex Hinit.
  destruct (run_files_log (listed s (recursive args))
              {| stats := empty_stats; log := []; tree := tree w |}
              (log w ++ opening_lines args s)) as (st & t & lines & Hrun & Hrun').
  exists st, t, lines. split; [exact Hrun|].
  unfold with_log in Hrun'. cbn [stats log tree] in Hrun'.
  assert (length (listed s (recursive args))
          = length (List.filter is_file
                      (if recursive args then rglob s else glob s))) as Hlen
    by (unfold listed; apply length_fmap).
  unfold opening_lines in *. rewrite Hlen in *. clear Hlen Hrun.
  unfold main, run, init, generate_report. rewrite Hex, Hinit. cbn [negb].
  fold (listed s (recursive args)).
  unfold mbind, M_bind, mret, M_ret, Run.bind, Run.ret, Run.raise, Run.get,
    Run.update_stats, Run.write_file, Run.logger.
  destruct (dry_run args); cbv beta iota zeta; cbn [stats log tree app] in *;
    rewrite <- ?app_assoc in *; cbn [app] in *; rewrite Hrun'; cbn [stats log tree];
    by destruct (report s st) as [data|[part|] err].
Qed.

End WholeRun.

(** X18. [--dry-run] does not hold anything back: with the flag, [main]
    ends the same way, leaves the same files in the target directory (every
    copy, every metadata file, the report) and the same statistics as
    without it; the one difference is a line in the log, written before the
    run starts. *)
Theorem dry_run_copies_all_the_same `{PyUnicode} (args : Args) (s : Surroundings)
    (w : World) :
  (main (set_dry_run true args) s w).1 = (main (set_dry_run false args) s w).1
  ∧ stats (main (set_dry_run true args) s w).2
    = stats (main (set_dry_run false args) s w).2
  ∧ tree (main (set_dry_run true args) s w).2
    = tree (main (set_dry_run false args) s w).2
  ∧ (source_exists s = true → init_error s = None →
     ∃ rest,
       log (main (set_dry_run false args) s w).2 = log w ++ rest
       ∧ log (main (set_dry_run true args) s w).2
         = log w ++ [(INFO, u8 "РЕЖИМ ТЕСТИРОВАНИЯ (dry-run)")] ++ rest)
  ∧ (source_exists s = false ∨ init_error s ≠ None →
     main (set_dry_run true args) s w = main (set_dry_run false args) s w).
Proof.
  destruct (source_exists s) eqn:Hex.
  2: { unfold main. rewrite Hex. cbn [negb]. split_and!; try done. }
  destruct (init_error s) as [err|] eqn:Hinit.
  { unfold main, init. rewrite Hex, Hinit. cbn [negb]. split_and!; try done. }
  destruct (main_runs (set_dry_run true args) s w Hex Hinit)
    as (st & t & lines & Hrun & ->).
  destruct (main_runs (set_dry_run false args) s w Hex Hinit)
    as (st' & t' & lines' & Hrun' & ->).
  cbn [set_dry_run recursive] in Hrun, Hrun'. rewrite Hrun in Hrun'.
  injection Hrun' as <- <- <-.
  unfold opening_lines. cbn [set_dry_run recursive dry_run app].
  split_and!.
  - by destruct (report s st).
  - by destruct (report s st).
  - by destruct (report s st).
  - intros _ _. eexists. by destruct (report s st); cbn [snd log].
  - by intros [|].
Qed.

(** X19. The exit status says nothing about the files.  [main] returns 1,
    having touched nothing, when the source directory does not exist; it
    raises when the organizer cannot be set up; otherwise every listed entry
    that is a file is handed to [organize_file] (directories are not, and
    are not counted), and [main] returns 0 as soon as the report could be
    written over the target directory, however many files were counted as
    errors, and raises only what [generate_report] raises. *)
Theorem main_exit_status `{PyUnicode} (args : Args) (s : Surroundings) (w : World) :
  (source_exists s = false → main args s w = (Done 1%Z, w))
  ∧ (∀ err, source_exists s = true → init_error s = Some err →
       main args s w = (Raised err, w))
  ∧ (source_exists s = true → init_error s = None →
     stats (main args s w).2
     = stats (run_files (listed s (recursive args))
                {| stats := empty_stats; log := []; tree := tree w |}).2
     ∧ total_files (stats (main args s w).2)
       = length (List.filter is_file (if recursive args then rglob s else glob s))
     ∧ match report s (stats (main args s w).2) with
       | ReportWritten data =>
           (main args s w).1 = Done 0%Z
           ∧ tree (main args s w).2
             = <[report_file := data]>
                 (tree (run_files (listed s (recursive args))
                          {| stats := empty_stats; log := []; tree := tree w |}).2)
       | ReportRaises _ err => (main args s w).1 = Raised err
       end).
Proof.
  split_and!.
  - intros Hex. unfold main. by rewrite Hex.
  - intros err Hex Hinit. unfold main, init. by rewrite Hex, Hinit.
  - intros Hex Hinit.
    destruct (main_runs args s w Hex Hinit) as (st & t & lines & Hrun & Hmain).
    pose proof (run_files_total (listed s (recursive args))
                  {| stats := empty_stats; log := []; tree := tree w |}) as Htot.
    rewrite Hrun in *. cbn [snd stats] in *.
    assert (stats (main args s w).2 = st) as Hst.
    { rewrite Hmain. by destruct (report s st). }
    rewrite Hst. split_and!; [done| |].
    + rewrite Htot. unfold listed. rewrite length_fmap. done.
    + rewrite Hmain. by destruct (report s st).
Qed.

(** A dry run of it: the exit status is 0, [notes.txt] is copied, the
    broken copy of the lecture is left, two files are counted, one of them
    as an error, and the log starts with the line of the dry run. *)
Example dry_run_sample :
  let r := @main basic_unicode
             {| source := u8 "study"; target := None; recursive := false;
                dry_run := true |} sample_surroundings empty_world in
  r.1 = Done 0%Z
  ∧ tree r.2 !! (u8 "other", u8 "unknown_other_2026-11-04_documents_01.txt")
    = Some [1; 2; 3; 4]%N
  ∧ tree r.2 !! (u8 "lecture", u8 "physics_lecture_2025-09-12_presentations_01.pptx")
    = Some [1; 2]%N
  ∧ tree r.2 !! report_file = Some [2; 1; 0; 1]%N
  ∧ total_files (stats r.2) = 2 ∧ errors (stats r.2) = 1
  ∧ log r.2 !! 0 = Some (INFO, u8 "РЕЖИМ ТЕСТИРОВАНИЯ (dry-run)")
  ∧ log r.2 !! 2 = Some (INFO, u8 "Найдено 2 файлов для обработки").
Proof. vm_compute. by split_and!. Qed.

(** * The extension takes part in the keyword search *)

Lemma occurs_trans (a b c : pystr) : occurs a b → occurs b c → occurs a c.
Proof.
  intros (a1 & a2 & ->) (b1 & b2 & ->). exists (b1 ++ a1), (a2 ++ b2).
  by rewrite <- !app_assoc.
Qed.

Lemma occurs_cons (k s : pystr) (x : N) : occurs k s → occurs k (x :: s).
Proof. intros (a & b & ->). by exists (x :: a), b. Qed.

Lemma split_head_prefix (c : N) (s : pystr) :
  ∃ w ws rest, Str.split c s = w :: ws ∧ s = w ++ rest.
Proof.
  induction s as [|x s (w & ws & rest & Hs & Hw)]; cbn [Str.split].
  - by exists [], [], [].
  - destruct (x =? c)%N.
    + by exists [], (Str.split c s), (x :: s).
    + rewrite Hs. exists (x :: w), ws, rest. by rewrite Hw at 1.
Qed.

Lemma split_occurs (c : N) (s part : pystr) : part ∈ Str.split c s → occurs part s.
Proof.
  revert part. induction s as [|x s IH]; intros part; cbn [Str.split].
  - intros ->%list_elem_of_singleton. by exists [], [].
  - destruct (split_head_prefix c s) as (w & ws & rest & Hs & Hw).
    destruct (x =? c)%N.
    + intros [->|Hin]%elem_of_cons; [by exists [], (x :: s)|].
      by apply occurs_cons, IH.
    + rewrite Hs in *. intros [->|Hin]%elem_of_cons.
      * exists [], rest. by rewrite Hw at 1.
      * apply occurs_cons, IH. by right.
Qed.

Lemma name_occurs (p : pystr) : occurs (Path.name p) p.
Proof.
  unfold Path.name.
  destruct (last_default_or_in
              (List.filter (λ x, negb (bool_decide (x = []))
                                 && negb (bool_decide (x = u8 ".")))
                 (Str.split 47 p)) []) as [-> | Hin].
  - by exists [], p.
  - apply list_elem_of_In, filter_In in Hin as [Hin _].
    by apply (split_occurs 47 p), list_elem_of_In.
Qed.

(** The suffix is a part of the path. *)
Lemma suffix_occurs (p : pystr) : occurs (Path.suffix p) p.
Proof.
  unfold Path.suffix. cbv zeta. destruct (_ && _); [|by exists [], p].
  apply (occurs_trans _ (Path.name p)); [|apply name_occurs].
  exists (take (Z.to_nat (Str.rfind 46 (Path.name p))) (Path.name p)), [].
  by rewrite app_nil_r, take_drop.
Qed.

(** With a keyword of the entry at [i] in the lower-cased name, the subject
    found is that of an entry at [i] or before. *)
Lemma subject_bound `{PyUnicode} (filename k : pystr) (i : nat) (label : pystr)
    (kws : list pystr) :
  subject_patterns !! i = Some (label, kws) → k ∈ kws →
  occurs k (str_lower filename) →
  ∃ found, subject (analyze_filename filename) = Some found
           ∧ found ∈ (take (S i) subject_patterns).*1.
Proof.
  intros Hi Hk Hocc. rewrite subject_analyze.
  destruct (first_entry (any_in (str_lower filename)) subject_patterns)
    as [found|] eqn:Hfirst.
  - exists found. split; [done|].
    apply first_entry_Some in Hfirst as (j & kws' & Hj & _ & Hbefore).
    destruct (decide (j ≤ i)) as [Hle|Hgt].
    + apply (list_elem_of_fmap_2 fst (take (S i) subject_patterns) (found, kws')).
      apply (list_elem_of_lookup_2 _ j). rewrite lookup_take_lt by lia. done.
    + specialize (Hbefore i label kws ltac:(lia) Hi).
      rewrite any_in_false in Hbefore. by destruct (Hbefore k Hk).
  - rewrite first_entry_None in Hfirst.
    specialize (Hfirst label kws (list_elem_of_lookup_2 _ _ _ Hi)).
    rewrite any_in_false in Hfirst. by destruct (Hfirst k Hk).
Qed.

(** X20. The extension takes part in the search for the subject, since the
    keywords are looked for in the whole lower-cased name: a file whose
    extension is [.html], [.css] or [.js] always gets a subject, web or one
    that comes before it in the table, and one whose extension is [.sql]
    gets database or one that comes before it, whatever the rest of the name
    says. *)
Theorem extension_gives_subject `{PyUnicode} (filename : pystr) :
  Path.suffix filename ∈ [u8 ".html"; u8 ".css"; u8 ".js"; u8 ".sql"] →
  subject (analyze_filename filename)
  ∈ [Some (u8 "math"); Some (u8 "programming"); Some (u8 "database"); Some (u8 "web")]
  ∧ (Path.suffix filename = u8 ".sql" →
     subject (analyze_filename filename)
     ∈ [Some (u8 "math"); Some (u8 "programming"); Some (u8 "database")]).
Proof.
  intros Hsuf. pose proof (suffix_occurs filename) as Hocc.
  assert (∀ k i label kws,
            subject_patterns !! i = Some (label, kws) → k ∈ kws →
            forallb Str.lower_stable k = true → occurs k (Path.suffix filename) →
            ∃ found, subject (analyze_filename filename) = Some found
                     ∧ found ∈ (take (S i) subject_patterns).*1) as Hkey.
  { intros k i label kws Hi Hk Hst Hks.
    apply (subject_bound filename k i label kws Hi Hk).
    apply occurs_lower; [done|]. by apply (occurs_trans _ (Path.suffix filename)). }
  assert (∀ found : pystr,
            found ∈ (take 3 subject_patterns).*1 →
            Some found ∈ [Some (u8 "math"); Some (u8 "programming");
                          Some (u8 "database")]) as H3.
  { intros found Hf. exact (list_elem_of_fmap_2 Some _ _ Hf). }
  assert (∀ found : pystr,
            found ∈ (take 4 subject_patterns).*1 →
            Some found ∈ [Some (u8 "math"); Some (u8 "programming");
                          Some (u8 "database"); Some (u8 "web")]) as H4.
  { intros found Hf. exact (list_elem_of_fmap_2 Some _ _ Hf). }
  assert (∀ o : option pystr,
            o ∈ [Some (u8 "math"); Some (u8 "programming"); Some (u8 "database")] →
            o ∈ [Some (u8 "math"); Some (u8 "programming"); Some (u8 "database");
                 Some (u8 "web")]) as H34.
  { intros o Ho. rewrite !elem_of_cons in *. tauto. }
  rewrite !elem_of_cons, elem_of_nil in Hsuf.
  destruct Hsuf as [Hs|[Hs|[Hs|[Hs|[]]]]]; rewrite Hs in *.
  - destruct (Hkey (u8 "html") 3 (u8 "web")
                [u8 "веб"; u8 "web"; u8 "html"; u8 "css"; u8 "js"])
      as (found & -> & Hin);
      [reflexivity|apply list_elem_of_In; vm_compute; tauto|reflexivity
      |apply contains_spec; vm_compute; reflexivity|].
    split; [by apply H4|]. intros Heq. exfalso. revert Heq. vm_compute. discriminate.
  - destruct (Hkey (u8 "css") 3 (u8 "web")
                [u8 "веб"; u8 "web"; u8 "html"; u8 "css"; u8 "js"])
      as (found & -> & Hin);
      [reflexivity|apply list_elem_of_In; vm_compute; tauto|reflexivity
      |apply contains_spec; vm_compute; reflexivity|].
    split; [by apply H4|]. intros Heq. exfalso. revert Heq. vm_compute. discriminate.
  - destruct (Hkey (u8 "js") 3 (u8 "web")
                [u8 "веб"; u8 "web"; u8 "html"; u8 "css"; u8 "js"])
      as (found & -> & Hin);
      [reflexivity|apply list_elem_of_In; vm_compute; tauto|reflexivity
      |apply contains_spec; vm_compute; reflexivity|].
    split; [by apply H4|]. intros Heq. exfalso. revert Heq. vm_compute. discriminate.
  - destruct (Hkey (u8 "sql") 2 (u8 "database")
                [u8 "баз"; u8 "database"; u8 "sql"; u8 "бд"])
      as (found & -> & Hin);
      [reflexivity|apply list_elem_of_In; vm_compute; tauto|reflexivity
      |apply contains_spec; vm_compute; reflexivity|].
    split; [by apply H34, H3|]. intros _. by apply H3.
Qed.

Lemma extension_gives_subject_witness :
  subject (@analyze_filename basic_unicode (u8 "readme.js"))
  ∈ [Some (u8 "math"); Some (u8 "programming"); Some (u8 "database"); Some (u8 "web")]
  ∧ (Path.suffix (u8 "readme.js") = u8 ".sql" →
     subject (@analyze_filename basic_unicode (u8 "readme.js"))
     ∈ [Some (u8 "math"); Some (u8 "programming"); Some (u8 "database")]).
Proof.
  apply (@extension_gives_subject basic_unicode (u8 "readme.js")).
  apply list_elem_of_In. vm_compute. tauto.
Defined.

(** [readme.js] is a file on the web, [dump.sql] one on databases. *)
Example extension_subject_sample :
  subject (@analyze_filename basic_unicode (u8 "readme.js")) = Some (u8 "web")
  ∧ subject (@analyze_filename basic_unicode (u8 "dump.sql")) = Some (u8 "database").
Proof. vm_compute. by split. Qed.

(** * What a run leaves in the tree *)

Section Leaves.
Context `{PyUnicode}.

Lemma organize_file_loadable (e : Env) (file_path : SourcePath) (w : World) :
  written_whole (e, file_path) = true →
  loadable (tree w) → loadable (tree (organize_file e file_path w).2).
Proof.
  unfold written_whole. cbn [fst snd].
  intros [[Ht Hf]%andb_true_iff Hwrite]%andb_true_iff Hload n data.
  destruct (metadata_write e) eqn:Hflush; [clear Hwrite|done].
  pose proof (destination_subdir e file_path w) as Hsub.
  assert ((u8 "_metadata", n) ≠ destination e file_path w) as Hne.
  { intros Heq. apply Hsub. by rewrite <- Heq. }
  destruct (decide ((u8 "_metadata", n) = metadata_path e file_path w)) as [Heq|Hnm].
  2: { rewrite organize_file_frame by done. apply Hload. }
  rewrite Heq.
  pose proof (destination_not_metadata e file_path w) as Hdm.
  destruct (is_system_file (name file_path)) eqn:Hsys.
  { rewrite organize_file_skip by done. cbn [snd tree]. rewrite <- Heq. apply Hload. }
  destruct (mkdir_error e) as [err|] eqn:Hmk.
  { erewrite organize_file_mkdir_error by done. cbn [snd tree]. rewrite <- Heq.
    apply Hload. }
  destruct (copy e) as [|left_behind err] eqn:Hcp.
  2: { erewrite organize_file_copy_error by done. cbn [snd tree].
       destruct left_behind; rewrite ?lookup_insert_ne by done; rewrite <- Heq;
         apply Hload. }
  destruct (metadata_error e) as [err|] eqn:Hmeta.
  { erewrite organize_file_metadata_error by done. cbn [snd tree].
    rewrite lookup_insert_ne by done. rewrite <- Heq. apply Hload. }
  pose proof (text_written e file_path w Ht Hf) as Hok.
  destruct (write_chunks (Json.chunks (to_dict (final_info e file_path w))))
    as [written ok] eqn:Hwr.
  cbn [snd] in Hok. subst ok.
  erewrite organize_file_success by done. cbn [snd tree].
  rewrite lookup_insert_eq. intros [= <-].
  rewrite (written_metadata_loads _ _ Hwr). by eexists.
Qed.

Lemma organize_file_size (e : Env) (file_path : SourcePath) (w : World) :
  size (tree w) ≤ size (tree (organize_file e file_path w).2) ≤ size (tree w) + 2.
Proof.
  assert (∀ (t : gmap (pystr * pystr) pybytes) k v,
            size t ≤ size (<[k := v]> t) ≤ size t + 1) as Hins.
  { intros t k v. rewrite map_size_insert. destruct (t !! k); cbn; lia. }
  destruct (is_system_file (name file_path)) eqn:Hsys.
  { rewrite organize_file_skip by done. cbn [snd tree]. lia. }
  destruct (mkdir_error e) as [err|] eqn:Hmk.
  { erewrite organize_file_mkdir_error by done. cbn [snd tree]. lia. }
  destruct (copy e) as [|left_behind err] eqn:Hcp.
  2: { erewrite organize_file_copy_error by done. cbn [snd tree].
       destruct left_behind as [part|]; [|lia].
       pose proof (Hins (tree w) (destination e file_path w) part). lia. }
  pose proof (Hins (tree w) (destination e file_path w) (contents file_path)) as H1.
  destruct (metadata_error e) as [err|] eqn:Hmeta.
  { erewrite organize_file_metadata_error by done. cbn [snd tree]. lia. }
  destruct (metadata_write e) as [|kept werr] eqn:Hwrite.
  2: { erewrite organize_file_write_error by done. cbn [snd tree].
       pose proof (Hins (<[destination e file_path w := contents file_path]> (tree w))
                     (metadata_path e file_path w)
                     (take kept
                        (write_chunks
                           (Json.chunks (to_dict (final_info e file_path w)))).1)).
       lia. }
  destruct (write_chunks (Json.chunks (to_dict (final_info e file_path w))))
    as [written [|]] eqn:Hwr.
  - erewrite organize_file_success by done. cbn [snd tree].
    pose proof (Hins (<[destination e file_path w := contents file_path]> (tree w))
                  (metadata_path e file_path w) written). lia.
  - erewrite organize_file_encode_error by done. cbn [snd tree].
    pose proof (Hins (<[destination e file_path w := contents file_path]> (tree w))
                  (metadata_path e file_path w) written). lia.
Qed.

Lemma organize_file_stays (e : Env) (file_path : SourcePath) (w : World)
    (p : pystr * pystr) :
  is_Some (tree w !! p) → is_Some (tree (organize_file e file_path w).2 !! p).
Proof.
  intros Hp.
  assert (∀ (t : gmap (pystr * pystr) pybytes) k v,
            is_Some (t !! p) → is_Some (<[k := v]> t !! p)) as Hins.
  { intros t k v Ht. destruct (decide (k = p)) as [->|Hne].
    - rewrite lookup_insert_eq. by eexists.
    - by rewrite lookup_insert_ne. }
  destruct (is_system_file (name file_path)) eqn:Hsys.
  { by rewrite organize_file_skip. }
  destruct (mkdir_error e) as [err|] eqn:Hmk.
  { by erewrite organize_file_mkdir_error. }
  destruct (copy e) as [|left_behind err] eqn:Hcp.
  2: { erewrite organize_file_copy_error by done. cbn [snd tree].
       destruct left_behind; [by apply Hins|done]. }
  destruct (metadata_error e) as [err|] eqn:Hmeta.
  { erewrite organize_file_metadata_error by done. cbn [snd tree]. by apply Hins. }
  destruct (metadata_write e) as [|kept werr] eqn:Hwrite.
  2: { erewrite organize_file_write_error by done. cbn [snd tree].
       by apply Hins, Hins. }
  destruct (write_chunks (Json.chunks (to_dict (final_info e file_path w))))
    as [written [|]] eqn:Hwr.
  - erewrite organize_file_success by done. cbn [snd tree]. by apply Hins, Hins.
  - erewrite organize_file_encode_error by done. cbn [snd tree]. by apply Hins, Hins.
Qed.

End Leaves.

(** X21. The metadata directory stays loadable as long as no write to a
    metadata file breaks off: when every metadata file of the tree loads as
    a record before a run, the files of the run have names that are text
    (and the date of the day is text) and no write to a metadata file
    fails, every metadata file loads as a record after the run, whatever
    else fails on the way (a directory that cannot be made, a copy that
    breaks off, a metadata file that cannot be opened). *)
Theorem metadata_stays_loadable `{PyUnicode} (files : list (Env * SourcePath))
    (w : World) :
  forallb written_whole files = true →
  loadable (tree w) → loadable (tree (run_files files w).2).
Proof.
  revert w; induction files as [|[e file_path] files IH]; intros w Hall Hw; [done|].
  cbn [forallb] in Hall. apply andb_true_iff in Hall as [Hone Hall].
  rewrite run_files_cons. apply IH; [done|]. by apply organize_file_loadable.
Qed.

Lemma metadata_stays_loadable_witness :
  forallb written_whole [(quiet_env, notes_txt); (read_only_metadata_env, lecture_ru);
                         (disk_full_env, photo_jpg)] = true
  ∧ loadable (tree (@run_files basic_unicode
                      [(quiet_env, notes_txt); (read_only_metadata_env, lecture_ru);
                       (disk_full_env, photo_jpg)] empty_world).2).
Proof.
  split; [vm_compute; reflexivity|].
  apply (@metadata_stays_loadable basic_unicode
           [(quiet_env, notes_txt); (read_only_metadata_env, lecture_ru);
            (disk_full_env, photo_jpg)] empty_world).
  - vm_compute. reflexivity.
  - intros n data Hn. unfold empty_world in Hn. cbn [tree] in Hn.
    by rewrite lookup_empty in Hn.
Defined.

(** X23. A write to the metadata file that fails, after the copy was made
    and the file was opened, leaves the file cut short: the call returns
    [False], the copy stays, the metadata file holds the bytes that had
    reached it (none when the disk was full from the start), the file is
    counted as processed and as an error, the error logged is that of the
    write, and with an empty metadata file the metadata directory is no
    longer loadable. *)
Theorem metadata_cut_short `{PyUnicode} (e : Env) (file_path : SourcePath) (w : World)
    (kept : nat) (err : pystr) :
  is_system_file (name file_path) = false →
  mkdir_error e = None → copy e = CopyCompletes → metadata_error e = None →
  metadata_write e = WriteRaises kept err →
  (organize_file e file_path w).1 = Done false
  ∧ tree (organize_file e file_path w).2 !! destination e file_path w
    = Some (contents file_path)
  ∧ tree (organize_file e file_path w).2 !! metadata_path e file_path w
    = Some (take kept
              (write_chunks (Json.chunks (to_dict (final_info e file_path w)))).1)
  ∧ processed (stats (organize_file e file_path w).2) = processed (stats w) + 1
  ∧ errors (stats (organize_file e file_path w).2) = errors (stats w) + 1
  ∧ excess (stats (organize_file e file_path w).2) = (excess (stats w) + 1)%Z
  ∧ last (log (organize_file e file_path w).2)
    = Some (ERROR, u8 "Ошибка обработки " ++ name file_path ++ u8 ": " ++ err)
  ∧ (kept = 0 → ¬ loadable (tree (organize_file e file_path w).2)).
Proof.
  intros Hsys Hmk Hcp Hmeta Hwrite.
  pose proof (destination_not_metadata e file_path w) as Hne.
  erewrite organize_file_write_error by done.
  cbn [fst snd tree stats log]. split_and!; try done.
  - by rewrite lookup_insert_ne, lookup_insert_eq.
  - by rewrite lookup_insert_eq.
  - unfold excess. cbn. lia.
  - by rewrite last_snoc.
  - intros -> Hload.
    destruct (Hload (Path.stem (chosen_name e file_path w) ++ u8 ".json") [])
      as [info Hinfo]; [|discriminate Hinfo].
    fold (metadata_path e file_path w). by rewrite lookup_insert_eq.
Qed.

Lemma metadata_cut_short_witness :
  (@organize_file basic_unicode no_room_for_metadata_env notes_txt empty_world).1
  = Done false
  ∧ tree (@organize_file basic_unicode no_room_for_metadata_env notes_txt empty_world).2
      !! @destination basic_unicode no_room_for_metadata_env notes_txt empty_world
    = Some (contents notes_txt)
  ∧ tree (@organize_file basic_unicode no_room_for_metadata_env notes_txt empty_world).2
      !! @metadata_path basic_unicode no_room_for_metadata_env notes_txt empty_world
    = Some (take 0
              (write_chunks
                 (Json.chunks
                    (to_dict (@final_info basic_unicode no_room_for_metadata_env
                                notes_txt empty_world)))).1)
  ∧ processed (stats (@organize_file basic_unicode no_room_for_metadata_env notes_txt
                        empty_world).2)
    = processed (stats empty_world) + 1
  ∧ errors (stats (@organize_file basic_unicode no_room_for_metadata_env notes_txt
                     empty_world).2)
    = errors (stats empty_world) + 1
  ∧ excess (stats (@organize_file basic_unicode no_room_for_metadata_env notes_txt
                     empty_world).2)
    = (excess (stats empty_world) + 1)%Z
  ∧ last (log (@organize_file basic_unicode no_room_for_metadata_env notes_txt
                 empty_world).2)
    = Some (ERROR, u8 "Ошибка обработки " ++ name notes_txt ++ u8 ": "
                   ++ u8 "[Errno 28] No space left on device")
  ∧ (0 = 0 →
     ¬ loadable (tree (@organize_file basic_unicode no_room_for_metadata_env notes_txt
                         empty_world).2)).
Proof.
  apply (@metadata_cut_short basic_unicode no_room_for_metadata_env notes_txt
           empty_world 0 (u8 "[Errno 28] No space left on device"));
    vm_compute; reflexivity.
Defined.

(** [notes.txt] on a disk that is full once the copy is made: the copy and
    an empty metadata file, one file counted twice. *)
Example metadata_cut_short_sample :
  let r := @organize_file basic_unicode no_room_for_metadata_env notes_txt empty_world in
  r.1 = Done false
  ∧ tree r.2 !! (u8 "other", u8 "unknown_other_2026-11-04_documents_01.txt")
    = Some [1; 2; 3; 4]%N
  ∧ tree r.2 !! (u8 "_metadata", u8 "unknown_other_2026-11-04_documents_01.json")
    = Some []
  ∧ total_files (stats r.2) = 1 ∧ processed (stats r.2) = 1 ∧ errors (stats r.2) = 1.
Proof. vm_compute. by split_and!. Qed.

(** X22. A run only adds to the tree, and not much: no file that is in
    the tree before a run is missing after it, and the number of files grows
    by two at most for each file of the run (its copy and its metadata). *)
Theorem tree_grows_by_two `{PyUnicode} (files : list (Env * SourcePath)) (w : World) :
  (∀ p, is_Some (tree w !! p) → is_Some (tree (run_files files w).2 !! p))
  ∧ size (tree w) ≤ size (tree (run_files files w).2)
  ∧ size (tree (run_files files w).2) ≤ size (tree w) + 2 * length files.
Proof.
  revert w; induction files as [|[e file_path] files IH]; intros w.
  - cbn. split_and!; [done|lia..].
  - rewrite run_files_cons.
    destruct (IH (organize_file e file_path w).2) as (Hstay & Hlow & Hhigh).
    pose proof (organize_file_size e file_path w) as [H1 H2]. cbn [length].
    split_and!; [|lia..].
    intros p Hp. by apply Hstay, organize_file_stays.
Qed.

(** Three files, of which one is copied with its metadata, one without,
    and one in part: four files in the tree. *)
Example tree_growth_sample :
  size (tree (@run_files basic_unicode
                [(quiet_env, notes_txt); (read_only_metadata_env, lecture_ru);
                 (disk_full_env, photo_jpg)] empty_world).2) = 4.
Proof. vm_compute. reflexivity. Qed.
